(** * gerador-ebook: the request handler of [app.py], embedded and verified

    The program is a single FastAPI handler, [generate_ebook], with two
    helpers ([_response_text], [_extract_text_from_uploads]).  It validates a
    form, extracts text from uploads, drives a language-model provider through
    an analysis / draft / edit pipeline and renders the result to PDF.

    Modelling conventions.
    - A Python [str] is represented by its UTF-8 encoding, a Rocq [string]
      (one [ascii] per byte); [bytes] values are [string]s as well.
    - A [pathlib.Path] on POSIX is a root flag and the list of its components.
      [Path.resolve()] reads the file system (it follows symbolic links and
      can raise): it is an oracle of the environment.
    - Everything outside the process (file system, user database, the
      page-document reader, both providers, the markdown converter and the PDF
      renderer) is an oracle of the environment record [Env].  An oracle that
      can raise returns [exn + A]; an exception is represented by [str(exc)].
    - The handler runs in a small writer monad with early exit: the trace is
      the list of interactions with the outside world, in program order, and
      [Stop r] is a [return r] (or an exception leaving the handler). *)

From Stdlib Require Import String Ascii List Bool Arith Lia.
From Stdlib Require Import DecimalString.
Import ListNotations.

Open Scope list_scope.
Open Scope string_scope.
Open Scope nat_scope.

Set Implicit Arguments.

(* ------------------------------------------------------------------ *)
(** ** Python strings *)

Module PyStr.

Definition code (c : ascii) : nat := nat_of_ascii c.

(** The double quote character, which the prompt texts contain. *)
Definition dq : string := String (ascii_of_nat 34) EmptyString.
Definition nl : string := String (ascii_of_nat 10) EmptyString.

(** [str.isspace] per code point, on the UTF-8 encoding.
    One byte: U+0009..U+000D, U+001C..U+0020. *)
Definition ws1 (a : nat) : bool :=
  ((9 <=? a) && (a <=? 13)) || ((28 <=? a) && (a <=? 32)).

(** Two bytes: U+0085 (C2 85) and U+00A0 (C2 A0). *)
Definition ws2 (a b : nat) : bool :=
  (a =? 194) && ((b =? 133) || (b =? 160)).

(** Three bytes: U+1680, U+2000..U+200A, U+2028, U+2029, U+202F, U+205F,
    U+3000. *)
Definition ws3 (a b c : nat) : bool :=
  ((a =? 225) && (b =? 154) && (c =? 128))
  || ((a =? 226) && (b =? 128)
      && (((128 <=? c) && (c <=? 138)) || (c =? 168) || (c =? 169) || (c =? 175)))
  || ((a =? 226) && (b =? 129) && (c =? 159))
  || ((a =? 227) && (b =? 128) && (c =? 128)).

(** [str.lstrip()]: drop leading white space code points. *)
Fixpoint lstrip (s : string) : string :=
  match s with
  | EmptyString => EmptyString
  | String a s1 =>
      if ws1 (code a) then lstrip s1
      else match s1 with
           | EmptyString => s
           | String b s2 =>
               if ws2 (code a) (code b) then lstrip s2
               else match s2 with
                    | EmptyString => s
                    | String c s3 =>
                        if ws3 (code a) (code b) (code c) then lstrip s3 else s
                    end
           end
  end.

(** The same scan on the reversed byte sequence: the first byte met is the
    last byte of an encoded code point. *)
Fixpoint lstrip_rev (l : list ascii) : list ascii :=
  match l with
  | [] => []
  | c :: l1 =>
      if ws1 (code c) then lstrip_rev l1
      else match l1 with
           | [] => l
           | b :: l2 =>
               if ws2 (code b) (code c) then lstrip_rev l2
               else match l2 with
                    | [] => l
                    | a :: l3 =>
                        if ws3 (code a) (code b) (code c) then lstrip_rev l3 else l
                    end
           end
  end.

Definition rstrip (s : string) : string :=
  string_of_list_ascii (rev (lstrip_rev (rev (list_ascii_of_string s)))).

(** [str.strip()]. *)
Definition strip (s : string) : string := rstrip (lstrip s).

(** Truthiness of a [str]: non-empty. *)
Definition truthy (s : string) : bool :=
  match s with EmptyString => false | String _ _ => true end.

(** [a or b] on strings. *)
Definition or_else (a b : string) : string := if truthy a then a else b.

(** [str.lower()], restricted to what the callers observe: the result is
    only tested with [endswith] against ASCII suffixes, and no code point
    outside A..Z lowers to an ASCII letter of those suffixes. *)
Definition lower_ascii (c : ascii) : ascii :=
  if (65 <=? code c) && (code c <=? 90) then ascii_of_nat (code c + 32) else c.

Fixpoint lower (s : string) : string :=
  match s with
  | EmptyString => EmptyString
  | String c s' => String (lower_ascii c) (lower s')
  end.

(** [s.endswith(suf)]. *)
Definition endswith (s suf : string) : bool :=
  (String.length suf <=? String.length s)
  && String.eqb (substring (String.length s - String.length suf) (String.length suf) s) suf.

(** [sep.join(l)]. *)
Definition join (sep : string) (l : list string) : string := String.concat sep l.

(** [needle in s]. *)
Fixpoint contains (needle s : string) : bool :=
  prefix needle s
  || match s with
     | EmptyString => false
     | String _ s' => contains needle s'
     end.

(** [len(s)]: the number of code points, that is, of bytes that are not
    UTF-8 continuation bytes. *)
Fixpoint len (s : string) : nat :=
  match s with
  | EmptyString => 0
  | String c s' =>
      (if (128 <=? code c) && (code c <=? 191) then 0 else 1) + len s'
  end.

(** [str(n)] for a natural number. *)
Definition of_nat (n : nat) : string := NilZero.string_of_uint (Nat.to_uint n).

(** [s.split(sep)] for a one-character separator. *)
Fixpoint split_on (sep : ascii) (cur : string) (s : string) : list string :=
  match s with
  | EmptyString => [cur]
  | String c s' =>
      if Ascii.eqb c sep then cur :: split_on sep EmptyString s'
      else split_on sep (cur ++ String c EmptyString) s'
  end.

(** [s.encode("latin-1")] does not raise: no code point of [s] is above
    U+00FF.  In UTF-8 those are the code points whose encoding starts with a
    byte below 0xC4. *)
Definition latin1 (s : string) : bool :=
  forallb (fun c => code c <? 196) (list_ascii_of_string s).

End PyStr.

Import PyStr.

(* ------------------------------------------------------------------ *)
(** ** [pathlib.Path] on POSIX *)

Module Pathlib.

Record Path : Type := mkPath { is_absolute : bool; parts : list string }.

Definition slash : ascii := ascii_of_nat 47.

(** Components that the constructor keeps: empty components (doubled or
    trailing slashes) and ["."] are dropped, [".."] is kept. *)
Definition keep_part (p : string) : bool :=
  negb (String.eqb p "") && negb (String.eqb p ".").

(** [Path(s)].  A path that starts with exactly two slashes keeps the root
    ["//"] in Python; it is absolute like any other rooted path, and the model
    does not tell the two roots apart. *)
Definition of_string (s : string) : Path :=
  {| is_absolute := prefix "/" s;
     parts := filter keep_part (split_on slash EmptyString s) |}.

(** [base / p]. *)
Definition joinpath (base p : Path) : Path :=
  if is_absolute p then p
  else {| is_absolute := is_absolute base; parts := parts base ++ parts p |}.

(** [p.parent]. *)
Definition parent (p : Path) : Path :=
  {| is_absolute := is_absolute p; parts := removelast (parts p) |}.

(** [p.name]. *)
Definition name (p : Path) : string := last (parts p) "".

(** [str(p)]. *)
Definition to_string (p : Path) : string :=
  match is_absolute p, parts p with
  | true, ps => "/" ++ join "/" ps
  | false, [] => "."
  | false, ps => join "/" ps
  end.

(** [p.expanduser()]: a relative path whose first component starts with
    a tilde is re-rooted at the home directory of the named user ([""] is
    the current user); [RuntimeError] when no home directory is known. *)
Definition expanduser (home_of : string -> option Path) (p : Path) : string + Path :=
  if is_absolute p then inr p
  else match parts p with
       | first :: rest =>
           if prefix "~" first then
             match home_of (substring 1 (String.length first - 1) first) with
             | Some h => inr {| is_absolute := is_absolute h; parts := parts h ++ rest |}
             | None => inl "Could not determine home directory."
             end
           else inr p
       | [] => inr p
       end.

Fixpoint list_prefix (l1 l2 : list string) : bool :=
  match l1, l2 with
  | [], _ => true
  | a :: l1', b :: l2' => String.eqb a b && list_prefix l1' l2'
  | _ :: _, [] => false
  end.

(** [p.is_relative_to(base)]: [p] is [base] or lies below it. *)
Definition is_relative_to (p base : Path) : bool :=
  Bool.eqb (is_absolute p) (is_absolute base) && list_prefix (parts base) (parts p).

End Pathlib.

Import Pathlib.

(* ------------------------------------------------------------------ *)
(** ** [str.format] *)

Module Format.

(** A format string is literal text and replacement fields.  The program
    only uses named fields without conversion or format specification;
    doubled braces stand for one brace. *)
Inductive segment : Type :=
| Lit (s : string)
| Field (field_name : string).

Definition lbrace : ascii := ascii_of_nat 123.
Definition rbrace : ascii := ascii_of_nat 125.

(** The scanner: [lit] is the literal text read so far, [fld] the name of
    the field being read, if any.  [None] is Python's [ValueError] (a single
    closing brace, or a field that is not closed). *)
Fixpoint parse (s : string) (lit : string) (fld : option string)
  : option (list segment) :=
  match s with
  | EmptyString =>
      match fld with
      | None => Some [Lit lit]
      | Some _ => None
      end
  | String c s' =>
      match fld with
      | Some n =>
          if Ascii.eqb c rbrace
          then option_map (cons (Field n)) (parse s' EmptyString None)
          else parse s' lit (Some (n ++ String c EmptyString))
      | None =>
          if Ascii.eqb c lbrace then
            match s' with
            | String c' s'' =>
                if Ascii.eqb c' lbrace
                then parse s'' (lit ++ String lbrace EmptyString) None
                else option_map (cons (Lit lit)) (parse s' EmptyString (Some EmptyString))
            | EmptyString => None
            end
          else if Ascii.eqb c rbrace then
            match s' with
            | String c' s'' =>
                if Ascii.eqb c' rbrace
                then parse s'' (lit ++ String rbrace EmptyString) None
                else None
            | EmptyString => None
            end
          else parse s' (lit ++ String c EmptyString) None
      end
  end.

Fixpoint lookup (n : string) (kwargs : list (string * string)) : option string :=
  match kwargs with
  | [] => None
  | (k, v) :: rest => if String.eqb k n then Some v else lookup n rest
  end.

(** Filling the fields from the keyword arguments; a field without an
    argument is a [KeyError], whose [str] is the quoted name. *)
Fixpoint fill (segs : list segment) (kwargs : list (string * string))
  : string + string :=
  match segs with
  | [] => inr EmptyString
  | Lit s :: rest =>
      match fill rest kwargs with
      | inr r => inr (s ++ r)
      | inl e => inl e
      end
  | Field n :: rest =>
      match lookup n kwargs with
      | None => inl ("'" ++ n ++ "'")
      | Some v =>
          match fill rest kwargs with
          | inr r => inr (v ++ r)
          | inl e => inl e
          end
      end
  end.

(** [template.format( **kwargs )]. *)
Definition format (template : string) (kwargs : list (string * string))
  : string + string :=
  match parse template EmptyString None with
  | None => inl "Single '}' encountered in format string"
  | Some segs => fill segs kwargs
  end.

End Format.

Import Format.

(* ------------------------------------------------------------------ *)
(** ** Data: provider responses, uploads, the environment *)

(** An exception, as the program observes it: [str(exc)]. *)
Definition exn : Type := string.

(** The response object of the multi-turn provider, as [_response_text]
    reads it.  [None] for an attribute stands for every value that fails the
    test made on it: an absent attribute, Python's [None], and for the two
    [text] attributes a value that is not a [str].  The top-level [text] of
    the provider's library is a property that raises (a [ValueError]) when
    the response has no usable part; [getattr(response, "text", None)]
    catches an [AttributeError] only, so that reading it gives [inl exc] when
    it raises [exc]. *)
Module Gemini.
Record Part : Type := mkPart { part_text : option string }.
Record Content : Type := mkContent { parts : list Part }.
Record Candidate : Type := mkCandidate { content : option Content }.
Record Response : Type :=
  mkResponse { text : exn + option string; candidates : list Candidate }.
End Gemini.

(** The response object of the chat-completion provider:
    [response.choices[i].message.content]. *)
Module ChatCompletion.
Record Message : Type := mkMessage { content : option string }.
Record Choice : Type := mkChoice { message : Message }.
Record Response : Type := mkResponse { choices : list Choice }.
End ChatCompletion.

(** [fastapi.UploadFile]: the file name sent by the client, if any, and the
    body that [read()] returns. *)
Record UploadFile : Type := mkUpload { filename : option string; file_bytes : string }.

Inductive Stage : Type := Analysis | Draft | Edit.

(** A chat message: role and content. *)
Definition ChatMessage : Type := (string * string)%type.

Record Env : Type := mkEnv {
  (** [Path(__file__).resolve()], as it was computed when the module was
      imported (line 30); requests are served only once that succeeded. *)
  module_path : Path;
  (** [p.resolve()]: the path made absolute, with the symbolic links of the
      file system followed; it raises [ValueError] for a component with a
      NUL byte and [RuntimeError] for a loop of links. *)
  resolve : Path -> exn + Path;
  (** Home directory of a user, for [expanduser]. *)
  home_of : string -> option Path;
  (** [os.getenv]. *)
  getenv : string -> option string;
  (** [Path.mkdir(parents=True, exist_ok=True)]: [None] on success. *)
  mkdir : Path -> option exn;
  (** [PdfReader(io.BytesIO(b))] and then [page.extract_text()] for each
      page of [reader.pages]. *)
  PdfReader : string -> exn + list (exn + string);
  (** [b.decode("utf-8", errors="ignore")]. *)
  decode_utf8_ignore : string -> string;
  (** [genai.configure(api_key=.., transport="rest")]. *)
  genai_configure : string -> option exn;
  (** [genai.GenerativeModel(name)]. *)
  GenerativeModel : string -> option exn;
  (** [model.generate_content(prompt, request_options={"timeout": t})] on the
      model of that name; the stage tells the three calls of a request apart. *)
  generate_content : Stage -> string -> string -> nat -> exn + Gemini.Response;
  (** [OpenAI(api_key=..)]. *)
  OpenAI : string -> option exn;
  (** [client.chat.completions.create(model=.., messages=.., timeout=..,
      temperature=..)]; the temperature is given in tenths. *)
  chat_completions_create :
    Stage -> string -> list ChatMessage -> nat -> nat -> exn + ChatCompletion.Response;
  (** [markdown.markdown(text, extensions=["extra"])]. *)
  markdown : string -> exn + string;
  (** [HTML(string=html, base_url=BASE_DIR).write_pdf(stylesheets=[CSS(..)])]
      with the fixed stylesheet of the program. *)
  write_pdf : string -> exn + string;
  (** [str(exc)] of the [UnicodeEncodeError] that [s.encode("latin-1")]
      raises for a string with a code point above U+00FF; the text names
      the characters and their positions and is not modelled. *)
  latin1_error : string -> exn
}.

(** What the handler hands back to the framework. *)
Inductive Response : Type :=
| JSONResponse (error : string) (status_code : nat)
| StreamingResponse (body : string) (media_type : string) (content_disposition : string)
| Unhandled (exc : exn).

(** The interactions of a request with the outside world. *)
Inductive Event : Type :=
| EvLog (message : string)
| EvMkdir (p : Path) (result : option exn)
| EvGenaiConfigure (api_key : string) (result : option exn)
| EvGenerativeModel (model_name : string) (result : option exn)
| EvGenerateContent (st : Stage) (model_name prompt : string) (timeout : nat)
                    (result : exn + Gemini.Response)
| EvOpenAI (api_key : string) (result : option exn)
| EvChatCreate (st : Stage) (model_name : string) (messages : list ChatMessage)
               (timeout temperature : nat) (result : exn + ChatCompletion.Response)
| EvMarkdown (source : string) (result : exn + string)
| EvWritePdf (html : string) (result : exn + string).

(** The multipart form of [POST /generate_ebook]; [None] is a field that the
    client did not send. *)
Record Request : Type := mkRequest {
  text_content : option string;
  personality : option string;
  google_api_key : option string;
  openai_api_key : option string;
  output_path : option string;
  google_model : option string;
  google_edit_model : option string;
  openai_model : option string;
  files : option (list UploadFile)
}.

(* ------------------------------------------------------------------ *)
(** ** The handler monad: a trace, and early exit *)

Module Handler.

Inductive outcome (A : Type) : Type :=
| Go (a : A)
| Stop (r : Response).
Arguments Go {A} a.
Arguments Stop {A} r.

Definition M (A : Type) : Type := (outcome A * list Event)%type.

Definition ret {A} (a : A) : M A := (Go a, []).

Definition bind {A B} (m : M A) (k : A -> M B) : M B :=
  match m with
  | (Go a, t) => let (o, t') := k a in (o, (t ++ t')%list)
  | (Stop r, t) => (Stop r, t)
  end.

Definition emit (e : Event) : M unit := (Go tt, [e]).

(** [return r] in the handler. *)
Definition respond {A} (r : Response) : M A := (Stop r, []).

(** An exception that no [except] clause of the handler catches. *)
Definition raise {A} (e : exn) : M A := respond (Unhandled e).

(** The response and the trace of a run. *)
Definition run (m : M Response) : Response * list Event :=
  match m with
  | (Go r, t) => (r, t)
  | (Stop r, t) => (r, t)
  end.

End Handler.

Import Handler.

Notation "x <- m ;; k" := (bind m (fun x => k))
  (at level 61, m at next level, right associativity).
Notation "m ;; k" := (bind m (fun _ => k))
  (at level 61, right associativity).

(* ------------------------------------------------------------------ *)
(** ** The helpers of [app.py] *)

(** [_response_text] (lines 70-92).  The two loops append to [collected];
    a candidate without content, or whose content has no parts, is skipped,
    and so is a part whose text is not a [str]. *)
Definition collect_parts (collected : list string) (ps : list Gemini.Part)
  : list string :=
  fold_left
    (fun acc part =>
       match Gemini.part_text part with
       | Some part_text => (acc ++ [part_text])%list
       | None => acc
       end)
    ps collected.

Definition collect_candidates (collected : list string) (cs : list Gemini.Candidate)
  : list string :=
  fold_left
    (fun acc candidate =>
       match Gemini.content candidate with
       | None => acc
       | Some content =>
           match Gemini.parts content with
           | [] => acc
           | ps => collect_parts acc ps
           end
       end)
    cs collected.

Definition _response_text (response : Gemini.Response) : exn + string :=
  match Gemini.text response with
  | inl exc => inl exc
  | inr text =>
      let fallback :=
        match Gemini.candidates response with
        | [] => EmptyString
        | cs => join EmptyString (collect_candidates [] cs)
        end in
      inr match text with
          | Some text => if truthy (strip text) then text else fallback
          | None => fallback
          end
  end.

(** [_extract_text_from_uploads] (lines 95-112): the loop over the uploads,
    with [texts] as the accumulator.  An exception of the page-document reader
    is not caught here. *)
Fixpoint extract_pages (texts : list string) (pages : list (exn + string))
  : exn + list string :=
  match pages with
  | [] => inr texts
  | inl exc :: _ => inl exc
  | inr page_text :: rest =>
      if truthy page_text then extract_pages (texts ++ [page_text])%list rest
      else extract_pages texts rest
  end.

Fixpoint extract_loop (env : Env) (texts : list string) (uploads : list UploadFile)
  : exn + list string :=
  match uploads with
  | [] => inr texts
  | storage :: rest =>
      let filename :=
        lower (match filename storage with
               | Some f => or_else f EmptyString
               | None => EmptyString
               end) in
      let file_bytes := file_bytes storage in
      if negb (truthy file_bytes) then extract_loop env texts rest
      else if endswith filename ".pdf" then
        match PdfReader env file_bytes with
        | inl exc => inl exc
        | inr pages =>
            match extract_pages texts pages with
            | inl exc => inl exc
            | inr texts' => extract_loop env texts' rest
            end
        end
      else if endswith filename ".txt" then
        extract_loop env (texts ++ [decode_utf8_ignore env file_bytes])%list rest
      else extract_loop env texts rest
  end.

Definition _extract_text_from_uploads (env : Env) (uploads : list UploadFile)
  : exn + list string :=
  extract_loop env [] uploads.

(** [_store_record_in_mysql] (lines 116-117) stores nothing. *)
Definition _store_record_in_mysql : bool * option string := (true, None).

Definition _json_error (message : string) (status_code : nat) : Response :=
  JSONResponse message status_code.

(** [_log_step] (lines 124-125): one line on the process log. *)
Definition log_line (message : string) : string := "EBOOK_STEP | " ++ message.

Definition _log_step (message : string) : M unit :=
  emit (EvLog (log_line message)).

(* ------------------------------------------------------------------ *)
(** ** Module constants (lines 30-41) *)

Definition BASE_DIR (env : Env) : Path :=
  parent (module_path env).

Definition DEFAULT_OUTPUT_PDF (env : Env) : Path :=
  joinpath (BASE_DIR env) (of_string "ebook_gerado.pdf").

Definition DEFAULT_GOOGLE_MODEL (env : Env) : string :=
  match getenv env "GOOGLE_GENERATIVE_MODEL" with
  | Some v => v
  | None => "gemini-2.5-pro"
  end.

Definition GEMINI_TIMEOUT : nat := 5 * 60.

(* ------------------------------------------------------------------ *)
(** ** The prompts (lines 240-301) *)

Definition content_prompt_template : string :=
  strip ("
Voce e um escritor profissional de ebooks mestre em markdown com a personalidade e habilidades definidas pelo usuario: " ++ dq ++ "{personality}" ++ dq ++ ".
Sua tarefa e elaborar um manuscrito completo e altamente profissional, utilizando **exclusivamente** o conteudo principal e as referencias fornecidas.

**Resumo pre-analisado pelo assistente (use como guia de estrutura):**
{analysis_summary}

**Instrucoes obrigatorias:**
1.  **Estrutura:** Construa uma narrativa coesa com Introducao, capitulos bem estruturados, subtitulos e uma conclusao forte.
2.  **Conteudo:** Use apenas o material fornecido. **Nao** introduza informacoes externas, opinioes ou historias que nao estejam no material.
3.  **Formato:** O resultado deve ser **Markdown otimizado para conversao em PDF especificamente para o formato de ebook**, sem comentarios, explicacoes ou textos adicionais.
4.  **Quebras de pagina:** Para forcar uma nova pagina no PDF (ideal para o inicio de capitulos ou secoes principais), utilize a tag HTML `<div class=" ++ dq ++ "page-break" ++ dq ++ "></div>` imediatamente antes do cabecalho do novo capitulo.
5.  **Sumario e indice:** Inclua um Sumario conciso e envolvente no inicio. O Indice deve listar os titulos dos capitulos. **Nao** inclua numeros de pagina no Indice, pois eles serao gerados dinamicamente no PDF.
6.  **Tom:** Adote um tom corporativo, convincente e refinado, conforme a personalidade definida.

**Regras de exclusao (nao incluir no texto):**
*   A frase: " ++ dq ++ "Gerado pelo seu agente de ebooks." ++ dq ++ "
*   Comentarios sobre o conteudo do texto principal.
*   Comentarios iniciais antes de comecar o conteudo.
*   Secoes de credito, autor, agradecimentos ou qualquer mensagem sobre geracao automatica.
*   Linhas dedicadas a numero de pagina ou notas internas.

**Conteudo para elaboracao:**
Conteudo principal:
{text_content}

Referencias adicionais:
{references}
").

Definition analysis_prompt (text_content reference_text : string) : string :=
  strip ("
Voce e um analista editorial especializado em ebooks. Leia o material abaixo e produza um resumo estruturado contendo:
- Principais temas, personagens, dados ou argumentos essenciais.
- Referencias cruzadas importantes vindas dos anexos (quando existirem).
- Sugestao de estrutura para o ebook (introducao, capitulos e conclusao).
- Vocabulario-chave, tom desejado e alertas do que **nao** deve ser alterado.

Responda em no maximo 250 palavras, usando Markdown com secoes claras.

**Conteudo principal:**
" ++ text_content ++ "

**Referencias adicionais:**
" ++ reference_text ++ "
").

Definition edit_prompt : string :=
  strip ("
Você é um editor sênior de publicações profissionais com a personalidade e habilidades definidas pelo usuário.
Sua tarefa é revisar o rascunho a seguir para garantir a máxima qualidade e fidelidade ao material original.

**Rascunho Recebido:**
{raw_markdown}

**DIRETRIZES DE EDIÇÃO:**
1.  **Clareza e Coerência:** Eleve a clareza, a fluidez e a coerência, preservando o significado original.
2.  **Correção:** Corrija erros de gramática, ortografia, pontuação e estilo.
3.  **Formato:** Ajuste o Markdown para manter cabeçalhos consistentes, parágrafos equilibrados e listas claras. Mantenha as tags `<div class=" ++ dq ++ "page-break" ++ dq ++ "></div>` onde estiverem.
4.  **Limpeza:** Elimine qualquer referência a autores, fontes, ferramentas ou processos de geração.
5.  **Resultado Final:** O resultado deve ser o texto final em Markdown otimizado para conversão em PDF especificamente para o formato de ebook, pronto para ser convertido em PDF com layouts bonitos e profissionais.
").

(* ------------------------------------------------------------------ *)
(** ** The messages of the handler *)

(** The lines handed to [_log_step], by call site. *)
Module Log.

Definition gemini_init_failed (exc : exn) : string :=
  "Falha ao inicializar Gemini: " ++ exc.

Definition gemini_loaded (google_model_name : string) (google_edit_model_name : string) : string :=
  "Modelos Gemini carregados (" ++ google_model_name ++ "/"
  ++ google_edit_model_name ++ ").".

Definition openai_init_failed (exc : exn) : string :=
  "Falha ao inicializar OpenAI: " ++ exc.

Definition openai_ready (openai_model_name : string) : string :=
  "Cliente OpenAI inicializado com modelo " ++ openai_model_name ++ ".".

Definition gemini_step1 : string :=
  "Etapa 1/3 (Gemini): analisando o conteudo e referencias.".

Definition gemini_analysis_error (exc : exn) : string :=
  "Erro na analise inicial (Gemini): " ++ exc.

Definition gemini_no_summary : string :=
  "Gemini nao retornou resumo na etapa 1.".

Definition gemini_step2 : string :=
  "Etapa 2/3 (Gemini): gerando o rascunho completo.".

Definition gemini_draft_error (exc : exn) : string :=
  "Erro ao gerar rascunho (Gemini): " ++ exc.

Definition gemini_no_draft : string :=
  "Gemini nao retornou rascunho.".

Definition gemini_step3 : string :=
  "Etapa 3/3 (Gemini): revisando e aplicando estilo final.".

Definition gemini_edit_error (exc : exn) : string :=
  "Erro ao editar rascunho (Gemini): " ++ exc.

Definition gemini_no_final : string :=
  "Gemini nao retornou texto final.".

Definition openai_draft_error (exc : exn) : string :=
  "Erro ao gerar rascunho (OpenAI): " ++ exc.

Definition openai_draft_start : string :=
  "Iniciando geracao do rascunho com OpenAI.".

Definition openai_no_draft : string :=
  "OpenAI nao retornou rascunho.".

Definition openai_edit_error (exc : exn) : string :=
  "Erro ao editar rascunho (OpenAI): " ++ exc.

Definition openai_edit_start : string :=
  "Iniciando revisao do rascunho com OpenAI.".

Definition openai_no_final : string :=
  "OpenAI nao retornou texto final.".

Definition pdf_start (output_pdf : Path) : string :=
  "Iniciando conversao para PDF em " ++ to_string output_pdf ++ ".".

Definition pdf_error (exc : exn) : string :=
  "Erro ao gerar PDF: " ++ exc.

Definition record_stored : string :=
  "Registro armazenado (simulado). Preparando resposta.".

Definition finished (pdf_bytes : string) : string :=
  "Ebook finalizado com sucesso (" ++ of_nat (String.length pdf_bytes) ++ " bytes).".

Definition received (text_content : string) (file_count : nat) (personality : string) : string :=
  "Requisicao recebida | texto=" ++ of_nat (len text_content)
  ++ " chars | arquivos=" ++ of_nat file_count
  ++ " | personalidade=" ++ personality.

Definition rejected_no_text : string :=
  "Requisicao rejeitada: texto base vazio.".

Definition rejected_no_key : string :=
  "Requisicao rejeitada: nenhuma chave de API informada.".

Definition files_processed (uploaded_text : list string) : string :=
  "Arquivos processados: " ++ of_nat (List.length uploaded_text)
  ++ " trechos extraidos.".

Definition no_model : string :=
  "Erro interno: nenhum modelo configurado.".

End Log.

(** The texts of the error responses, and of the two exceptions that reading
    a chat completion can raise. *)
Module Err.

Definition gemini_init_failed
  (google_model_name google_edit_model_name : string) (exc : exn) : string :=
  "Falha ao inicializar os modelos Gemini " ++ "(" ++ google_model_name ++ "/"
  ++ google_edit_model_name ++ "): " ++ exc.

Definition openai_init_failed (exc : exn) : string :=
  "Falha ao inicializar o cliente OpenAI: " ++ exc.

Definition gemini_analysis_error (exc : exn) : string :=
  "Falha ao analisar o conteudo antes da geracao (Gemini): " ++ exc.

Definition gemini_no_summary : string :=
  "O modelo Gemini nao retornou um resumo na etapa de analise.".

Definition gemini_draft_error (exc : exn) : string :=
  "Falha ao gerar o rascunho do ebook (Gemini): " ++ exc.

Definition gemini_no_draft : string :=
  "O modelo Gemini nao retornou texto para o rascunho.".

Definition gemini_edit_error (exc : exn) : string :=
  "Falha ao editar o rascunho do ebook (Gemini): " ++ exc.

Definition gemini_no_final : string :=
  "O modelo Gemini nao retornou texto para a edicao final.".

Definition index_error : string :=
  "list index out of range".

Definition none_has_no_strip : string :=
  "'NoneType' object has no attribute 'strip'".

Definition openai_draft_error (exc : exn) : string :=
  "Falha ao gerar o rascunho do ebook (OpenAI): " ++ exc.

Definition openai_no_draft : string :=
  "O modelo OpenAI nao retornou texto para o rascunho.".

Definition openai_edit_error (exc : exn) : string :=
  "Falha ao editar o rascunho do ebook (OpenAI): " ++ exc.

Definition openai_no_final : string :=
  "O modelo OpenAI nao retornou texto para a edicao final.".

Definition pdf_error (exc : exn) : string :=
  "Falha ao gerar o PDF com WeasyPrint: " ++ exc.

Definition text_required : string :=
  "Conteudo de texto e obrigatorio.".

Definition key_required : string :=
  "Pelo menos uma chave de API (Google Gemini ou OpenAI) e obrigatoria.".

Definition no_model : string :=
  "Erro interno: Nenhuma chave de API v??lida foi processada.".

End Err.

(* ------------------------------------------------------------------ *)
(** ** [generate_ebook] (lines 138-610) *)

(** A form field with its default, [Form(default)]. *)
Definition Form (default : string) (field : option string) : string :=
  match field with
  | Some v => v
  | None => default
  end.

(** Lines 164-171: the output path. *)
Definition resolve_output_pdf (env : Env) (output_path_raw : string) : exn + Path :=
  if truthy output_path_raw then
    match expanduser (home_of env) (of_string output_path_raw) with
    | inl exc => inl exc
    | inr output_pdf =>
        if negb (is_absolute output_pdf)
        then resolve env (joinpath (BASE_DIR env) output_pdf)
        else resolve env output_pdf
    end
  else inr (DEFAULT_OUTPUT_PDF env).

Inductive ModelType : Type := gemini | openai.

(** Lines 205-231: the provider is chosen and initialised. *)
Definition init_model (env : Env)
  (google_api_key openai_api_key google_model_name google_edit_model_name
     openai_model_name : string) : M (option ModelType) :=
  if truthy google_api_key then
    let failed (exc : exn) : M (option ModelType) :=
      _log_step (Log.gemini_init_failed exc) ;;
      respond (_json_error
                 (Err.gemini_init_failed google_model_name google_edit_model_name exc)
                 400) in
    let configured := genai_configure env google_api_key in
    emit (EvGenaiConfigure google_api_key configured) ;;
    match configured with
    | Some exc => failed exc
    | None =>
        let content_model := GenerativeModel env google_model_name in
        emit (EvGenerativeModel google_model_name content_model) ;;
        match content_model with
        | Some exc => failed exc
        | None =>
            let edit_model := GenerativeModel env google_edit_model_name in
            emit (EvGenerativeModel google_edit_model_name edit_model) ;;
            match edit_model with
            | Some exc => failed exc
            | None =>
                _log_step (Log.gemini_loaded google_model_name google_edit_model_name) ;;
                ret (Some gemini)
            end
        end
    end
  else if truthy openai_api_key then
    let client := OpenAI env openai_api_key in
    emit (EvOpenAI openai_api_key client) ;;
    match client with
    | Some exc =>
        _log_step (Log.openai_init_failed exc) ;;
        respond (_json_error (Err.openai_init_failed exc) 400)
    | None =>
        _log_step (Log.openai_ready openai_model_name) ;;
        ret (Some openai)
    end
  else ret None.

(** Lines 304-356: analysis, draft and edit with the multi-turn provider;
    the result is [final_markdown].  The [try] of a stage covers the call
    and the reading of its text. *)
Definition gemini_pipeline (env : Env)
  (content_model edit_model personality text_content reference_text : string)
  : M string :=
  let analysis_prompt := analysis_prompt text_content reference_text in
  let analysis_failed (exc : exn) : M string :=
    _log_step (Log.gemini_analysis_error exc) ;;
    respond (_json_error (Err.gemini_analysis_error exc) 500) in
  let draft_failed (exc : exn) : M string :=
    _log_step (Log.gemini_draft_error exc) ;;
    respond (_json_error (Err.gemini_draft_error exc) 500) in
  let edit_failed (exc : exn) : M string :=
    _log_step (Log.gemini_edit_error exc) ;;
    respond (_json_error (Err.gemini_edit_error exc) 500) in
  _log_step Log.gemini_step1 ;;
  let analysis_response :=
    generate_content env Analysis content_model analysis_prompt GEMINI_TIMEOUT in
  emit (EvGenerateContent Analysis content_model analysis_prompt GEMINI_TIMEOUT
          analysis_response) ;;
  match analysis_response with
  | inl exc => analysis_failed exc
  | inr analysis_response =>
  match _response_text analysis_response with
  | inl exc => analysis_failed exc
  | inr analysis_text =>
      let analysis_summary := strip analysis_text in
      if negb (truthy analysis_summary) then
        _log_step Log.gemini_no_summary ;;
        respond (_json_error Err.gemini_no_summary 500)
      else
        match format content_prompt_template
                [("personality", personality); ("analysis_summary", analysis_summary);
                 ("text_content", text_content); ("references", reference_text)]
                   return M string with
        | inl exc => raise exc
        | inr generation_prompt =>
            _log_step Log.gemini_step2 ;;
            let content_response :=
              generate_content env Draft content_model generation_prompt GEMINI_TIMEOUT in
            emit (EvGenerateContent Draft content_model generation_prompt GEMINI_TIMEOUT
                    content_response) ;;
            match content_response with
            | inl exc => draft_failed exc
            | inr content_response =>
            match _response_text content_response with
            | inl exc => draft_failed exc
            | inr content_text =>
                let raw_markdown := strip content_text in
                if negb (truthy raw_markdown) then
                  _log_step Log.gemini_no_draft ;;
                  respond (_json_error Err.gemini_no_draft 500)
                else
                  match format edit_prompt [("raw_markdown", raw_markdown)]
                    return M string with
                  | inl exc => raise exc
                  | inr edit_prompt_gemini =>
                      _log_step Log.gemini_step3 ;;
                      let edit_response :=
                        generate_content env Edit edit_model edit_prompt_gemini
                          GEMINI_TIMEOUT in
                      emit (EvGenerateContent Edit edit_model edit_prompt_gemini
                              GEMINI_TIMEOUT edit_response) ;;
                      match edit_response with
                      | inl exc => edit_failed exc
                      | inr edit_response =>
                      match _response_text edit_response with
                      | inl exc => edit_failed exc
                      | inr edit_text =>
                          let final_markdown := strip edit_text in
                          if negb (truthy final_markdown) then
                            _log_step Log.gemini_no_final ;;
                            respond (_json_error Err.gemini_no_final 500)
                          else ret final_markdown
                      end
                      end
                  end
            end
            end
        end
  end
  end.

(** [response.choices[0].message.content.strip()] (lines 379 and 400), with
    the two exceptions it can raise. *)
Definition first_choice_text (response : ChatCompletion.Response) : exn + string :=
  match ChatCompletion.choices response with
  | [] => inl Err.index_error
  | choice :: _ =>
      match ChatCompletion.content (ChatCompletion.message choice) with
      | None => inl Err.none_has_no_strip
      | Some content => inr (strip content)
      end
  end.

(** Lines 358-407: draft and edit with the chat-completion provider. *)
Definition openai_pipeline (env : Env)
  (openai_model_name personality text_content reference_text : string)
  : M string :=
  match format edit_prompt [("raw_markdown", "{raw_markdown}")]
    return M string with
  | inl exc => raise exc
  | inr edit_prompt_openai =>
      let draft_failed (exc : exn) : M string :=
        _log_step (Log.openai_draft_error exc) ;;
        respond (_json_error (Err.openai_draft_error exc) 500) in
      _log_step Log.openai_draft_start ;;
      match format content_prompt_template
              [("personality", personality);
               ("analysis_summary", "Sintese direta realizada pelo modelo OpenAI.");
               ("text_content", text_content); ("references", reference_text)]
                 return M string with
      | inl exc => draft_failed exc
      | inr generation_prompt =>
          let content_messages : list ChatMessage :=
            [("system", generation_prompt);
             ("user", "Produza o ebook completo seguindo fielmente as instrucoes acima.")] in
          let content_response :=
            chat_completions_create env Draft openai_model_name content_messages
              GEMINI_TIMEOUT 7 in
          emit (EvChatCreate Draft openai_model_name content_messages GEMINI_TIMEOUT 7
                  content_response) ;;
          match content_response with
          | inl exc => draft_failed exc
          | inr content_response =>
              match first_choice_text content_response with
              | inl exc => draft_failed exc
              | inr raw_markdown =>
                  if negb (truthy raw_markdown) then
                    _log_step Log.openai_no_draft ;;
                    respond (_json_error Err.openai_no_draft 500)
                  else
                    let edit_failed (exc : exn) : M string :=
                      _log_step (Log.openai_edit_error exc) ;;
                      respond (_json_error (Err.openai_edit_error exc) 500) in
                    _log_step Log.openai_edit_start ;;
                    match format edit_prompt_openai [("raw_markdown", raw_markdown)]
                      return M string with
                    | inl exc => edit_failed exc
                    | inr edit_system =>
                        let edit_messages : list ChatMessage :=
                          [("system", edit_system);
                           ("user", "Por favor, revise o rascunho conforme as diretrizes.")] in
                        let edit_response :=
                          chat_completions_create env Edit openai_model_name edit_messages
                            GEMINI_TIMEOUT 1 in
                        emit (EvChatCreate Edit openai_model_name edit_messages
                                GEMINI_TIMEOUT 1 edit_response) ;;
                        match edit_response with
                        | inl exc => edit_failed exc
                        | inr edit_response =>
                            match first_choice_text edit_response with
                            | inl exc => edit_failed exc
                            | inr final_markdown =>
                                if negb (truthy final_markdown) then
                                  _log_step Log.openai_no_final ;;
                                  respond (_json_error Err.openai_no_final 500)
                                else ret final_markdown
                            end
                        end
                    end
              end
          end
      end
  end.

(** Lines 583-610: markdown to HTML, HTML to PDF, and the response.  The
    conversion to HTML is outside the [try], and so is the construction of
    the response, which encodes the header in Latin-1. *)
Definition render_pdf (env : Env) (final_markdown : string) (output_pdf : Path)
  : M Response :=
  let html_content := markdown env final_markdown in
  emit (EvMarkdown final_markdown html_content) ;;
  match html_content with
  | inl exc => raise exc
  | inr html_content =>
      _log_step (Log.pdf_start output_pdf) ;;
      let pdf_bytes := write_pdf env html_content in
      emit (EvWritePdf html_content pdf_bytes) ;;
      match pdf_bytes with
      | inl exc =>
          _log_step (Log.pdf_error exc) ;;
          respond (_json_error (Err.pdf_error exc) 500)
      | inr pdf_bytes =>
          let _ := _store_record_in_mysql in
          _log_step Log.record_stored ;;
          let content_disposition :=
            "attachment; filename=" ++ dq ++ name output_pdf ++ dq in
          _log_step (Log.finished pdf_bytes) ;;
          if latin1 content_disposition
          then ret (StreamingResponse pdf_bytes "application/pdf" content_disposition)
          else raise (latin1_error env content_disposition)
      end
  end.

(** Lines 198-610: from the choice of the provider to the response. *)
Definition generate_and_render (env : Env)
  (google_api_key openai_api_key google_model_name google_edit_model_name
     openai_model_name personality text_content reference_text : string)
  (output_pdf : Path) : M Response :=
  model_type <- init_model env google_api_key openai_api_key
                  google_model_name google_edit_model_name openai_model_name ;;
  match model_type with
  | None =>
      _log_step Log.no_model ;;
      respond (_json_error Err.no_model 500)
  | Some gemini =>
      final_markdown <- gemini_pipeline env google_model_name
                          google_edit_model_name personality text_content
                          reference_text ;;
      render_pdf env final_markdown output_pdf
  | Some openai =>
      final_markdown <- openai_pipeline env openai_model_name personality
                          text_content reference_text ;;
      render_pdf env final_markdown output_pdf
  end.

(** Lines 138-196: the form, the output path, validation and the uploads. *)
Definition generate_ebook (env : Env) (req : Request) : M Response :=
  let text_content := strip (or_else (Form "" req.(text_content)) "") in
  let personality :=
    or_else (strip (or_else (Form "neutra" req.(personality)) "neutra")) "neutra" in
  let google_api_key := strip (or_else (Form "" req.(google_api_key)) "") in
  let openai_api_key := strip (or_else (Form "" req.(openai_api_key)) "") in
  let output_path_raw := strip (or_else (Form "" req.(output_path)) "") in
  let google_model_value := strip (or_else (Form "" req.(google_model)) "") in
  let google_edit_model_value := strip (or_else (Form "" req.(google_edit_model)) "") in
  let openai_model_value := strip (or_else (Form "" req.(openai_model)) "") in
  let file_count :=
    List.length (match req.(files) with Some l => l | None => [] end) in
  _log_step (Log.received text_content file_count personality) ;;
  match resolve_output_pdf env output_path_raw with
  | inl exc => raise exc
  | inr output_pdf =>
      let made := mkdir env (parent output_pdf) in
      emit (EvMkdir (parent output_pdf) made) ;;
      match made with
      | Some exc => raise exc
      | None =>
          if negb (truthy text_content) then
            _log_step Log.rejected_no_text ;;
            respond (_json_error Err.text_required 400)
          else if negb (truthy google_api_key) && negb (truthy openai_api_key) then
            _log_step Log.rejected_no_key ;;
            respond (_json_error Err.key_required 400)
          else
            match
              match req.(files) with
              | Some ((_ :: _) as uploads) => _extract_text_from_uploads env uploads
              | _ => inr []
              end
            with
            | inl exc => raise exc
            | inr uploaded_text =>
                _log_step (Log.files_processed uploaded_text) ;;
                let references := strip (join nl uploaded_text) in
                let reference_text := or_else references "Nenhuma" in
                let google_model_name :=
                  or_else google_model_value (DEFAULT_GOOGLE_MODEL env) in
                let google_edit_model_name :=
                  or_else google_edit_model_value google_model_name in
                let openai_model_name := or_else openai_model_value "gpt-4o-mini" in
                generate_and_render env google_api_key openai_api_key
                  google_model_name google_edit_model_name openai_model_name
                  personality text_content reference_text output_pdf
            end
      end
  end.

(** The response and the trace of one request. *)
Definition handle (env : Env) (req : Request) : Response * list Event :=
  run (generate_ebook env req).

(* ------------------------------------------------------------------ *)
(** ** Vocabulary of the properties *)

(** [needle] occurs in [s]. *)
Definition Substring (needle s : string) : Prop :=
  exists pre post, s = pre ++ needle ++ post.

(** The path lies in the base directory of the program (or is it). *)
Definition within_base (env : Env) (p : Path) : bool :=
  is_relative_to p (BASE_DIR env).

(** No component is the parent directory. *)
Definition no_dotdot (ps : list string) : bool :=
  forallb (fun part => negb (String.eqb part "..")) ps.

(** The lexical normalisation of the components of an absolute path: [".."]
    pops a component (and stays at the root), any other component is
    pushed. *)
Definition resolve_step (stack : list string) (part : string) : list string :=
  if String.eqb part ".." then removelast stack else stack ++ [part].





(** Followed from a directory [depth] levels below a starting point, the
    components never climb above the starting point. *)
Fixpoint stays_below (depth : nat) (ps : list string) : bool :=
  match ps with
  | [] => true
  | part :: rest =>
      if String.eqb part ".."
      then match depth with
           | 0 => false
           | S d => stays_below d rest
           end
      else stays_below (S depth) rest
  end.

(** The override is relative, names no home directory, and its
    parent-directory components never climb above the directory it starts
    from. *)
Definition relative_below (p : Path) : bool :=
  negb (is_absolute p)
  && stays_below 0 (parts p)
  && match parts p with
     | first :: _ => negb (prefix "~" first)
     | [] => true
     end.




(** The file name of an upload as the extractor compares it. *)
Definition upload_name (u : UploadFile) : string :=
  lower (match filename u with Some f => f | None => EmptyString end).

Definition is_page_document (u : UploadFile) : bool := endswith (upload_name u) ".pdf".
Definition is_plain_text (u : UploadFile) : bool :=
  negb (is_page_document u) && endswith (upload_name u) ".txt".

(** The fragments one upload contributes, given the page texts of a page
    document: nothing for an empty body, the non-empty page texts in page
    order for a page document, the decoded body for a text file, nothing for
    any other extension. *)
Definition fragments_of (env : Env) (u : UploadFile) (page_texts : list string)
  : list string :=
  if negb (truthy (file_bytes u)) then []
  else if is_page_document u then filter truthy page_texts
  else if is_plain_text u then [decode_utf8_ignore env (file_bytes u)]
  else [].

(** The page texts of an upload that the reader parses without error. *)
Fixpoint all_pages (pages : list (exn + string)) : option (list string) :=
  match pages with
  | [] => Some []
  | inl _ :: _ => None
  | inr t :: rest => option_map (cons t) (all_pages rest)
  end.

Definition pages_of (env : Env) (u : UploadFile) : option (list string) :=
  if truthy (file_bytes u) && is_page_document u then
    match PdfReader env (file_bytes u) with
    | inl _ => None
    | inr pages => all_pages pages
    end
  else Some [].

(** The draft prompt and the edit prompt, once their templates are filled. *)
Definition draft_prompt
  (personality analysis_summary text_content reference_text : string) : string :=
  match format content_prompt_template
          [("personality", personality); ("analysis_summary", analysis_summary);
           ("text_content", text_content); ("references", reference_text)]
  return string with
  | inr s => s
  | inl _ => EmptyString
  end.

Definition edit_prompt_of (raw_markdown : string) : string :=
  match format edit_prompt [("raw_markdown", raw_markdown)] with
  | inr s => s
  | inl _ => EmptyString
  end.

(** The prompt of a stage as the program builds it from the persona, the
    main text and the references: the analysis prompt has no persona, the
    draft prompt has it, the edit prompt is built from the draft alone. *)
Definition stage_prompt (persona text reference_text : string) (st : Stage)
  (p : string) : Prop :=
  match st with
  | Analysis => p = analysis_prompt text reference_text
  | Draft => exists summary, p = draft_prompt persona summary text reference_text
  | Edit => exists raw_markdown, p = edit_prompt_of raw_markdown
  end.

(** Which provider an interaction belongs to. *)
Definition provider_of (e : Event) : option ModelType :=
  match e with
  | EvGenaiConfigure _ _ | EvGenerativeModel _ _ | EvGenerateContent _ _ _ _ _ =>
      Some gemini
  | EvOpenAI _ _ | EvChatCreate _ _ _ _ _ _ => Some openai
  | _ => None
  end.

Definition is_provider_event (e : Event) : bool :=
  match provider_of e with Some _ => true | None => false end.

(** A generation call of the given stage, to either provider. *)
Definition is_stage_call (st : Stage) (e : Event) : bool :=
  let same (a b : Stage) :=
    match a, b with
    | Analysis, Analysis | Draft, Draft | Edit, Edit => true
    | _, _ => false
    end in
  match e with
  | EvGenerateContent st' _ _ _ _ => same st st'
  | EvChatCreate st' _ _ _ _ _ => same st st'
  | _ => false
  end.

(** A call to the markdown converter or to the PDF renderer. *)
Definition is_render_event (e : Event) : bool :=
  match e with
  | EvMarkdown _ _ | EvWritePdf _ _ => true
  | _ => false
  end.

(** An interaction with the file system. *)
Definition is_fs_event (e : Event) : bool :=
  match e with
  | EvMkdir _ _ => true
  | _ => false
  end.

(** The stage of a generation call, and the order of the stages. *)
Definition stage_of_call (e : Event) : option Stage :=
  match e with
  | EvGenerateContent st _ _ _ _ => Some st
  | EvChatCreate st _ _ _ _ _ => Some st
  | _ => None
  end.

Definition stage_index (st : Stage) : nat :=
  match st with
  | Analysis => 0
  | Draft => 1
  | Edit => 2
  end.

(** The instruction text of a generation call: the prompt for the
    multi-turn provider, the system message for the chat-completion
    provider. *)
Definition prompt_of (e : Event) : option (Stage * string) :=
  match e with
  | EvGenerateContent st _ prompt _ _ => Some (st, prompt)
  | EvChatCreate st _ ((_, system) :: _) _ _ _ => Some (st, system)
  | _ => None
  end.

(** A generation call that succeeded and whose text, once stripped, is
    empty: the provider and the stage. *)
Definition blank_reply (e : Event) : option (ModelType * Stage) :=
  match e with
  | EvGenerateContent st _ _ _ (inr response) =>
      match _response_text response with
      | inr text => if truthy (strip text) then None else Some (gemini, st)
      | inl _ => None
      end
  | EvChatCreate st _ _ _ _ (inr response) =>
      match first_choice_text response with
      | inr s => if truthy s then None else Some (openai, st)
      | inl _ => None
      end
  | _ => None
  end.

(** The error text of the response for an empty result of a stage. *)
Definition empty_result_error (mt : ModelType) (st : Stage) : string :=
  match mt, st with
  | gemini, Analysis => Err.gemini_no_summary
  | gemini, Draft => Err.gemini_no_draft
  | gemini, Edit => Err.gemini_no_final
  | openai, Edit => Err.openai_no_final
  | openai, _ => Err.openai_no_draft
  end.

(** The instruction text of an interaction, if it has one, is the prompt of
    its stage. *)
Definition prompt_as_built (persona text reference_text : string) (e : Event)
  : Prop :=
  match prompt_of e with
  | Some (st, p) => stage_prompt persona text reference_text st p
  | None => True
  end.

(** What every interaction of a pipeline of the provider [mt] satisfies: it
    touches neither the renderer nor the file system nor the other
    provider. *)
Definition pipeline_event (mt : ModelType) (e : Event) : Prop :=
  is_render_event e = false
  /\ is_fs_event e = false
  /\ (provider_of e = None \/ provider_of e = Some mt).

(** The credential that selects the provider, by the precedence of the
    program: the multi-turn provider when its key is present. *)
Definition selected_provider (google_api_key openai_api_key : string)
  : option ModelType :=
  if truthy google_api_key then Some gemini
  else if truthy openai_api_key then Some openai
  else None.

(** The normalised form fields. *)
Definition text_of (req : Request) : string :=
  strip (or_else (Form "" req.(text_content)) "").
Definition persona_of (req : Request) : string :=
  or_else (strip (or_else (Form "neutra" req.(personality)) "neutra")) "neutra".
Definition google_key_of (req : Request) : string :=
  strip (or_else (Form "" req.(google_api_key)) "").
Definition openai_key_of (req : Request) : string :=
  strip (or_else (Form "" req.(openai_api_key)) "").
Definition output_path_of (req : Request) : string :=
  strip (or_else (Form "" req.(output_path)) "").

(** The reference text of the prompts, from the fragments of the uploads. *)
Definition reference_text_of (uploaded_text : list string) : string :=
  or_else (strip (join nl uploaded_text)) "Nenhuma".

Definition file_count_of (req : Request) : nat :=
  List.length (match req.(files) with Some l => l | None => [] end).

(** The header of the attachment for an output path. *)
Definition attachment (output_pdf : Path) : string :=
  "attachment; filename=" ++ dq ++ name output_pdf ++ dq.

(** The response is a structured error. *)
Definition is_json (r : Response) : bool :=
  match r with
  | JSONResponse _ _ => true
  | _ => false
  end.

(** The response of a monadic run, whether returned early or at the end. *)
Definition response_of (o : outcome Response) : Response :=
  match o with
  | Go r => r
  | Stop r => r
  end.

(** The uploads are read without an exception. *)
Definition uploads_of (env : Env) (req : Request) : exn + list string :=
  match req.(files) with
  | Some ((_ :: _) as uploads) => _extract_text_from_uploads env uploads
  | _ => inr []
  end.

(** The pipeline of a provider. *)
Definition pipeline_of (env : Env) (mt : ModelType)
  (google_model_name google_edit_model_name openai_model_name personality
     text_content reference_text : string) : M string :=
  match mt with
  | gemini =>
      gemini_pipeline env google_model_name google_edit_model_name personality
        text_content reference_text
  | openai =>
      openai_pipeline env openai_model_name personality text_content reference_text
  end.

(** The four ways through [generate_and_render]: initialisation stops, no
    model is configured, the pipeline stops, or the renderer is reached. *)
Inductive gen_run (env : Env)
  (gk ok m1 m2 m3 pers txt ref : string) (out : Path)
  : outcome Response -> list Event -> Prop :=
| run_init_stops r t1 :
    init_model env gk ok m1 m2 m3 = (Stop r, t1) ->
    gen_run env gk ok m1 m2 m3 pers txt ref out (Stop r) t1
| run_no_model t1 :
    init_model env gk ok m1 m2 m3 = (Go None, t1) ->
    gen_run env gk ok m1 m2 m3 pers txt ref out
      (Stop (JSONResponse Err.no_model 500))
      (t1 ++ [EvLog (log_line Log.no_model)])
| run_pipeline_stops mt t1 r t2 :
    init_model env gk ok m1 m2 m3 = (Go (Some mt), t1) ->
    pipeline_of env mt m1 m2 m3 pers txt ref = (Stop r, t2) ->
    gen_run env gk ok m1 m2 m3 pers txt ref out (Stop r) (t1 ++ t2)
| run_renders mt t1 final_markdown t2 o t3 :
    init_model env gk ok m1 m2 m3 = (Go (Some mt), t1) ->
    pipeline_of env mt m1 m2 m3 pers txt ref = (Go final_markdown, t2) ->
    render_pdf env final_markdown out = (o, t3) ->
    gen_run env gk ok m1 m2 m3 pers txt ref out o (t1 ++ t2 ++ t3).

(** The model names of a request. *)
Definition google_model_name_of (env : Env) (req : Request) : string :=
  or_else (strip (or_else (Form "" req.(google_model)) ""))
    (DEFAULT_GOOGLE_MODEL env).
Definition google_edit_model_name_of (env : Env) (req : Request) : string :=
  or_else (strip (or_else (Form "" req.(google_edit_model)) ""))
    (google_model_name_of env req).
Definition openai_model_name_of (req : Request) : string :=
  or_else (strip (or_else (Form "" req.(openai_model)) "")) "gpt-4o-mini".

(** The first line of the log of a request. *)
Definition received (req : Request) : Event :=
  EvLog (log_line (Log.received (text_of req) (file_count_of req) (persona_of req))).

(** The ways through the handler: the output path cannot be resolved, its
    directory cannot be made, the text is missing, no key is given, an upload
    cannot be read, or generation is entered. *)
Inductive handler_run (env : Env) (req : Request)
  : Response -> list Event -> Prop :=
| run_path_fails exc :
    resolve_output_pdf env (output_path_of req) = inl exc ->
    handler_run env req (Unhandled exc) [received req]
| run_mkdir_fails out exc :
    resolve_output_pdf env (output_path_of req) = inr out ->
    mkdir env (parent out) = Some exc ->
    handler_run env req (Unhandled exc)
      [received req; EvMkdir (parent out) (Some exc)]
| run_no_text out :
    resolve_output_pdf env (output_path_of req) = inr out ->
    mkdir env (parent out) = None ->
    truthy (text_of req) = false ->
    handler_run env req (JSONResponse Err.text_required 400)
      [received req; EvMkdir (parent out) None;
       EvLog (log_line Log.rejected_no_text)]
| run_no_key out :
    resolve_output_pdf env (output_path_of req) = inr out ->
    mkdir env (parent out) = None ->
    truthy (text_of req) = true ->
    truthy (google_key_of req) = false ->
    truthy (openai_key_of req) = false ->
    handler_run env req (JSONResponse Err.key_required 400)
      [received req; EvMkdir (parent out) None;
       EvLog (log_line Log.rejected_no_key)]
| run_upload_fails out exc :
    resolve_output_pdf env (output_path_of req) = inr out ->
    mkdir env (parent out) = None ->
    truthy (text_of req) = true ->
    truthy (google_key_of req) || truthy (openai_key_of req) = true ->
    uploads_of env req = inl exc ->
    handler_run env req (Unhandled exc) [received req; EvMkdir (parent out) None]
| run_generates out uploaded_text o t :
    resolve_output_pdf env (output_path_of req) = inr out ->
    mkdir env (parent out) = None ->
    truthy (text_of req) = true ->
    truthy (google_key_of req) || truthy (openai_key_of req) = true ->
    uploads_of env req = inr uploaded_text ->
    gen_run env (google_key_of req) (openai_key_of req)
      (google_model_name_of env req) (google_edit_model_name_of env req)
      (openai_model_name_of req) (persona_of req) (text_of req)
      (reference_text_of uploaded_text) out o t ->
    handler_run env req (response_of o)
      (received req :: EvMkdir (parent out) None
       :: EvLog (log_line (Log.files_processed uploaded_text)) :: t).

(* ------------------------------------------------------------------ *)
(** ** A deployment and some requests, for the examples *)

Module Demo.

Definition say (s : string) : Gemini.Response :=
  {| Gemini.text := inr (Some s); Gemini.candidates := [] |}.

Definition reply (s : string) : ChatCompletion.Response :=
  {| ChatCompletion.choices :=
       [ {| ChatCompletion.message := {| ChatCompletion.content := Some s |} |} ] |}.

(** The file system of the deployment: the working directory is
    [/srv/app], and there is one symbolic link, [/srv/app/link], to
    [../outside]. *)
Definition has_nul (s : string) : bool :=
  existsb (fun c => code c =? 0) (list_ascii_of_string s).

Definition follow (stack : list string) (part : string) : list string :=
  let stack' := resolve_step stack part in
  if list_prefix ["srv"; "app"; "link"] stack' && (List.length stack' =? 3)
  then ["srv"; "outside"]
  else stack'.

Definition realpath (p : Path) : exn + Path :=
  if existsb has_nul (Pathlib.parts p) then inl "embedded null byte"
  else inr {| is_absolute := true;
              parts := fold_left follow
                         (if is_absolute p then Pathlib.parts p
                          else ["srv"; "app"] ++ Pathlib.parts p)%list
                         [] |}.

(** The application is installed in [/srv/app]; [/dev/null] is not a
    directory; a body that starts with the PDF signature has six pages with
    text on the second and the fifth only, any other body is rejected by the
    reader. *)
Definition env : Env :=
  {| module_path := of_string "/srv/app/app.py";
     resolve := realpath;
     home_of := fun user =>
                  if String.eqb user "" then Some (of_string "/home/ebook") else None;
     getenv := fun _ => None;
     mkdir := fun p =>
                if list_prefix ["dev"; "null"] (Pathlib.parts p)
                then Some "[Errno 17] File exists: '/dev/null'"
                else None;
     PdfReader := fun b =>
                    if prefix "%PDF-" b
                    then inr [inr ""; inr "two"; inr ""; inr ""; inr "five"; inr ""]
                    else inl "EOF marker not found";
     decode_utf8_ignore := fun b => b;
     genai_configure := fun _ => None;
     GenerativeModel := fun _ => None;
     generate_content := fun st _ _ _ =>
                           match st with
                           | Analysis => inr (say "## Resumo")
                           | Draft => inr (say "# Rascunho")
                           | Edit => inr (say "# Ebook")
                           end;
     OpenAI := fun _ => None;
     chat_completions_create := fun st _ _ _ _ =>
                                  match st with
                                  | Edit => inr (reply "# Ebook")
                                  | _ => inr (reply "# Rascunho")
                                  end;
     markdown := fun s => inr ("<h1>" ++ s ++ "</h1>");
     write_pdf := fun html => inr ("%PDF-1.7 " ++ html);
     latin1_error := fun _ => "'latin-1' codec can't encode characters" |}.

(** The same deployment with a provider whose draft is blank. *)
Definition env_blank_draft : Env :=
  {| module_path := module_path env; resolve := resolve env; home_of := home_of env;
     getenv := getenv env; mkdir := mkdir env; PdfReader := PdfReader env;
     decode_utf8_ignore := decode_utf8_ignore env;
     genai_configure := genai_configure env; GenerativeModel := GenerativeModel env;
     generate_content := fun st m p t =>
                           match st with
                           | Draft => inr (say "  ")
                           | _ => generate_content env st m p t
                           end;
     OpenAI := OpenAI env;
     chat_completions_create := fun st m msgs t temp =>
                                  match st with
                                  | Draft => inr (reply " ")
                                  | _ => chat_completions_create env st m msgs t temp
                                  end;
     markdown := markdown env; write_pdf := write_pdf env;
     latin1_error := latin1_error env |}.

Definition form (text persona gkey okey out : option string)
  (uploads : option (list UploadFile)) : Request :=
  {| text_content := text; personality := persona; google_api_key := gkey;
     openai_api_key := okey; output_path := out; google_model := None;
     google_edit_model := None; openai_model := None; files := uploads |}.

(** The end-to-end scenario of the specification. *)
Definition req_google : Request :=
  form (Some "Company history and mission statement") (Some "formal")
       (Some "g-key") None None None.

Definition req_both_keys : Request :=
  form (Some "Company history") None (Some "g-key") (Some "o-key") None None.

Definition req_openai : Request :=
  form (Some "Company history") (Some "formal") None (Some "o-key") None None.

Definition req_no_text (out : string) : Request :=
  form (Some "   ") None (Some "g-key") None (Some out) None.

Definition req_out (out : string) : Request :=
  form (Some "Company history") None (Some "g-key") None (Some out) None.

Definition req_uploads (uploads : list UploadFile) : Request :=
  form (Some "Company history") None (Some "g-key") None None (Some uploads).

Definition broken_pdf : UploadFile :=
  {| filename := Some "notes.pdf"; file_bytes := "not a pdf" |}.

Definition good_pdf : UploadFile :=
  {| filename := Some "Book.PDF"; file_bytes := "%PDF-1.4 ..." |}.

Definition text_file : UploadFile :=
  {| filename := Some "notes.txt"; file_bytes := "plain notes" |}.

Definition empty_file : UploadFile :=
  {| filename := Some "empty.txt"; file_bytes := "" |}.

Definition word_file : UploadFile :=
  {| filename := Some "report.docx"; file_bytes := "PK..." |}.

End Demo.

(* ------------------------------------------------------------------ *)
(** ** Further vocabulary: settings, failures and data flow of the calls *)

(** The settings of a generation call: stage, model, time limit in
    seconds, and for a chat completion the temperature in tenths. *)
Definition call_settings (e : Event) : option (Stage * string * nat * option nat) :=
  match e with
  | EvGenerateContent st model _ timeout _ => Some (st, model, timeout, None)
  | EvChatCreate st model _ timeout temperature _ =>
      Some (st, model, timeout, Some temperature)
  | _ => None
  end.

(** The settings the program gives to the call of a stage. *)
Definition settings_as_coded (mt : ModelType) (m1 m2 m3 : string) (e : Event)
  : Prop :=
  match call_settings e with
  | None => True
  | Some (st, model, timeout, temperature) =>
      timeout = 300
      /\ match mt with
         | gemini =>
             temperature = None
             /\ model = match st with Edit => m2 | _ => m1 end
         | openai =>
             temperature = Some (match st with Edit => 1 | _ => 7 end)
             /\ model = m3
         end
  end.

(** A generation call that did not give a text: the call raised, or reading
    the text of the reply raised (the accessor of the multi-turn provider; a
    chat completion with no choice or no content).  The provider, the stage
    and the exception. *)
Definition failed_call (e : Event) : option (ModelType * Stage * exn) :=
  match e with
  | EvGenerateContent st _ _ _ (inl exc) => Some (gemini, st, exc)
  | EvGenerateContent st _ _ _ (inr response) =>
      match _response_text response with
      | inl exc => Some (gemini, st, exc)
      | inr _ => None
      end
  | EvChatCreate st _ _ _ _ (inl exc) => Some (openai, st, exc)
  | EvChatCreate st _ _ _ _ (inr response) =>
      match first_choice_text response with
      | inl exc => Some (openai, st, exc)
      | inr _ => None
      end
  | _ => None
  end.

(** The error text of the response for a failed call of a stage. *)
Definition stage_failure_error (mt : ModelType) (st : Stage) (exc : exn) : string :=
  match mt, st with
  | gemini, Analysis => Err.gemini_analysis_error exc
  | gemini, Draft => Err.gemini_draft_error exc
  | gemini, Edit => Err.gemini_edit_error exc
  | openai, Edit => Err.openai_edit_error exc
  | openai, _ => Err.openai_draft_error exc
  end.

(** An initialisation step of a provider that raised. *)
Definition init_failure (e : Event) : option (ModelType * exn) :=
  match e with
  | EvGenaiConfigure _ (Some exc) => Some (gemini, exc)
  | EvGenerativeModel _ (Some exc) => Some (gemini, exc)
  | EvOpenAI _ (Some exc) => Some (openai, exc)
  | _ => None
  end.

(** The error text of the response for a failed initialisation. *)
Definition init_failure_error (mt : ModelType) (m1 m2 : string) (exc : exn)
  : string :=
  match mt with
  | gemini => Err.gemini_init_failed m1 m2 exc
  | openai => Err.openai_init_failed exc
  end.

(** What a failure of the markdown converter or of the PDF renderer makes
    of the request: the first is caught nowhere, the second is reported. *)
Definition render_failure (e : Event) : option Response :=
  match e with
  | EvMarkdown _ (inl exc) => Some (Unhandled exc)
  | EvWritePdf _ (inl exc) => Some (JSONResponse (Err.pdf_error exc) 500)
  | _ => None
  end.

(** The text a generation call gave, stripped, as the next stage uses it. *)
Definition reply_text (e : Event) : option (Stage * string) :=
  match e with
  | EvGenerateContent st _ _ _ (inr response) =>
      match _response_text response with
      | inr text => Some (st, strip text)
      | inl _ => None
      end
  | EvChatCreate st _ _ _ _ (inr response) =>
      match first_choice_text response with
      | inr s => Some (st, s)
      | inl _ => None
      end
  | _ => None
  end.

(** The prompt of the stage that follows [st] is built from the reply of
    [st]: the draft prompt from the summary of the analysis, the edit prompt
    from the draft. *)
Definition fed_by (pers txt ref : string) (st : Stage) (reply : string)
  (e : Event) : Prop :=
  match prompt_of e with
  | Some (Draft, p) =>
      match st with
      | Analysis => p = draft_prompt pers reply txt ref
      | _ => True
      end
  | Some (Edit, p) =>
      match st with
      | Draft => p = edit_prompt_of reply
      | _ => True
      end
  | _ => True
  end.

(** The stages of the generation calls of a trace, in order. *)
Definition stages_called (t : list Event) : list Stage :=
  flat_map (fun e => match stage_of_call e with
                     | Some st => [st]
                     | None => []
                     end) t.

(** The calls a provider is asked for, in order. *)
Definition stage_plan (mt : ModelType) : list Stage :=
  match mt with
  | gemini => [Analysis; Draft; Edit]
  | openai => [Draft; Edit]
  end.

(** The generation calls a request asks for: those of the provider that its
    keys select, none without a key. *)
Definition planned_stages (req : Request) : list Stage :=
  match selected_provider (google_key_of req) (openai_key_of req) with
  | Some mt => stage_plan mt
  | None => []
  end.

(** The messages of the two chat completions. *)
Definition chat_messages_as_coded (pers txt ref : string) (e : Event) : Prop :=
  match e with
  | EvChatCreate Draft _ messages _ _ _ =>
      messages
      = [("system",
          draft_prompt pers "Sintese direta realizada pelo modelo OpenAI." txt ref);
         ("user", "Produza o ebook completo seguindo fielmente as instrucoes acima.")]
  | EvChatCreate Edit _ messages _ _ _ =>
      exists raw_markdown,
        messages
        = [("system", edit_prompt_of raw_markdown);
           ("user", "Por favor, revise o rascunho conforme as diretrizes.")]
  | EvChatCreate Analysis _ _ _ _ _ => False
  | _ => True
  end.

(** The response carries one of the two status codes of an error. *)
Definition error_status (r : Response) : option nat :=
  match r with
  | JSONResponse _ code => Some code
  | _ => None
  end.

(** An interaction with a provider or with the renderer that failed: an
    initialisation or a call that raised, a reply without a text, or a blank
    text. *)
Definition generation_failure (e : Event) : bool :=
  match init_failure e, failed_call e, blank_reply e, render_failure e with
  | None, None, None, None => false
  | _, _, _, _ => true
  end.

(** The result that an interaction records is the one that the environment
    gives for it. *)
Definition as_answered (env : Env) (e : Event) : Prop :=
  match e with
  | EvLog _ => True
  | EvMkdir p result => result = mkdir env p
  | EvGenaiConfigure api_key result => result = genai_configure env api_key
  | EvGenerativeModel model_name result => result = GenerativeModel env model_name
  | EvGenerateContent st model_name prompt timeout result =>
      result = generate_content env st model_name prompt timeout
  | EvOpenAI api_key result => result = OpenAI env api_key
  | EvChatCreate st model_name messages timeout temperature result =>
      result = chat_completions_create env st model_name messages timeout temperature
  | EvMarkdown source result => result = markdown env source
  | EvWritePdf html result => result = write_pdf env html
  end.

(** The services of a deployment all work: the providers accept every key
    and model, every call gives a text that is not blank, the converter and
    the renderer give a result. *)
Definition services_work (env : Env) : Prop :=
  (forall api_key, genai_configure env api_key = None)
  /\ (forall model_name, GenerativeModel env model_name = None)
  /\ (forall api_key, OpenAI env api_key = None)
  /\ (forall st model_name prompt timeout,
        exists response text,
          generate_content env st model_name prompt timeout = inr response
          /\ _response_text response = inr text
          /\ truthy (strip text) = true)
  /\ (forall st model_name messages timeout temperature,
        exists response text,
          chat_completions_create env st model_name messages timeout temperature
          = inr response
          /\ first_choice_text response = inr text /\ truthy text = true)
  /\ (forall source, exists html, markdown env source = inr html)
  /\ (forall html, exists body, write_pdf env html = inr body).

(** The prompt of the stage [st] of an interaction, if it has one, contains
    [needle] as it is. *)
Definition prompt_contains (st : Stage) (needle : string) (e : Event) : Prop :=
  forall p, prompt_of e = Some (st, p) -> Substring needle p.

(** What follows a successful extraction [r]: its fragments come first. *)
Definition after (texts : list string) (r : exn + list string) : exn + list string :=
  match r with
  | inl exc => inl exc
  | inr more => inr (texts ++ more)%list
  end.

(* ------------------------------------------------------------------ *)
(** ** Deployments that fail, for the examples *)

Module Failing.

(** The multi-turn provider refuses the key. *)
Definition env_bad_key : Env :=
  {| module_path := module_path Demo.env;
     resolve := resolve Demo.env;
     home_of := home_of Demo.env;
     getenv := getenv Demo.env;
     mkdir := mkdir Demo.env;
     PdfReader := PdfReader Demo.env;
     decode_utf8_ignore := decode_utf8_ignore Demo.env;
     genai_configure := fun _ => Some "invalid API key";
     GenerativeModel := GenerativeModel Demo.env;
     generate_content := generate_content Demo.env;
     OpenAI := OpenAI Demo.env;
     chat_completions_create := chat_completions_create Demo.env;
     markdown := markdown Demo.env;
     write_pdf := write_pdf Demo.env;
     latin1_error := latin1_error Demo.env |}.

(** The draft call of the multi-turn provider times out. *)
Definition env_draft_times_out : Env :=
  {| module_path := module_path Demo.env;
     resolve := resolve Demo.env;
     home_of := home_of Demo.env;
     getenv := getenv Demo.env;
     mkdir := mkdir Demo.env;
     PdfReader := PdfReader Demo.env;
     decode_utf8_ignore := decode_utf8_ignore Demo.env;
     genai_configure := genai_configure Demo.env;
     GenerativeModel := GenerativeModel Demo.env;
     generate_content := fun st m p t =>
                           match st with
                           | Draft => inl "Deadline Exceeded"
                           | _ => generate_content Demo.env st m p t
                           end;
     OpenAI := OpenAI Demo.env;
     chat_completions_create := chat_completions_create Demo.env;
     markdown := markdown Demo.env;
     write_pdf := write_pdf Demo.env;
     latin1_error := latin1_error Demo.env |}.

(** The chat completion of the draft has no choice. *)
Definition env_no_choices : Env :=
  {| module_path := module_path Demo.env;
     resolve := resolve Demo.env;
     home_of := home_of Demo.env;
     getenv := getenv Demo.env;
     mkdir := mkdir Demo.env;
     PdfReader := PdfReader Demo.env;
     decode_utf8_ignore := decode_utf8_ignore Demo.env;
     genai_configure := genai_configure Demo.env;
     GenerativeModel := GenerativeModel Demo.env;
     generate_content := generate_content Demo.env;
     OpenAI := OpenAI Demo.env;
     chat_completions_create := fun st m msgs t temp =>
                                  match st with
                                  | Draft => inr {| ChatCompletion.choices := [] |}
                                  | _ => chat_completions_create Demo.env st m msgs t temp
                                  end;
     markdown := markdown Demo.env;
     write_pdf := write_pdf Demo.env;
     latin1_error := latin1_error Demo.env |}.

(** The PDF renderer fails. *)
Definition env_renderer_fails : Env :=
  {| module_path := module_path Demo.env;
     resolve := resolve Demo.env;
     home_of := home_of Demo.env;
     getenv := getenv Demo.env;
     mkdir := mkdir Demo.env;
     PdfReader := PdfReader Demo.env;
     decode_utf8_ignore := decode_utf8_ignore Demo.env;
     genai_configure := genai_configure Demo.env;
     GenerativeModel := GenerativeModel Demo.env;
     generate_content := generate_content Demo.env;
     OpenAI := OpenAI Demo.env;
     chat_completions_create := chat_completions_create Demo.env;
     markdown := markdown Demo.env;
     write_pdf := fun _ => inl "font not found";
     latin1_error := latin1_error Demo.env |}.

(** The markdown converter fails. *)
Definition env_markdown_fails : Env :=
  {| module_path := module_path Demo.env;
     resolve := resolve Demo.env;
     home_of := home_of Demo.env;
     getenv := getenv Demo.env;
     mkdir := mkdir Demo.env;
     PdfReader := PdfReader Demo.env;
     decode_utf8_ignore := decode_utf8_ignore Demo.env;
     genai_configure := genai_configure Demo.env;
     GenerativeModel := GenerativeModel Demo.env;
     generate_content := generate_content Demo.env;
     OpenAI := OpenAI Demo.env;
     chat_completions_create := chat_completions_create Demo.env;
     markdown := fun _ => inl "maximum recursion depth exceeded";
     write_pdf := write_pdf Demo.env;
     latin1_error := latin1_error Demo.env |}.





(** A request with a text and without any key. *)
Definition req_no_keys : Request :=
  Demo.form (Some "Company history") None None None None None.

End Failing.

(* ------------------------------------------------------------------ *)
(** * Properties *)

(** ** Path resolution *)

Section Resolution.






End Resolution.




(** Neither does an override without any parent-directory component stay
    within the base directory when a directory on its way is a symbolic
    link: the resolution follows the link. *)
Example resolve_output_follows_links :
  relative_below (of_string (output_path_of (Demo.req_out "link/x.pdf"))) = true
  /\ no_dotdot (Pathlib.parts (of_string (output_path_of (Demo.req_out "link/x.pdf"))))
     = true
  /\ exists p,
       resolve_output_pdf Demo.env (output_path_of (Demo.req_out "link/x.pdf")) = inr p
       /\ to_string p = "/srv/outside/x.pdf"
       /\ within_base Demo.env p = false.
Proof.
  split; [reflexivity|]. split; [reflexivity|].
  eexists. split; [vm_compute; reflexivity|]. split; reflexivity.
Qed.

(** An override with a NUL byte makes the resolution raise: the request is
    left without a response before any directory is made. *)
Example resolve_output_raises_on_nul :
  let raw := "a" ++ String (ascii_of_nat 0) "b.pdf" in
  resolve_output_pdf Demo.env (output_path_of (Demo.req_out raw))
  = inl "embedded null byte"
  /\ handle Demo.env (Demo.req_out raw)
     = (Unhandled "embedded null byte", [received (Demo.req_out raw)]).
Proof. split; vm_compute; reflexivity. Qed.

(* ------------------------------------------------------------------ *)
(** ** The prompts, once formatted *)

Lemma format_content_prompt (p a t r : string) :
  format content_prompt_template
    [("personality", p); ("analysis_summary", a); ("text_content", t);
     ("references", r)]
  = inr (draft_prompt p a t r).
Proof.
  unfold draft_prompt, format.
  set (x := parse content_prompt_template "" None). vm_compute in x.
  subst x. reflexivity.
Qed.

Lemma format_edit_prompt (m : string) :
  format edit_prompt [("raw_markdown", m)] = inr (edit_prompt_of m).
Proof.
  unfold edit_prompt_of, format.
  set (x := parse edit_prompt "" None). vm_compute in x.
  subst x. reflexivity.
Qed.

(** Formatting the edit prompt with its own placeholder gives it back. *)
Lemma format_edit_prompt_placeholder :
  format edit_prompt [("raw_markdown", "{raw_markdown}")] = inr edit_prompt.
Proof. vm_compute. reflexivity. Qed.

Lemma Substring_middle (pre needle post : string) :
  Substring needle (pre ++ needle ++ post).
Proof. now exists pre, post. Qed.

(** The draft prompt carries the persona label as it is. *)
Lemma draft_prompt_persona (p a t r : string) : Substring p (draft_prompt p a t r).
Proof.
  unfold draft_prompt, format.
  set (x := parse content_prompt_template "" None). vm_compute in x.
  subst x. cbv beta iota zeta delta [fill lookup String.eqb Ascii.eqb Bool.eqb].
  apply Substring_middle.
Qed.

Lemma Substring_after (pre needle s : string) :
  Substring needle s -> Substring needle (pre ++ s).
Proof.
  intros (pre' & post & ->). exists (pre ++ pre'), post.
  induction pre as [|c pre IH]; [reflexivity|].
  cbn [append]. now rewrite IH.
Qed.

Ltac find_substring :=
  repeat first [ apply Substring_middle | apply Substring_after ].

(** The draft prompt carries the summary, the main text and the references
    as they are; the edit prompt carries the draft as it is. *)
Lemma draft_prompt_inputs (p a t r : string) :
  Substring a (draft_prompt p a t r)
  /\ Substring t (draft_prompt p a t r)
  /\ Substring r (draft_prompt p a t r).
Proof.
  unfold draft_prompt, format.
  set (x := parse content_prompt_template "" None). vm_compute in x.
  subst x. cbv beta iota zeta delta [fill lookup String.eqb Ascii.eqb Bool.eqb].
  repeat split; find_substring.
Qed.

Lemma edit_prompt_draft (m : string) : Substring m (edit_prompt_of m).
Proof.
  unfold edit_prompt_of, format.
  set (x := parse edit_prompt "" None). vm_compute in x.
  subst x. cbv beta iota zeta delta [fill lookup String.eqb Ascii.eqb Bool.eqb].
  apply Substring_middle.
Qed.

(** [needle in s] decides [Substring]. *)
Lemma prefix_app (a b : string) : prefix a (a ++ b) = true.
Proof.
  induction a as [|c a IH]; [now destruct b|].
  simpl. destruct (ascii_dec c c) as [_|n]; [exact IH|now elim n].
Qed.

Lemma contains_Substring (needle s : string) :
  Substring needle s -> contains needle s = true.
Proof.
  intros (pre & post & ->). induction pre as [|c pre IH].
  - simpl append. destruct (needle ++ post) eqn:E.
    + destruct needle; [reflexivity|discriminate].
    + unfold contains; fold contains. rewrite <- E, prefix_app. reflexivity.
  - simpl append. unfold contains; fold contains. rewrite IH. apply orb_true_r.
Qed.

(* ------------------------------------------------------------------ *)
(** ** Case analysis of a phase of the handler *)

(** The prompts are compared by name, never by their text. *)
Opaque analysis_prompt draft_prompt edit_prompt_of.

Ltac destruct_scrutinee :=
  match goal with
  | |- context [match ?x with _ => _ end] =>
      lazymatch x with
      | context [match _ with _ => _ end] => fail
      | _ => destruct x eqn:?
      end
  end.

Ltac reduce_handler :=
  cbv beta iota zeta delta
    [run bind emit respond ret raise _log_step _json_error app negb andb fst snd].

Ltac phase_cases :=
  reduce_handler;
  repeat (rewrite ?format_content_prompt, ?format_edit_prompt,
            ?format_edit_prompt_placeholder;
          destruct_scrutinee; reduce_handler).

Ltac pair_eq H := injection H as <- <-.

Ltac forall_events tac :=
  repeat first [ apply Forall_nil | apply Forall_cons; [ tac | ] ].

Ltac pipeline_event_ok :=
  cbv [pipeline_event is_render_event is_fs_event provider_of]; auto.

(** Each event of a concrete trace in turn, in the hypothesis [Hin]. *)
Ltac each_event Hin tac :=
  cbn [In] in Hin;
  repeat (destruct Hin as [<-|Hin]; [ tac | ]);
  try contradiction.

(** [None = Some _] is absurd; nothing else is looked at, so that no prompt
    is ever evaluated. *)
Ltac none_some H :=
  match type of H with
  | None = Some _ => discriminate H
  end.

Ltac use_truthy Hb :=
  repeat match goal with
         | H : truthy ?x = _ |- _ =>
             match type of Hb with context [truthy x] => rewrite H in Hb end
         | H : first_choice_text ?x = _ |- _ =>
             match type of Hb with context [first_choice_text x] => rewrite H in Hb end
         | H : _response_text ?x = _ |- _ =>
             match type of Hb with context [_response_text x] => rewrite H in Hb end
         end.

(* ------------------------------------------------------------------ *)
(** ** The phases *)

Lemma not_a_call (e : Event) :
  stage_of_call e = None -> blank_reply e = None /\ prompt_of e = None.
Proof. destruct e; cbn; intros [=]; auto. Qed.

Section Phases.

Variable env : Env.

(** *** Provider initialisation *)

Lemma init_model_events gk ok m1 m2 m3 o t :
  init_model env gk ok m1 m2 m3 = (o, t) ->
  Forall (fun e =>
            is_render_event e = false /\ is_fs_event e = false
            /\ stage_of_call e = None
            /\ (provider_of e = None \/ provider_of e = selected_provider gk ok)) t.
Proof.
  unfold init_model, selected_provider. phase_cases.
  all: intros Heq; pair_eq Heq.
  all: forall_events ltac:(cbv [is_render_event is_fs_event stage_of_call provider_of];
                           auto).
Qed.

(** The model type that initialisation returns is the selected one, and the
    first interaction is with the selected provider, with the key given. *)
Lemma init_model_result gk ok m1 m2 m3 o t :
  init_model env gk ok m1 m2 m3 = (o, t) ->
  (forall mt, o = Go mt -> mt = selected_provider gk ok)
  /\ (forall r, o = Stop r -> is_json r = true)
  /\ (truthy gk = true ->
      exists rest, t = EvGenaiConfigure gk (genai_configure env gk) :: rest)
  /\ (truthy gk = false -> truthy ok = true ->
      exists rest, t = EvOpenAI ok (OpenAI env ok) :: rest).
Proof.
  unfold init_model, selected_provider. phase_cases.
  all: intros Heq; pair_eq Heq.
  all: repeat split; try (intros ? [=]; subst; reflexivity);
    try (intros; discriminate); intros; eexists; repeat f_equal;
    try reflexivity; symmetry; eassumption.
Qed.

(** *** The pipeline of the multi-turn provider *)

Lemma gemini_pipeline_summary cm em pers txt ref o t :
  gemini_pipeline env cm em pers txt ref = (o, t) ->
  Forall (pipeline_event gemini) t
  /\ Forall (prompt_as_built pers txt ref) t
  /\ (forall r, o = Stop r -> is_json r = true)
  /\ (forall ev mt st, In ev t -> blank_reply ev = Some (mt, st) ->
        o = Stop (JSONResponse (empty_result_error mt st) 500)
        /\ Forall (fun ev' => forall st', stage_of_call ev' = Some st' ->
                                          stage_index st' <= stage_index st) t).
Proof.
  unfold gemini_pipeline. phase_cases.
  all: intros Heq; pair_eq Heq.
  all: split; [forall_events pipeline_event_ok|].
  all: split;
    [forall_events ltac:(cbv [prompt_as_built prompt_of stage_prompt];
                         first [ exact I | reflexivity | eexists; reflexivity ])|].
  all: split; [intros ? [=]; subst; reflexivity|].
  all: intros ev mt st Hin Hb.
  all: each_event Hin ltac:(cbn [blank_reply] in Hb).
  all: try none_some Hb.
  all: use_truthy Hb; try none_some Hb.
  all: injection Hb as <- <-; split; [reflexivity|].
  all: forall_events ltac:(cbn [stage_of_call stage_index]; intros ? [=]; subst;
                           cbn [stage_index]; lia).
Qed.

Lemma gemini_pipeline_events cm em pers txt ref o t :
  gemini_pipeline env cm em pers txt ref = (o, t) ->
  Forall (pipeline_event gemini) t.
Proof. intros H. apply (gemini_pipeline_summary _ _ _ _ _ H). Qed.

(** The prompts of the stages. *)
Lemma gemini_pipeline_prompts cm em pers txt ref o t :
  gemini_pipeline env cm em pers txt ref = (o, t) ->
  Forall (prompt_as_built pers txt ref) t.
Proof. intros H. apply (gemini_pipeline_summary _ _ _ _ _ H). Qed.

(** A stage whose reply is blank ends the pipeline with the error of that
    stage, and no later stage is called. *)
Lemma gemini_pipeline_blank cm em pers txt ref o t :
  gemini_pipeline env cm em pers txt ref = (o, t) ->
  forall ev mt st, In ev t -> blank_reply ev = Some (mt, st) ->
    o = Stop (JSONResponse (empty_result_error mt st) 500)
    /\ Forall (fun ev' => forall st', stage_of_call ev' = Some st' ->
                                      stage_index st' <= stage_index st) t.
Proof. intros H. apply (gemini_pipeline_summary _ _ _ _ _ H). Qed.

(** A pipeline that stops returns a structured error. *)
Lemma gemini_pipeline_stops cm em pers txt ref o t :
  gemini_pipeline env cm em pers txt ref = (o, t) ->
  forall r, o = Stop r -> is_json r = true.
Proof. intros H. apply (gemini_pipeline_summary _ _ _ _ _ H). Qed.

(** *** The pipeline of the chat-completion provider *)

Lemma openai_pipeline_summary model pers txt ref o t :
  openai_pipeline env model pers txt ref = (o, t) ->
  Forall (pipeline_event openai) t
  /\ Forall (prompt_as_built pers txt ref) t
  /\ (forall r, o = Stop r -> is_json r = true)
  /\ (forall ev mt st, In ev t -> blank_reply ev = Some (mt, st) ->
        o = Stop (JSONResponse (empty_result_error mt st) 500)
        /\ Forall (fun ev' => forall st', stage_of_call ev' = Some st' ->
                                          stage_index st' <= stage_index st) t).
Proof.
  unfold openai_pipeline. phase_cases.
  all: intros Heq; pair_eq Heq.
  all: split; [forall_events pipeline_event_ok|].
  all: split;
    [forall_events ltac:(cbv [prompt_as_built prompt_of stage_prompt];
                         first [ exact I | reflexivity | eexists; reflexivity ])|].
  all: split; [intros ? [=]; subst; reflexivity|].
  all: intros ev mt st Hin Hb.
  all: each_event Hin ltac:(cbn [blank_reply] in Hb).
  all: try none_some Hb.
  all: use_truthy Hb; try none_some Hb.
  all: injection Hb as <- <-; split; [reflexivity|].
  all: forall_events ltac:(cbn [stage_of_call stage_index]; intros ? [=]; subst;
                           cbn [stage_index]; lia).
Qed.

Lemma openai_pipeline_events model pers txt ref o t :
  openai_pipeline env model pers txt ref = (o, t) ->
  Forall (pipeline_event openai) t.
Proof. intros H. apply (openai_pipeline_summary _ _ _ _ H). Qed.

(** The prompts of the stages. *)
Lemma openai_pipeline_prompts model pers txt ref o t :
  openai_pipeline env model pers txt ref = (o, t) ->
  Forall (prompt_as_built pers txt ref) t.
Proof. intros H. apply (openai_pipeline_summary _ _ _ _ H). Qed.

(** A stage whose reply is blank ends the pipeline with the error of that
    stage, and no later stage is called. *)
Lemma openai_pipeline_blank model pers txt ref o t :
  openai_pipeline env model pers txt ref = (o, t) ->
  forall ev mt st, In ev t -> blank_reply ev = Some (mt, st) ->
    o = Stop (JSONResponse (empty_result_error mt st) 500)
    /\ Forall (fun ev' => forall st', stage_of_call ev' = Some st' ->
                                      stage_index st' <= stage_index st) t.
Proof. intros H. apply (openai_pipeline_summary _ _ _ _ H). Qed.

(** A pipeline that stops returns a structured error. *)
Lemma openai_pipeline_stops model pers txt ref o t :
  openai_pipeline env model pers txt ref = (o, t) ->
  forall r, o = Stop r -> is_json r = true.
Proof. intros H. apply (openai_pipeline_summary _ _ _ _ H). Qed.

(** *** Rendering *)

Lemma render_pdf_events final_markdown output_pdf o t :
  render_pdf env final_markdown output_pdf = (o, t) ->
  Forall (fun e => is_fs_event e = false /\ stage_of_call e = None
                   /\ provider_of e = None) t.
Proof.
  unfold render_pdf. phase_cases.
  all: intros Heq; pair_eq Heq.
  all: forall_events ltac:(cbv [is_fs_event stage_of_call provider_of]; auto).
Qed.

(** A response that is not an error is the document: its body is what the
    renderer returned for the converted markdown, and the output path gives
    the file name of the attachment. *)
Lemma render_pdf_document final_markdown output_pdf o t :
  render_pdf env final_markdown output_pdf = (o, t) ->
  (forall body media disposition,
      o = Stop (StreamingResponse body media disposition) -> False)
  /\ (forall r, o = Go r ->
      exists html body,
        markdown env final_markdown = inr html
        /\ write_pdf env html = inr body
        /\ r = StreamingResponse body "application/pdf"
                ("attachment; filename=" ++ dq ++ name output_pdf ++ dq)
        /\ In (EvWritePdf html (inr body)) t).
Proof.
  unfold render_pdf. phase_cases.
  all: intros Heq; pair_eq Heq.
  all: split; [intros ? ? ? H; discriminate H|intros r H; try discriminate H].
  injection H as <-. exists s, s0.
  repeat split; try reflexivity; try assumption.
  cbn [In]. auto 10.
Qed.

(** *** From the choice of the provider to the response *)

Lemma bind_inv (A B : Type) (m : M A) (k : A -> M B) o t :
  bind m k = (o, t) ->
  (exists r, m = (Stop r, t) /\ o = Stop r)
  \/ (exists a t1 t2, m = (Go a, t1) /\ k a = (o, t2) /\ t = (t1 ++ t2)%list).
Proof.
  unfold bind. destruct m as [[a|r] t1].
  - destruct (k a) as [o2 t2] eqn:E. intros H. pair_eq H.
    right. exists a, t1, t2. auto.
  - intros H. pair_eq H. left. exists r. auto.
Qed.

Lemma generate_and_render_run gk ok m1 m2 m3 pers txt ref out o t :
  generate_and_render env gk ok m1 m2 m3 pers txt ref out = (o, t) ->
  gen_run env gk ok m1 m2 m3 pers txt ref out o t.
Proof.
  unfold generate_and_render. intros H.
  apply bind_inv in H as [(r & Hi & ->)|(mt & t1 & t2 & Hi & Hk & ->)].
  { now apply run_init_stops. }
  destruct mt as [[|]|].
  - apply bind_inv in Hk as [(r & Hp & ->)|(fm & t2' & t3 & Hp & Hr & ->)].
    + now apply run_pipeline_stops with (mt := gemini).
    + now apply run_renders with (mt := gemini) (final_markdown := fm).
  - apply bind_inv in Hk as [(r & Hp & ->)|(fm & t2' & t3 & Hp & Hr & ->)].
    + now apply run_pipeline_stops with (mt := openai).
    + now apply run_renders with (mt := openai) (final_markdown := fm).
  - cbv [bind _log_step emit respond] in Hk. pair_eq Hk.
    now apply run_no_model.
Qed.

Lemma pipeline_of_summary mt m1 m2 m3 pers txt ref o t :
  pipeline_of env mt m1 m2 m3 pers txt ref = (o, t) ->
  Forall (pipeline_event mt) t
  /\ Forall (prompt_as_built pers txt ref) t
  /\ (forall r, o = Stop r -> is_json r = true)
  /\ (forall ev mt' st, In ev t -> blank_reply ev = Some (mt', st) ->
        o = Stop (JSONResponse (empty_result_error mt' st) 500)
        /\ Forall (fun ev' => forall st', stage_of_call ev' = Some st' ->
                                          stage_index st' <= stage_index st) t).
Proof.
  destruct mt; cbn [pipeline_of]; intros H.
  - exact (gemini_pipeline_summary _ _ _ _ _ H).
  - exact (openai_pipeline_summary _ _ _ _ H).
Qed.

End Phases.

(* ------------------------------------------------------------------ *)
(** ** The handler *)

Ltac keys_given :=
  unfold google_key_of, openai_key_of;
  repeat match goal with
         | H : truthy _ = _ |- _ => rewrite H
         end;
  reflexivity.

Lemma handle_run (env : Env) (req : Request) r t :
  handle env req = (r, t) -> handler_run env req r t.
Proof.
  unfold handle, generate_ebook.
  fold (file_count_of req). fold (uploads_of env req).
  phase_cases.
  all: intros Heq; pair_eq Heq.
  all: try match goal with
           | H : generate_and_render _ _ _ _ _ _ _ _ _ _ = (?o, _) |- _ =>
               apply generate_and_render_run in H;
               apply (@run_generates env req _ _ o) with (6 := H);
               first [ assumption | keys_given ]
           end.
  all: first
         [ eapply run_path_fails; eassumption
         | eapply run_mkdir_fails; eassumption
         | eapply run_no_text; eassumption
         | eapply run_no_key; eassumption
         | eapply run_upload_fails; first [ eassumption | keys_given ] ].
Qed.

(* ------------------------------------------------------------------ *)
(** ** Generation runs *)

Section Generation.

Variables (env : Env) (gk ok m1 m2 m3 pers txt ref : string) (out : Path).
Variables (o : outcome Response) (t : list Event).
Hypothesis Hrun : gen_run env gk ok m1 m2 m3 pers txt ref out o t.

Lemma Forall_app_intro (P : Event -> Prop) (l1 l2 : list Event) :
  Forall P l1 -> Forall P l2 -> Forall P (l1 ++ l2).
Proof. intros. apply Forall_app. now split. Qed.

Lemma Forall_weaken (P Q : Event -> Prop) (l : list Event) :
  (forall e, P e -> Q e) -> Forall P l -> Forall Q l.
Proof. intros H. apply Forall_impl. exact H. Qed.

(** What the three parts of the trace have in common. *)
Lemma gen_run_events :
  Forall (fun e => is_fs_event e = false
                   /\ (provider_of e = None
                       \/ provider_of e = selected_provider gk ok)) t.
Proof.
  destruct Hrun as [r t1 Hi|t1 Hi|mt t1 r t2 Hi Hp|mt t1 fm t2 o3 t3 Hi Hp Hr].
  all: pose proof (init_model_events _ _ _ _ _ _ Hi) as E1.
  all: pose proof (init_model_result _ _ _ _ _ _ Hi) as (Hsel & _).
  all: repeat apply Forall_app_intro.
  all: try (eapply Forall_weaken; [|exact E1]; cbv beta; tauto).
  - repeat constructor.
  - specialize (Hsel _ eq_refl).
    apply pipeline_of_summary in Hp as (E2 & _).
    eapply Forall_weaken; [|exact E2].
    unfold pipeline_event. rewrite <- Hsel; tauto.
  - specialize (Hsel _ eq_refl).
    apply pipeline_of_summary in Hp as (E2 & _).
    eapply Forall_weaken; [|exact E2].
    unfold pipeline_event. rewrite <- Hsel; tauto.
  - apply render_pdf_events in Hr.
    eapply Forall_weaken; [|exact Hr]. cbv beta; tauto.
Qed.

Lemma gen_run_prompts : Forall (prompt_as_built pers txt ref) t.
Proof.
  assert (Q : forall l, Forall (fun e => stage_of_call e = None) l ->
                        Forall (prompt_as_built pers txt ref) l).
  { intros l. apply Forall_weaken. intros e He.
    unfold prompt_as_built. now rewrite (proj2 (not_a_call e He)). }
  destruct Hrun as [r t1 Hi|t1 Hi|mt t1 r t2 Hi Hp|mt t1 fm t2 o3 t3 Hi Hp Hr].
  all: pose proof (init_model_events _ _ _ _ _ _ Hi) as E1.
  all: assert (Forall (prompt_as_built pers txt ref) t1)
    by (apply Q; eapply Forall_weaken; [|exact E1]; cbv beta; tauto).
  all: repeat apply Forall_app_intro; try assumption.
  - repeat constructor.
  - now apply pipeline_of_summary in Hp.
  - now apply pipeline_of_summary in Hp.
  - apply render_pdf_events in Hr. apply Q.
    eapply Forall_weaken; [|exact Hr]. cbv beta; tauto.
Qed.

Lemma not_blank_in (l : list Event) ev mt st :
  Forall (fun e => stage_of_call e = None) l ->
  In ev l -> blank_reply ev = Some (mt, st) -> False.
Proof.
  intros Hl Hin Hb. rewrite Forall_forall in Hl.
  rewrite (proj1 (not_a_call ev (Hl ev Hin))) in Hb. discriminate Hb.
Qed.

(** A blank reply of a stage ends the request with the error of that
    stage; no later stage is called and nothing is rendered. *)
Lemma gen_run_blank ev mt st :
  In ev t -> blank_reply ev = Some (mt, st) ->
  o = Stop (JSONResponse (empty_result_error mt st) 500)
  /\ Forall (fun e => is_render_event e = false
                      /\ forall st', stage_of_call e = Some st' ->
                                     stage_index st' <= stage_index st) t.
Proof.
  intros Hin Hb.
  assert (Q : forall l, Forall (fun e => is_render_event e = false
                                         /\ stage_of_call e = None) l ->
              Forall (fun e => is_render_event e = false
                      /\ forall st', stage_of_call e = Some st' ->
                                     stage_index st' <= stage_index st) l).
  { intros l. apply Forall_weaken. intros e [Hr Hs]. split; [exact Hr|].
    intros st' H. rewrite Hs in H. discriminate H. }
  destruct Hrun as [r t1 Hi|t1 Hi|mt0 t1 r t2 Hi Hp|mt0 t1 fm t2 o3 t3 Hi Hp Hr].
  all: pose proof (init_model_events _ _ _ _ _ _ Hi) as E1.
  all: assert (N1 : Forall (fun e => stage_of_call e = None) t1)
    by (eapply Forall_weaken; [|exact E1]; cbv beta; tauto).
  all: assert (R1 : Forall (fun e => is_render_event e = false
                                      /\ stage_of_call e = None) t1)
    by (eapply Forall_weaken; [|exact E1]; cbv beta; tauto).
  - destruct (@not_blank_in _ _ _ _ N1 Hin Hb).
  - apply in_app_or in Hin as [Hin|Hin]; [destruct (@not_blank_in _ _ _ _ N1 Hin Hb)|].
    cbn [In] in Hin. destruct Hin as [<-|[]]. discriminate Hb.
  - apply in_app_or in Hin as [Hin|Hin]; [destruct (@not_blank_in _ _ _ _ N1 Hin Hb)|].
    apply pipeline_of_summary in Hp as (E2 & _ & _ & B2).
    destruct (B2 _ _ _ Hin Hb) as [H S2]. injection H as ->. split; [reflexivity|].
    apply Forall_app_intro; [now apply Q|].
    rewrite Forall_forall in *. intros e He. split.
    + apply (E2 e He).
    + apply (S2 e He).
  - apply in_app_or in Hin as [Hin|Hin]; [destruct (@not_blank_in _ _ _ _ N1 Hin Hb)|].
    apply in_app_or in Hin as [Hin|Hin].
    + apply pipeline_of_summary in Hp as (_ & _ & _ & B2).
      destruct (B2 _ _ _ Hin Hb) as [H _]. discriminate H.
    + apply render_pdf_events in Hr.
      exfalso. eapply (@not_blank_in _ _ _ _); [|exact Hin|exact Hb].
      eapply Forall_weaken; [|exact Hr]. cbv beta; tauto.
Qed.

(** A response that is the document was produced by the renderer. *)
Lemma gen_run_document body media disposition :
  response_of o = StreamingResponse body media disposition ->
  media = "application/pdf" /\ disposition = attachment out
  /\ exists html, write_pdf env html = inr body
                  /\ In (EvWritePdf html (inr body)) t.
Proof.
  intros Hresp.
  destruct Hrun as [r t1 Hi|t1 Hi|mt0 t1 r t2 Hi Hp|mt0 t1 fm t2 o3 t3 Hi Hp Hr].
  - apply init_model_result in Hi as (_ & J & _).
    specialize (J _ eq_refl). cbn [response_of] in Hresp. rewrite Hresp in J.
    discriminate J.
  - discriminate Hresp.
  - apply pipeline_of_summary in Hp as (_ & _ & J & _).
    specialize (J _ eq_refl). cbn [response_of] in Hresp. rewrite Hresp in J.
    discriminate J.
  - apply render_pdf_document in Hr as [Hstop Hgo].
    destruct o3 as [r|r]; cbn [response_of] in Hresp; subst r.
    + destruct (Hgo _ eq_refl) as (html & body' & _ & Hw & Heq & Hin).
      injection Heq as -> -> ->.
      repeat split. exists html. split; [exact Hw|].
      apply in_or_app. right. apply in_or_app. now right.
    + destruct (Hstop _ _ _ eq_refl).
Qed.

(** The first interaction is the initialisation of the selected provider. *)
Lemma gen_run_first :
  exists rest,
    match selected_provider gk ok with
    | Some gemini => t = EvGenaiConfigure gk (genai_configure env gk) :: rest
    | Some openai => t = EvOpenAI ok (OpenAI env ok) :: rest
    | None => True
    end.
Proof.
  assert (F : forall o1 t1, init_model env gk ok m1 m2 m3 = (o1, t1) ->
              forall t', exists rest,
                match selected_provider gk ok with
                | Some gemini =>
                    (t1 ++ t')%list = EvGenaiConfigure gk (genai_configure env gk) :: rest
                | Some openai => (t1 ++ t')%list = EvOpenAI ok (OpenAI env ok) :: rest
                | None => True
                end).
  { intros o1 t1 Hi t'. apply init_model_result in Hi as (_ & _ & Hg & Ho).
    unfold selected_provider. destruct (truthy gk).
    - destruct (Hg eq_refl) as [rest ->]. now exists (rest ++ t')%list.
    - destruct (truthy ok).
      + destruct (Ho eq_refl eq_refl) as [rest ->]. now exists (rest ++ t')%list.
      + now exists []. }
  destruct Hrun as [r t1 Hi|t1 Hi|mt0 t1 r t2 Hi Hp|mt0 t1 fm t2 o3 t3 Hi Hp Hr].
  - rewrite <- (app_nil_r t1). exact (F _ _ Hi []).
  - exact (F _ _ Hi _).
  - exact (F _ _ Hi _).
  - exact (F _ _ Hi _).
Qed.

End Generation.

(* ------------------------------------------------------------------ *)
(** ** Requests *)

Ltac contradict_truthy :=
  match goal with
  | H1 : truthy ?x = true, H2 : truthy ?x = false |- _ =>
      rewrite H1 in H2; discriminate H2
  end.

(** The three interactions before generation call no provider, render
    nothing and carry no prompt. *)
Lemma prelude_quiet (req : Request) (p : Path) (made : option exn) (msg : string) :
  Forall (fun e => stage_of_call e = None /\ is_render_event e = false
                   /\ provider_of e = None)
    [received req; EvMkdir p made; EvLog msg].
Proof. repeat constructor. Qed.

(** A blank reply at any stage: the response is the error of that stage,
    no later stage is called, nothing is rendered. *)
Lemma handle_blank (env : Env) (req : Request) r t ev mt st :
  handle env req = (r, t) ->
  In ev t -> blank_reply ev = Some (mt, st) ->
  r = JSONResponse (empty_result_error mt st) 500
  /\ Forall (fun e => is_render_event e = false
                      /\ forall st', stage_of_call e = Some st' ->
                                     stage_index st' <= stage_index st) t.
Proof.
  intros H Hin Hb. apply handle_run in H.
  destruct H as [exc|out exc|out|out|out exc|out up o t' Ho Hm Ht Hk Hu Hg].
  1-5: each_event Hin ltac:(cbn [blank_reply received] in Hb; none_some Hb).
  cbn [In] in Hin.
  destruct Hin as [<-|[<-|[<-|Hin]]];
    try (cbn [blank_reply received] in Hb; none_some Hb).
  destruct (gen_run_blank Hg _ Hin Hb) as [-> F]. split; [reflexivity|].
  repeat (apply Forall_cons;
          [split; [reflexivity|cbn [stage_of_call received]; intros ? [=]]|]).
  exact F.
Qed.

(* ------------------------------------------------------------------ *)
(** ** Response text *)




(** C6.  When the draft call succeeds and its text is blank, the handler
    answers with the 500 error of the draft stage of that provider, the edit
    stage is not called, and neither the markdown converter nor the PDF
    renderer is. *)
Theorem blank_draft_halts (env : Env) (req : Request) (ev : Event) (mt : ModelType) :
  In ev (snd (handle env req)) ->
  blank_reply ev = Some (mt, Draft) ->
  fst (handle env req) = JSONResponse (empty_result_error mt Draft) 500
  /\ Forall (fun e => stage_of_call e <> Some Edit /\ is_render_event e = false)
       (snd (handle env req)).
Proof.
  intros Hin Hb. destruct (handle env req) as [r t] eqn:H. cbn [fst snd] in *.
  destruct (@handle_blank _ _ _ _ _ _ _ H Hin Hb) as [-> F]. split; [reflexivity|].
  eapply Forall_impl; [|exact F]. cbv beta. intros e [Hr Hs]. split; [|exact Hr].
  intros Hedit. specialize (Hs _ Hedit). cbn [stage_index] in Hs. lia.
Qed.

(* ------------------------------------------------------------------ *)
(** ** The provider *)

Lemma handle_providers (env : Env) (req : Request) r t :
  handle env req = (r, t) ->
  Forall (fun e => provider_of e = None
                   \/ provider_of e
                      = selected_provider (google_key_of req) (openai_key_of req)) t.
Proof.
  intros H. apply handle_run in H.
  destruct H as [exc|out exc|out|out|out exc|out up o t' Ho Hm Ht Hk Hu Hg].
  1-5: repeat constructor.
  repeat (apply Forall_cons; [now left|]).
  eapply Forall_impl; [|exact (gen_run_events Hg)]. cbv beta. tauto.
Qed.

(** C4.  For a request that passes validation, the provider is chosen by the
    keys alone, the multi-turn provider whenever its key is present: every
    interaction with a provider is with the chosen one, and once the uploads
    are read the first of them is the initialisation of the chosen provider
    with its key. *)
Theorem provider_precedence (env : Env) (req : Request) :
  truthy (text_of req) = true ->
  truthy (google_key_of req) || truthy (openai_key_of req) = true ->
  let chosen := if truthy (google_key_of req) then gemini else openai in
  selected_provider (google_key_of req) (openai_key_of req) = Some chosen
  /\ Forall (fun e => provider_of e = None \/ provider_of e = Some chosen)
       (snd (handle env req))
  /\ forall out uploaded_text,
       resolve_output_pdf env (output_path_of req) = inr out ->
       mkdir env (parent out) = None ->
       uploads_of env req = inr uploaded_text ->
       exists rest,
         snd (handle env req)
         = received req :: EvMkdir (parent out) None
           :: EvLog (log_line (Log.files_processed uploaded_text))
           :: (if truthy (google_key_of req)
               then EvGenaiConfigure (google_key_of req)
                      (genai_configure env (google_key_of req))
               else EvOpenAI (openai_key_of req) (OpenAI env (openai_key_of req)))
           :: rest.
Proof.
  intros Htext Hkeys chosen.
  assert (Hsel : selected_provider (google_key_of req) (openai_key_of req)
                 = Some chosen).
  { unfold selected_provider, chosen.
    destruct (truthy (google_key_of req)); [reflexivity|].
    cbn [orb] in Hkeys. now rewrite Hkeys. }
  split; [exact Hsel|].
  destruct (handle env req) as [r t] eqn:H. cbn [snd].
  split.
  { rewrite <- Hsel. eapply handle_providers. exact H. }
  intros out uploaded_text Hout Hmk Hup.
  apply handle_run in H.
  destruct H as [exc|out' exc|out'|out'|out' exc|out' up o t' Ho Hm Ht Hk Hu Hg].
  - rewrite Hout in H. discriminate H.
  - rewrite Hout in H. injection H as <-. rewrite Hmk in H0. discriminate H0.
  - contradict_truthy.
  - rewrite H2, H3 in Hkeys. discriminate Hkeys.
  - rewrite Hup in H3. discriminate H3.
  - rewrite Hout in Ho. injection Ho as <-.
    rewrite Hup in Hu. injection Hu as <-.
    destruct (gen_run_first Hg) as [rest Hfirst].
    rewrite Hsel in Hfirst. unfold chosen in Hfirst.
    exists rest. destruct (truthy (google_key_of req)); now rewrite Hfirst.
Qed.

(* ------------------------------------------------------------------ *)
(** ** The persona *)

(** C3, as amended.  The persona label (stripped, and "neutra" when
    absent or blank) occurs as it is in the draft prompt of either provider;
    the analysis prompt is built from the main text and the references only,
    and the edit prompt from the draft only. *)
Theorem persona_in_draft_prompt (env : Env) (req : Request) (ev : Event)
  (st : Stage) (p : string) :
  In ev (snd (handle env req)) ->
  prompt_of ev = Some (st, p) ->
  match st with
  | Analysis =>
      exists reference_text, p = analysis_prompt (text_of req) reference_text
  | Draft => Substring (persona_of req) p
  | Edit => exists raw_markdown, p = edit_prompt_of raw_markdown
  end.
Proof.
  intros Hin Hp. destruct (handle env req) as [r t] eqn:H. cbn [snd] in Hin.
  apply handle_run in H.
  destruct H as [exc|out exc|out|out|out exc|out up o t' Ho Hm Ht Hk Hu Hg].
  1-5: each_event Hin ltac:(cbn [prompt_of received] in Hp; none_some Hp).
  cbn [In] in Hin.
  destruct Hin as [<-|[<-|[<-|Hin]]];
    try (cbn [prompt_of received] in Hp; none_some Hp).
  pose proof (gen_run_prompts Hg) as F. rewrite Forall_forall in F.
  specialize (F _ Hin). unfold prompt_as_built in F. rewrite Hp in F.
  destruct st; cbn [stage_prompt] in F.
  - eexists. exact F.
  - destruct F as [summary ->]. apply draft_prompt_persona.
  - exact F.
Qed.

(* ------------------------------------------------------------------ *)
(** ** Validation and the output directory *)

(** C7, as amended.  A request whose main text is empty or blank causes no
    interaction with a provider, and when its output path is resolved and the
    parent directory made without an exception, the response is the 400
    validation error. *)
Theorem empty_text_rejected (env : Env) (req : Request) :
  truthy (text_of req) = false ->
  Forall (fun e => provider_of e = None) (snd (handle env req))
  /\ forall out,
       resolve_output_pdf env (output_path_of req) = inr out ->
       mkdir env (parent out) = None ->
       handle env req
       = (JSONResponse Err.text_required 400,
          [received req; EvMkdir (parent out) None;
           EvLog (log_line Log.rejected_no_text)]).
Proof.
  intros Hblank. destruct (handle env req) as [r t] eqn:H.
  apply handle_run in H. cbn [snd].
  destruct H; try contradict_truthy.
  - split; [repeat constructor|]. intros out Ho. rewrite H in Ho. discriminate Ho.
  - split; [repeat constructor|]. intros out' Ho Hm.
    rewrite H in Ho. injection Ho as <-. rewrite H0 in Hm. discriminate Hm.
  - split; [repeat constructor|]. intros out' Ho Hm.
    rewrite H in Ho. injection Ho as <-. reflexivity.
Qed.

(** C10, as amended.  When the output path of a request resolves, the
    creation of its parent directory is the first interaction after the
    opening log line, before any validation; requests then rejected for a
    missing text or for missing keys have made the directory; and when the
    creation raises, the exception leaves the handler at once: nothing is
    validated, nothing else happens and no response is built. *)
Theorem mkdir_precedes_validation (env : Env) (req : Request) (out : Path) :
  resolve_output_pdf env (output_path_of req) = inr out ->
  (exists rest,
      snd (handle env req)
      = received req :: EvMkdir (parent out) (mkdir env (parent out)) :: rest)
  /\ (forall exc,
      mkdir env (parent out) = Some exc ->
      handle env req
      = (Unhandled exc, [received req; EvMkdir (parent out) (Some exc)]))
  /\ (mkdir env (parent out) = None ->
      truthy (text_of req) = false ->
      handle env req
      = (JSONResponse Err.text_required 400,
         [received req; EvMkdir (parent out) None;
          EvLog (log_line Log.rejected_no_text)]))
  /\ (mkdir env (parent out) = None ->
      truthy (text_of req) = true ->
      truthy (google_key_of req) = false ->
      truthy (openai_key_of req) = false ->
      handle env req
      = (JSONResponse Err.key_required 400,
         [received req; EvMkdir (parent out) None;
          EvLog (log_line Log.rejected_no_key)])).
Proof.
  intros Hout. destruct (handle env req) as [r t] eqn:H.
  apply handle_run in H. cbn [snd].
  destruct H as [exc Ho|out' exc Ho Hm|out' Ho Hm Ht|out' Ho Hm Ht Hg Hk
                |out' exc Ho Hm Ht Hk Hu|out' up o t' Ho Hm Ht Hk Hu Hg].
  1: rewrite Hout in Ho; discriminate Ho.
  all: rewrite Hout in Ho; injection Ho as <-; rewrite Hm.
  all: split; [eexists; reflexivity|].
  all: split;
    [intros exc' Hexc;
     first [ discriminate Hexc | injection Hexc as <-; reflexivity ]|].
  all: split; intros; try discriminate; try contradict_truthy; try reflexivity.
  all: match goal with
       | H1 : truthy ?a = false, H2 : truthy ?b = false,
         H : truthy ?a || truthy ?b = true |- _ =>
           rewrite H1, H2 in H; discriminate H
       end.
Qed.

(* ------------------------------------------------------------------ *)
(** ** The document *)

Lemma filter_none (f : Event -> bool) (l : list Event) :
  Forall (fun e => f e = false) l -> filter f l = [].
Proof.
  induction 1 as [|e l He _ IH]; [reflexivity|].
  cbn [filter]. now rewrite He.
Qed.

(** C9.  When the response is the document, its body is the bytes that the
    renderer returned, the resolved output path gives only the file name of
    the attachment, and the only interaction with the file system during the
    request is the creation of the parent directory of that path: nothing is
    written to it. *)
Theorem document_not_persisted (env : Env) (req : Request)
  (body media disposition : string) :
  fst (handle env req) = StreamingResponse body media disposition ->
  exists out html,
    resolve_output_pdf env (output_path_of req) = inr out
    /\ write_pdf env html = inr body
    /\ In (EvWritePdf html (inr body)) (snd (handle env req))
    /\ media = "application/pdf"
    /\ disposition = "attachment; filename=" ++ dq ++ name out ++ dq
    /\ filter is_fs_event (snd (handle env req)) = [EvMkdir (parent out) None].
Proof.
  intros Hdoc. destruct (handle env req) as [r t] eqn:H. cbn [fst snd] in *.
  apply handle_run in H.
  destruct H as [exc|out exc|out|out|out exc|out up o t' Ho Hm Ht Hk Hu Hg];
    try discriminate Hdoc.
  destruct (gen_run_document Hg Hdoc) as (-> & -> & html & Hw & Hin).
  exists out, html. repeat split; try assumption; try reflexivity.
  - cbn [In]. auto.
  - cbn [filter is_fs_event received]. f_equal. apply filter_none.
    eapply Forall_impl; [|exact (gen_run_events Hg)]. cbv beta. tauto.
Qed.

(* ------------------------------------------------------------------ *)
(** ** Uploads *)

Lemma or_else_empty (s : string) : or_else s "" = s.
Proof. now destruct s. Qed.

Lemma extract_pages_spec (pages : list (exn + string)) (ts texts : list string) :
  all_pages pages = Some ts ->
  extract_pages texts pages = inr (texts ++ filter truthy ts)%list.
Proof.
  revert ts texts. induction pages as [|[exc|page_text] pages IH]; intros ts texts H.
  - injection H as <-. cbn. now rewrite app_nil_r.
  - discriminate H.
  - cbn [all_pages] in H. destruct (all_pages pages) as [ts'|]; [|discriminate H].
    injection H as <-. cbn [extract_pages filter].
    destruct (truthy page_text).
    + rewrite (IH _ _ eq_refl), <- app_assoc. reflexivity.
    + exact (IH _ _ eq_refl).
Qed.

Lemma extract_loop_spec (env : Env) (uploads : list UploadFile)
  (page_texts : list (list string)) :
  Forall2 (fun u pages => pages_of env u = Some pages) uploads page_texts ->
  forall texts,
    extract_loop env texts uploads
    = inr (texts
           ++ concat (map (fun up => fragments_of env (fst up) (snd up))
                        (combine uploads page_texts)))%list.
Proof.
  induction 1 as [|u pages uploads page_texts Hu _ IH]; intros texts.
  - cbn. now rewrite app_nil_r.
  - cbn [extract_loop combine map concat fst snd].
    unfold pages_of, fragments_of, is_plain_text, is_page_document, upload_name in *.
    replace (match filename u with
             | Some f => or_else f ""
             | None => ""
             end)
      with (match filename u with Some f => f | None => "" end)
      by (destruct (filename u); [now rewrite or_else_empty|reflexivity]).
    destruct (truthy (file_bytes u)); cbn [negb andb] in *.
    + destruct (endswith (lower match filename u with Some f => f | None => "" end) ".pdf").
      * destruct (PdfReader env (file_bytes u)) as [exc|pgs]; [discriminate Hu|].
        rewrite (@extract_pages_spec _ _ _ Hu), IH, <- app_assoc. reflexivity.
      * cbn [negb andb].
        destruct (endswith (lower match filename u with Some f => f | None => "" end) ".txt").
        -- rewrite IH, <- app_assoc. reflexivity.
        -- rewrite IH. reflexivity.
    + rewrite IH. reflexivity.
Qed.

(** C8.  When the page documents among the uploads are read without error,
    the extractor returns the concatenation, in upload order, of what each
    upload contributes: nothing for an empty body, the non-empty page texts in
    page order for a page document, the decoded body for a text file, and
    nothing, without any error, for any other extension. *)
Theorem uploads_fragments_in_order (env : Env) (uploads : list UploadFile)
  (page_texts : list (list string)) :
  Forall2 (fun u pages => pages_of env u = Some pages) uploads page_texts ->
  _extract_text_from_uploads env uploads
  = inr (concat (map (fun up => fragments_of env (fst up) (snd up))
                   (combine uploads page_texts))).
Proof.
  intros H. unfold _extract_text_from_uploads.
  now rewrite (@extract_loop_spec env uploads page_texts H).
Qed.

Lemma uploads_fragments_in_order_witness :
  Forall2 (fun u pages => pages_of Demo.env u = Some pages)
    [Demo.empty_file; Demo.good_pdf; Demo.word_file; Demo.text_file]
    [[]; [""; "two"; ""; ""; "five"; ""]; []; []]
  /\ _extract_text_from_uploads Demo.env
       [Demo.empty_file; Demo.good_pdf; Demo.word_file; Demo.text_file]
     = inr ["two"; "five"; "plain notes"].
Proof.
  assert (H : Forall2 (fun u pages => pages_of Demo.env u = Some pages)
                [Demo.empty_file; Demo.good_pdf; Demo.word_file; Demo.text_file]
                [[]; [""; "two"; ""; ""; "five"; ""]; []; []])
    by (repeat constructor).
  split; [exact H|].
  exact (@uploads_fragments_in_order _ _ _ H).
Defined.

(* ------------------------------------------------------------------ *)
(** ** Examples *)

(** An exception raised while the uploads are read is caught nowhere. *)
Lemma upload_exception_unhandled (env : Env) (req : Request) (out : Path)
  (exc : exn) :
  resolve_output_pdf env (output_path_of req) = inr out ->
  mkdir env (parent out) = None ->
  truthy (text_of req) = true ->
  truthy (google_key_of req) || truthy (openai_key_of req) = true ->
  uploads_of env req = inl exc ->
  handle env req = (Unhandled exc, [received req; EvMkdir (parent out) None]).
Proof.
  intros Hout Hmk Htext Hkeys Hup.
  destruct (handle env req) as [r t] eqn:H. apply handle_run in H.
  destruct H as [exc' Ho|out' exc' Ho Hm|out' Ho Hm Ht|out' Ho Hm Ht Hg Hk
                |out' exc' Ho Hm Ht Hk Hu|out' up o t' Ho Hm Ht Hk Hu Hg].
  1: rewrite Hout in Ho; discriminate Ho.
  all: rewrite Hout in Ho; injection Ho as <-.
  - rewrite Hmk in Hm. discriminate Hm.
  - contradict_truthy.
  - rewrite Hg, Hk in Hkeys. discriminate Hkeys.
  - rewrite Hup in Hu. injection Hu as <-. reflexivity.
  - rewrite Hup in Hu. discriminate Hu.
Qed.

(** The example of the specification: a page document with text on its
    second and fifth pages only gives those two fragments, in that order. *)
Example pages_two_and_five :
  _extract_text_from_uploads Demo.env [Demo.good_pdf] = inr ["two"; "five"].
Proof. reflexivity. Qed.

(** C2.  An upload that the page-document reader rejects: the exception is
    caught nowhere and leaves the handler, after the directory was made and
    before any provider is reached. *)
Theorem unreadable_upload_escapes :
  handle Demo.env (Demo.req_uploads [Demo.broken_pdf])
  = (Unhandled "EOF marker not found",
     [received (Demo.req_uploads [Demo.broken_pdf]);
      EvMkdir (of_string "/srv/app") None]).
Proof. vm_compute. reflexivity. Qed.

(** C3 as stated fails: neither the analysis prompt nor the edit prompt of
    the end-to-end scenario contains the persona label. *)
Lemma persona_missing_from_prompts :
  persona_of Demo.req_google = "formal"
  /\ (exists ev p,
         In ev (snd (handle Demo.env Demo.req_google))
         /\ prompt_of ev = Some (Analysis, p)
         /\ ~ Substring "formal" p)
  /\ (exists ev p,
         In ev (snd (handle Demo.env Demo.req_google))
         /\ prompt_of ev = Some (Edit, p)
         /\ ~ Substring "formal" p).
Proof.
  split; [reflexivity|].
  assert (N : forall p, contains "formal" p = false -> ~ Substring "formal" p).
  { intros p Hc Hs. apply contains_Substring in Hs. rewrite Hs in Hc. discriminate Hc. }
  split.
  - exists (EvGenerateContent Analysis "gemini-2.5-pro"
              (analysis_prompt "Company history and mission statement" "Nenhuma")
              GEMINI_TIMEOUT (inr (Demo.say "## Resumo"))).
    eexists. split; [|split; [reflexivity|]].
    + apply nth_error_In with (n := 8). vm_compute. reflexivity.
    + apply N. vm_compute. reflexivity.
  - exists (EvGenerateContent Edit "gemini-2.5-pro" (edit_prompt_of "# Rascunho")
              GEMINI_TIMEOUT (inr (Demo.say "# Ebook"))).
    eexists. split; [|split; [reflexivity|]].
    + apply nth_error_In with (n := 12). vm_compute. reflexivity.
    + apply N. vm_compute. reflexivity.
Qed.

Lemma persona_in_draft_prompt_witness :
  exists ev p,
    In ev (snd (handle Demo.env Demo.req_google))
    /\ prompt_of ev = Some (Draft, p)
    /\ Substring (persona_of Demo.req_google) p.
Proof.
  exists (EvGenerateContent Draft "gemini-2.5-pro"
            (draft_prompt "formal" "## Resumo"
               "Company history and mission statement" "Nenhuma")
            GEMINI_TIMEOUT (inr (Demo.say "# Rascunho"))).
  eexists.
  assert (Hin : In (EvGenerateContent Draft "gemini-2.5-pro"
            (draft_prompt "formal" "## Resumo"
               "Company history and mission statement" "Nenhuma")
            GEMINI_TIMEOUT (inr (Demo.say "# Rascunho")))
                  (snd (handle Demo.env Demo.req_google))).
  { apply nth_error_In with (n := 10). vm_compute. reflexivity. }
  split; [exact Hin|]. split; [reflexivity|].
  exact (@persona_in_draft_prompt Demo.env Demo.req_google _ Draft _ Hin eq_refl).
Defined.

Lemma provider_precedence_witness :
  truthy (text_of Demo.req_both_keys) = true
  /\ truthy (google_key_of Demo.req_both_keys)
     || truthy (openai_key_of Demo.req_both_keys) = true
  /\ truthy (openai_key_of Demo.req_both_keys) = true
  /\ selected_provider (google_key_of Demo.req_both_keys)
       (openai_key_of Demo.req_both_keys) = Some gemini
  /\ Forall (fun e => provider_of e = None \/ provider_of e = Some gemini)
       (snd (handle Demo.env Demo.req_both_keys)).
Proof.
  split; [reflexivity|]. split; [reflexivity|]. split; [reflexivity|].
  pose proof (@provider_precedence Demo.env Demo.req_both_keys eq_refl eq_refl)
    as (Hsel & Hall & _).
  split; [exact Hsel|exact Hall].
Defined.

Lemma blank_draft_halts_witness :
  exists ev,
    In ev (snd (handle Demo.env_blank_draft Demo.req_openai))
    /\ blank_reply ev = Some (openai, Draft)
    /\ fst (handle Demo.env_blank_draft Demo.req_openai)
       = JSONResponse Err.openai_no_draft 500
    /\ Forall (fun e => stage_of_call e <> Some Edit /\ is_render_event e = false)
         (snd (handle Demo.env_blank_draft Demo.req_openai)).
Proof.
  exists (nth 6 (snd (handle Demo.env_blank_draft Demo.req_openai)) (EvLog "")).
  assert (Hin : In (nth 6 (snd (handle Demo.env_blank_draft Demo.req_openai))
                      (EvLog ""))
                  (snd (handle Demo.env_blank_draft Demo.req_openai))).
  { apply nth_In. vm_compute. lia. }
  assert (Hb : blank_reply (nth 6 (snd (handle Demo.env_blank_draft Demo.req_openai))
                              (EvLog "")) = Some (openai, Draft)).
  { vm_compute. reflexivity. }
  split; [exact Hin|]. split; [exact Hb|].
  exact (@blank_draft_halts Demo.env_blank_draft Demo.req_openai _ openai Hin Hb).
Defined.

Lemma empty_text_rejected_witness :
  truthy (text_of (Demo.req_no_text "out.pdf")) = false
  /\ Forall (fun e => provider_of e = None)
       (snd (handle Demo.env (Demo.req_no_text "out.pdf")))
  /\ fst (handle Demo.env (Demo.req_no_text "out.pdf"))
     = JSONResponse Err.text_required 400.
Proof.
  split; [reflexivity|].
  destruct (@empty_text_rejected Demo.env (Demo.req_no_text "out.pdf") eq_refl)
    as [Hquiet Hresp].
  split; [exact Hquiet|].
  rewrite (Hresp (of_string "/srv/app/out.pdf")); reflexivity.
Defined.

(** C7 as stated fails: with an output path below a file, making the parent
    directory raises, and the request without text gets no 400 response. *)
Lemma empty_text_unhandled_when_mkdir_fails :
  truthy (text_of (Demo.req_no_text "/dev/null/x.pdf")) = false
  /\ handle Demo.env (Demo.req_no_text "/dev/null/x.pdf")
     = (Unhandled "[Errno 17] File exists: '/dev/null'",
        [received (Demo.req_no_text "/dev/null/x.pdf");
         EvMkdir (of_string "/dev/null")
           (Some "[Errno 17] File exists: '/dev/null'")]).
Proof. split; [reflexivity|]. vm_compute. reflexivity. Qed.

Lemma mkdir_precedes_validation_witness :
  resolve_output_pdf Demo.env (output_path_of (Demo.req_no_text "../x.pdf"))
  = inr (of_string "/srv/x.pdf")
  /\ handle Demo.env (Demo.req_no_text "../x.pdf")
     = (JSONResponse Err.text_required 400,
        [received (Demo.req_no_text "../x.pdf"); EvMkdir (of_string "/srv") None;
         EvLog (log_line Log.rejected_no_text)]).
Proof.
  assert (R : resolve_output_pdf Demo.env
                (output_path_of (Demo.req_no_text "../x.pdf"))
              = inr (of_string "/srv/x.pdf")) by (vm_compute; reflexivity).
  split; [exact R|].
  destruct (@mkdir_precedes_validation Demo.env (Demo.req_no_text "../x.pdf") _ R)
    as (_ & _ & H & _).
  exact (H eq_refl eq_refl).
Defined.

(** C10 as stated fails: the home directory of an unknown user cannot be
    expanded, the handler raises at once and makes no directory. *)
Lemma no_mkdir_when_home_unknown :
  handle Demo.env (Demo.req_out "~ghost/x.pdf")
  = (Unhandled "Could not determine home directory.",
     [received (Demo.req_out "~ghost/x.pdf")])
  /\ existsb is_fs_event (snd (handle Demo.env (Demo.req_out "~ghost/x.pdf")))
     = false.
Proof. split; vm_compute; reflexivity. Qed.

Lemma document_not_persisted_witness :
  fst (handle Demo.env Demo.req_google)
  = StreamingResponse "%PDF-1.7 <h1># Ebook</h1>" "application/pdf"
      ("attachment; filename=" ++ dq ++ "ebook_gerado.pdf" ++ dq)
  /\ filter is_fs_event (snd (handle Demo.env Demo.req_google))
     = [EvMkdir (of_string "/srv/app") None].
Proof.
  assert (D : fst (handle Demo.env Demo.req_google)
              = StreamingResponse "%PDF-1.7 <h1># Ebook</h1>" "application/pdf"
                  ("attachment; filename=" ++ dq ++ "ebook_gerado.pdf" ++ dq))
    by (vm_compute; reflexivity).
  split; [exact D|].
  destruct (@document_not_persisted Demo.env Demo.req_google _ _ _ D)
    as (out & html & Ho & _ & _ & _ & _ & Hfs).
  rewrite Hfs. vm_compute in Ho. injection Ho as <-. reflexivity.
Defined.

(* ------------------------------------------------------------------ *)
(** * Further properties of the handler *)

(** ** The phases, in detail *)

Section PhaseDetails.

Variable env : Env.

Ltac settings_ok :=
  cbv [settings_as_coded call_settings]; first [ exact I | repeat split; reflexivity ].

Ltac plan_prefix :=
  cbv [stages_called flat_map stage_of_call app stage_plan];
  eexists; reflexivity.

Ltac fed_ok :=
  cbv [fed_by prompt_of]; first [ exact I | reflexivity ].

Ltac later_stages_absent :=
  forall_events ltac:(cbn [stage_of_call stage_index]; intros ? [=]; subst;
                      cbn [stage_index]; lia).

(** An error text that starts otherwise than the text of the internal
    error. *)
Ltac other_error :=
  let Hbad := fresh "Hbad" in
  intros Hbad; injection Hbad as Hbad; cbv in Hbad; discriminate Hbad.

Ltac use_reply :=
  repeat match goal with
         | H : first_choice_text ?x = _ |- context [first_choice_text ?x] => rewrite H
         | H : _response_text ?x = _ |- context [_response_text ?x] => rewrite H
         end.

Ltac chat_ok :=
  cbv [chat_messages_as_coded];
  first [ exact I | reflexivity | eexists; reflexivity ].

Lemma gemini_pipeline_details cm em pers txt ref o t :
  gemini_pipeline env cm em pers txt ref = (o, t) ->
  (forall m3, Forall (settings_as_coded gemini cm em m3) t)
  /\ (exists rest, stage_plan gemini = (stages_called t ++ rest)%list)
  /\ Forall (fun e => init_failure e = None) t
  /\ (forall r, o = Stop r ->
        r <> JSONResponse Err.no_model 500 /\ exists msg, r = JSONResponse msg 500)
  /\ (forall fm, o = Go fm ->
        truthy fm = true
        /\ exists ev, In ev t /\ reply_text ev = Some (Edit, fm))
  /\ (forall ev st reply, In ev t -> reply_text ev = Some (st, reply) ->
        Forall (fed_by pers txt ref st reply) t)
  /\ (forall ev mt st exc, In ev t -> failed_call ev = Some (mt, st, exc) ->
        o = Stop (JSONResponse (stage_failure_error mt st exc) 500)
        /\ Forall (fun ev' => forall st', stage_of_call ev' = Some st' ->
                                          stage_index st' <= stage_index st) t).
Proof.
  unfold gemini_pipeline. phase_cases.
  all: intros Heq; pair_eq Heq.
  all: split; [intros; forall_events settings_ok|].
  all: split; [plan_prefix|].
  all: split; [forall_events ltac:(reflexivity)|].
  all: split;
    [intros resp Hstop;
     first [ discriminate Hstop
           | injection Hstop as <-; split; [other_error|eexists; reflexivity] ]|].
  all: split;
    [intros fmd Hgo;
     first [ discriminate Hgo
           | injection Hgo as <-; split;
             [assumption
             |eexists; split;
              [cbn [In]; auto 20|cbn [reply_text]; use_reply; reflexivity]] ]|].
  all: split;
    [intros ev st reply Hin Hr;
     each_event Hin ltac:(cbn [reply_text] in Hr; use_truthy Hr);
     try none_some Hr;
     injection Hr as Hst Hrep; subst st reply; forall_events fed_ok|].
  all: intros ev mt st exc Hin Hf.
  all: each_event Hin ltac:(cbn [failed_call] in Hf; use_truthy Hf).
  all: try none_some Hf.
  all: injection Hf as <- <- <-; split; [reflexivity|later_stages_absent].
Qed.

Lemma openai_pipeline_details model pers txt ref o t :
  openai_pipeline env model pers txt ref = (o, t) ->
  (forall m1 m2, Forall (settings_as_coded openai m1 m2 model) t)
  /\ (exists rest, stage_plan openai = (stages_called t ++ rest)%list)
  /\ Forall (fun e => init_failure e = None) t
  /\ Forall (chat_messages_as_coded pers txt ref) t
  /\ (forall r, o = Stop r ->
        r <> JSONResponse Err.no_model 500 /\ exists msg, r = JSONResponse msg 500)
  /\ (forall fm, o = Go fm ->
        truthy fm = true
        /\ exists ev, In ev t /\ reply_text ev = Some (Edit, fm))
  /\ (forall ev st reply, In ev t -> reply_text ev = Some (st, reply) ->
        Forall (fed_by pers txt ref st reply) t)
  /\ (forall ev mt st exc, In ev t -> failed_call ev = Some (mt, st, exc) ->
        o = Stop (JSONResponse (stage_failure_error mt st exc) 500)
        /\ Forall (fun ev' => forall st', stage_of_call ev' = Some st' ->
                                          stage_index st' <= stage_index st) t).
Proof.
  unfold openai_pipeline. phase_cases.
  all: intros Heq; pair_eq Heq.
  all: split; [intros; forall_events settings_ok|].
  all: split; [plan_prefix|].
  all: split; [forall_events ltac:(reflexivity)|].
  all: split; [forall_events chat_ok|].
  all: split;
    [intros resp Hstop;
     first [ discriminate Hstop
           | injection Hstop as <-; split; [other_error|eexists; reflexivity] ]|].
  all: split;
    [intros fmd Hgo;
     first [ discriminate Hgo
           | injection Hgo as <-; split;
             [assumption
             |eexists; split;
              [cbn [In]; auto 20|cbn [reply_text]; use_reply; reflexivity]] ]|].
  all: split;
    [intros ev st reply Hin Hr;
     each_event Hin ltac:(cbn [reply_text] in Hr; use_truthy Hr);
     try none_some Hr;
     injection Hr as Hst Hrep; subst st reply; forall_events fed_ok|].
  all: intros ev mt st exc Hin Hf.
  all: each_event Hin ltac:(cbn [failed_call] in Hf; use_truthy Hf).
  all: try none_some Hf.
  all: injection Hf as <- <- <-; split; [reflexivity|later_stages_absent].
Qed.

Lemma pipeline_of_details mt m1 m2 m3 pers txt ref o t :
  pipeline_of env mt m1 m2 m3 pers txt ref = (o, t) ->
  Forall (settings_as_coded mt m1 m2 m3) t
  /\ (exists rest, stage_plan mt = (stages_called t ++ rest)%list)
  /\ Forall (fun e => init_failure e = None) t
  /\ Forall (chat_messages_as_coded pers txt ref) t
  /\ (forall r, o = Stop r ->
        r <> JSONResponse Err.no_model 500 /\ exists msg, r = JSONResponse msg 500)
  /\ (forall fm, o = Go fm ->
        truthy fm = true
        /\ exists ev, In ev t /\ reply_text ev = Some (Edit, fm))
  /\ (forall ev st reply, In ev t -> reply_text ev = Some (st, reply) ->
        Forall (fed_by pers txt ref st reply) t)
  /\ (forall ev mt' st exc, In ev t -> failed_call ev = Some (mt', st, exc) ->
        o = Stop (JSONResponse (stage_failure_error mt' st exc) 500)
        /\ Forall (fun ev' => forall st', stage_of_call ev' = Some st' ->
                                          stage_index st' <= stage_index st) t).
Proof.
  destruct mt; cbn [pipeline_of]; intros H.
  - destruct (gemini_pipeline_details _ _ _ _ _ H) as (S & P & N & R).
    split; [apply S|]. split; [exact P|]. split; [exact N|]. split; [|exact R].
    pose proof (gemini_pipeline_events _ _ _ _ _ _ H) as E.
    eapply Forall_impl; [|exact E]. intros e (_ & _ & Hp).
    destruct e; try exact I; cbn in Hp; destruct Hp as [Hp|Hp]; discriminate Hp.
  - destruct (openai_pipeline_details _ _ _ _ H) as (S & P & N & C & R).
    split; [apply S|]. split; [exact P|]. split; [exact N|].
    split; [exact C|exact R].
Qed.

(** *** Initialisation and rendering, in detail *)

Lemma init_model_details gk ok m1 m2 m3 o t :
  init_model env gk ok m1 m2 m3 = (o, t) ->
  (forall r, o = Stop r -> exists msg, r = JSONResponse msg 400)
  /\ (forall ev mt exc, In ev t -> init_failure ev = Some (mt, exc) ->
        o = Stop (JSONResponse (init_failure_error mt m1 m2 exc) 400))
  /\ (o = Go None -> truthy gk = false /\ truthy ok = false).
Proof.
  unfold init_model. phase_cases.
  all: intros Heq; pair_eq Heq.
  all: split;
    [intros resp Hstop;
     first [ discriminate Hstop | injection Hstop as <-; eexists; reflexivity ]|].
  all: split; [|intros Hnone; first [ discriminate Hnone | now split ]].
  all: intros ev mt exc Hin Hf.
  all: each_event Hin ltac:(cbn [init_failure] in Hf).
  all: try none_some Hf.
  all: injection Hf as <- <-; reflexivity.
Qed.

Lemma render_pdf_details final_markdown output_pdf o t :
  render_pdf env final_markdown output_pdf = (o, t) ->
  (forall r, o = Stop r ->
      r <> JSONResponse Err.no_model 500
      /\ ((exists exc, r = Unhandled exc)
          \/ exists msg, r = JSONResponse msg 500))
  /\ (forall ev r, In ev t -> render_failure ev = Some r -> o = Stop r).
Proof.
  unfold render_pdf. phase_cases.
  all: intros Heq; pair_eq Heq.
  all: split;
    [intros resp Hstop;
     first [ discriminate Hstop
           | injection Hstop as <-; split;
             [first [ other_error | discriminate ]
             |first [ left; eexists; reflexivity | right; eexists; reflexivity ]] ]|].
  all: intros ev resp Hin Hf.
  all: each_event Hin ltac:(cbn [render_failure] in Hf).
  all: try none_some Hf.
  all: injection Hf as <-; reflexivity.
Qed.

End PhaseDetails.

(** ** Generation runs, in detail *)

(** An interaction that is no generation call has no settings, no reply and
    no failure of a call. *)
Lemma no_call_details (e : Event) :
  stage_of_call e = None ->
  call_settings e = None /\ failed_call e = None /\ reply_text e = None
  /\ prompt_of e = None
  /\ forall pers txt ref, chat_messages_as_coded pers txt ref e.
Proof. destruct e; cbn; intros [=]; repeat split; auto. Qed.

Lemma stages_called_app (l1 l2 : list Event) :
  stages_called (l1 ++ l2) = (stages_called l1 ++ stages_called l2)%list.
Proof. apply flat_map_app. Qed.

Lemma stages_called_quiet (l : list Event) :
  Forall (fun e => stage_of_call e = None) l -> stages_called l = [].
Proof.
  induction 1 as [|e l He _ IH]; [reflexivity|].
  unfold stages_called in *. cbn [flat_map]. now rewrite He, IH.
Qed.

Lemma Forall_quiet (P : Event -> Prop) (l : list Event) :
  (forall e, stage_of_call e = None -> P e) ->
  Forall (fun e => stage_of_call e = None) l -> Forall P l.
Proof. intros H. apply Forall_impl. exact H. Qed.

Section GenerationDetails.

Variables (env : Env) (gk ok m1 m2 m3 pers txt ref : string) (out : Path).
Variables (o : outcome Response) (t : list Event).
Hypothesis Hrun : gen_run env gk ok m1 m2 m3 pers txt ref out o t.

(** The parts of a run, with what is known of each. *)
Ltac run_parts :=
  destruct Hrun as [r t1 Hi|t1 Hi|mt0 t1 r t2 Hi Hp|mt0 t1 fm t2 o3 t3 Hi Hp Hr];
  pose proof (init_model_events _ _ _ _ _ _ Hi) as E1;
  pose proof (init_model_result _ _ _ _ _ _ Hi) as (Hsel & _);
  assert (Q1 : Forall (fun e => stage_of_call e = None) t1)
    by (eapply Forall_impl; [|exact E1]; cbv beta; tauto);
  try (pose proof (render_pdf_events _ _ _ Hr) as E3;
       assert (Q3 : Forall (fun e => stage_of_call e = None) t3)
         by (eapply Forall_impl; [|exact E3]; cbv beta; tauto)).

Lemma gen_run_settings mt :
  selected_provider gk ok = Some mt ->
  Forall (settings_as_coded mt m1 m2 m3) t.
Proof.
  intros Hmt.
  assert (Q : forall l, Forall (fun e => stage_of_call e = None) l ->
                        Forall (settings_as_coded mt m1 m2 m3) l).
  { intros l. apply Forall_impl. intros e He. unfold settings_as_coded.
    now rewrite (proj1 (no_call_details e He)). }
  run_parts.
  all: repeat apply Forall_app_intro; auto.
  - rewrite <- (Hsel _ eq_refl) in Hmt. injection Hmt as <-.
    now apply pipeline_of_details in Hp.
  - rewrite <- (Hsel _ eq_refl) in Hmt. injection Hmt as <-.
    now apply pipeline_of_details in Hp.
Qed.

Lemma gen_run_plan mt :
  selected_provider gk ok = Some mt ->
  exists rest, stage_plan mt = (stages_called t ++ rest)%list.
Proof.
  intros Hmt. run_parts.
  - rewrite (stages_called_quiet Q1). now eexists.
  - rewrite stages_called_app, (stages_called_quiet Q1). now eexists.
  - rewrite <- (Hsel _ eq_refl) in Hmt. injection Hmt as <-.
    rewrite stages_called_app, (stages_called_quiet Q1).
    now apply pipeline_of_details in Hp.
  - rewrite <- (Hsel _ eq_refl) in Hmt. injection Hmt as <-.
    rewrite !stages_called_app, (stages_called_quiet Q1), (stages_called_quiet Q3).
    rewrite app_nil_r. now apply pipeline_of_details in Hp.
Qed.

(** A failed call ends the request with the error of its stage. *)
Lemma gen_run_failed_call ev mt st exc :
  In ev t -> failed_call ev = Some (mt, st, exc) ->
  o = Stop (JSONResponse (stage_failure_error mt st exc) 500)
  /\ Forall (fun e => is_render_event e = false
                      /\ forall st', stage_of_call e = Some st' ->
                                     stage_index st' <= stage_index st) t.
Proof.
  intros Hin Hf.
  assert (N : forall l, Forall (fun e => stage_of_call e = None) l ->
                        In ev l -> False).
  { intros l Hl Hl'. rewrite Forall_forall in Hl.
    destruct (no_call_details ev (Hl ev Hl')) as (_ & F & _).
    rewrite F in Hf. discriminate Hf. }
  assert (Q : forall l, Forall (fun e => is_render_event e = false
                                         /\ stage_of_call e = None) l ->
              Forall (fun e => is_render_event e = false
                      /\ forall st', stage_of_call e = Some st' ->
                                     stage_index st' <= stage_index st) l).
  { intros l. apply Forall_impl. intros e [Hr Hs]. split; [exact Hr|].
    intros st' H. rewrite Hs in H. discriminate H. }
  run_parts.
  all: assert (R1 : Forall (fun e => is_render_event e = false
                                      /\ stage_of_call e = None) t1)
    by (eapply Forall_impl; [|exact E1]; cbv beta; tauto).
  - destruct (N _ Q1 Hin).
  - apply in_app_or in Hin as [Hin|Hin]; [destruct (N _ Q1 Hin)|].
    cbn [In] in Hin. destruct Hin as [<-|[]]. discriminate Hf.
  - apply in_app_or in Hin as [Hin|Hin]; [destruct (N _ Q1 Hin)|].
    pose proof Hp as Hp'. apply pipeline_of_summary in Hp' as (E2 & _).
    apply pipeline_of_details in Hp as (_ & _ & _ & _ & _ & _ & _ & F2).
    destruct (F2 _ _ _ _ Hin Hf) as [H S2]. injection H as ->.
    split; [reflexivity|].
    apply Forall_app_intro; [now apply Q|].
    rewrite Forall_forall in *. intros e He. split.
    + apply (E2 e He).
    + apply (S2 e He).
  - apply in_app_or in Hin as [Hin|Hin]; [destruct (N _ Q1 Hin)|].
    apply in_app_or in Hin as [Hin|Hin]; [|destruct (N _ Q3 Hin)].
    apply pipeline_of_details in Hp as (_ & _ & _ & _ & _ & _ & _ & F2).
    destruct (F2 _ _ _ _ Hin Hf) as [H _]. discriminate H.
Qed.

(** A failed initialisation ends the request with a 400 error, before any
    generation call. *)
Lemma gen_run_init_failure ev mt exc :
  In ev t -> init_failure ev = Some (mt, exc) ->
  o = Stop (JSONResponse (init_failure_error mt m1 m2 exc) 400)
  /\ stages_called t = []
  /\ Forall (fun e => is_render_event e = false) t.
Proof.
  intros Hin Hf.
  assert (N : forall l, Forall (fun e => init_failure e = None) l ->
                        In ev l -> False).
  { intros l Hl Hl'. rewrite Forall_forall in Hl.
    rewrite (Hl ev Hl') in Hf. discriminate Hf. }
  assert (N3 : forall l, Forall (fun e => is_fs_event e = false
                                          /\ stage_of_call e = None
                                          /\ provider_of e = None) l ->
                         Forall (fun e => init_failure e = None) l).
  { intros l. apply Forall_impl. intros e (_ & _ & Hp).
    destruct e; first [reflexivity | discriminate Hp]. }
  run_parts.
  all: pose proof Hi as Hi'; apply init_model_details in Hi' as (_ & D & _).
  - pose proof (D _ _ _ Hin Hf) as H. injection H as ->.
    split; [reflexivity|]. split; [now apply stages_called_quiet|].
    eapply Forall_impl; [|exact E1]. cbv beta. tauto.
  - apply in_app_or in Hin as [Hin|Hin].
    + discriminate (D _ _ _ Hin Hf).
    + cbn [In] in Hin. destruct Hin as [<-|[]]. discriminate Hf.
  - apply in_app_or in Hin as [Hin|Hin].
    + discriminate (D _ _ _ Hin Hf).
    + apply pipeline_of_details in Hp as (_ & _ & N2 & _).
      destruct (N _ N2 Hin).
  - apply in_app_or in Hin as [Hin|Hin].
    + discriminate (D _ _ _ Hin Hf).
    + apply in_app_or in Hin as [Hin|Hin].
      * apply pipeline_of_details in Hp as (_ & _ & N2 & _).
        destruct (N _ N2 Hin).
      * destruct (N _ (N3 _ E3) Hin).
Qed.

(** A failure of the converter or of the renderer decides the response. *)
Lemma gen_run_render_failure ev resp :
  In ev t -> render_failure ev = Some resp -> o = Stop resp.
Proof.
  intros Hin Hf.
  assert (N : forall l, Forall (fun e => is_render_event e = false) l ->
                        In ev l -> False).
  { intros l Hl Hl'. rewrite Forall_forall in Hl. specialize (Hl ev Hl').
    destruct ev; first [discriminate Hl | discriminate Hf]. }
  run_parts.
  all: assert (R1 : Forall (fun e => is_render_event e = false) t1)
    by (eapply Forall_impl; [|exact E1]; cbv beta; tauto).
  - destruct (N _ R1 Hin).
  - apply in_app_or in Hin as [Hin|Hin]; [destruct (N _ R1 Hin)|].
    cbn [In] in Hin. destruct Hin as [<-|[]]. discriminate Hf.
  - apply in_app_or in Hin as [Hin|Hin]; [destruct (N _ R1 Hin)|].
    apply pipeline_of_summary in Hp as (E2 & _).
    exfalso. apply (N t2); [|exact Hin].
    eapply Forall_impl; [|exact E2]. unfold pipeline_event. tauto.
  - apply in_app_or in Hin as [Hin|Hin]; [destruct (N _ R1 Hin)|].
    apply in_app_or in Hin as [Hin|Hin].
    + apply pipeline_of_summary in Hp as (E2 & _).
      exfalso. apply (N t2); [|exact Hin].
      eapply Forall_impl; [|exact E2]. unfold pipeline_event. tauto.
    + apply render_pdf_details in Hr as (_ & F). exact (F _ _ Hin Hf).
Qed.

(** The reply of a stage is what the prompt of the next stage is built
    from. *)
Lemma gen_run_fed ev st reply :
  In ev t -> reply_text ev = Some (st, reply) ->
  Forall (fed_by pers txt ref st reply) t.
Proof.
  intros Hin Hrep.
  assert (N : forall l, Forall (fun e => stage_of_call e = None) l ->
                        In ev l -> False).
  { intros l Hl Hl'. rewrite Forall_forall in Hl.
    destruct (no_call_details ev (Hl ev Hl')) as (_ & _ & F & _).
    rewrite F in Hrep. discriminate Hrep. }
  assert (Q : forall l, Forall (fun e => stage_of_call e = None) l ->
                        Forall (fed_by pers txt ref st reply) l).
  { intros l. apply Forall_impl. intros e He. unfold fed_by.
    destruct (no_call_details e He) as (_ & _ & _ & -> & _). exact I. }
  run_parts.
  - destruct (N _ Q1 Hin).
  - apply in_app_or in Hin as [Hin|Hin]; [destruct (N _ Q1 Hin)|].
    cbn [In] in Hin. destruct Hin as [<-|[]]. discriminate Hrep.
  - apply in_app_or in Hin as [Hin|Hin]; [destruct (N _ Q1 Hin)|].
    apply Forall_app_intro; [now apply Q|].
    apply pipeline_of_details in Hp as (_ & _ & _ & _ & _ & _ & F2 & _).
    exact (F2 _ _ _ Hin Hrep).
  - apply in_app_or in Hin as [Hin|Hin]; [destruct (N _ Q1 Hin)|].
    apply in_app_or in Hin as [Hin|Hin]; [|destruct (N _ Q3 Hin)].
    repeat apply Forall_app_intro; [now apply Q| |now apply Q].
    apply pipeline_of_details in Hp as (_ & _ & _ & _ & _ & _ & F2 & _).
    exact (F2 _ _ _ Hin Hrep).
Qed.

(** The messages of every chat completion. *)
Lemma gen_run_chat : Forall (chat_messages_as_coded pers txt ref) t.
Proof.
  assert (Q : forall l, Forall (fun e => stage_of_call e = None) l ->
                        Forall (chat_messages_as_coded pers txt ref) l).
  { intros l. apply Forall_impl. intros e He.
    now apply no_call_details. }
  run_parts.
  all: repeat apply Forall_app_intro; auto.
  all: try (repeat constructor; fail).
  all: now apply pipeline_of_details in Hp.
Qed.

(** The document is the rendering of the reply of the edit stage. *)
Lemma gen_run_final body media disposition :
  response_of o = StreamingResponse body media disposition ->
  exists ev final_markdown html,
    In ev t /\ reply_text ev = Some (Edit, final_markdown)
    /\ truthy final_markdown = true
    /\ markdown env final_markdown = inr html
    /\ write_pdf env html = inr body.
Proof.
  intros Hresp. run_parts.
  - apply init_model_result in Hi as (_ & J & _).
    specialize (J _ eq_refl). cbn [response_of] in Hresp. rewrite Hresp in J.
    discriminate J.
  - discriminate Hresp.
  - apply pipeline_of_summary in Hp as (_ & _ & J & _).
    specialize (J _ eq_refl). cbn [response_of] in Hresp. rewrite Hresp in J.
    discriminate J.
  - apply render_pdf_document in Hr as [Hstop Hgo].
    destruct o3 as [r|r]; cbn [response_of] in Hresp; subst r.
    + destruct (Hgo _ eq_refl) as (html & body' & Hm & Hw & Heq & _).
      injection Heq as -> _ _.
      apply pipeline_of_details in Hp as (_ & _ & _ & _ & _ & G & _).
      destruct (G _ eq_refl) as (Ht & ev & Hin & Hrep).
      exists ev, fm, html. repeat split; try assumption.
      apply in_or_app. right. apply in_or_app. now left.
    + destruct (Hstop _ _ _ eq_refl).
Qed.

(** An error response carries the status 400 only when no generation call
    was made; otherwise the status is 500.  The response of the internal
    error is never given when a provider is selected. *)
Lemma gen_run_status msg code :
  response_of o = JSONResponse msg code ->
  (code = 400 /\ stages_called t = []) \/ code = 500.
Proof.
  intros Hresp. run_parts; cbn [response_of] in Hresp.
  - apply init_model_details in Hi as (J & _).
    destruct (J _ eq_refl) as [msg' ->]. injection Hresp as _ <-.
    left. split; [reflexivity|now apply stages_called_quiet].
  - injection Hresp as _ <-. now right.
  - apply pipeline_of_details in Hp as (_ & _ & _ & _ & J & _).
    destruct (J _ eq_refl) as (_ & msg' & ->). injection Hresp as _ <-. now right.
  - destruct o3 as [r|r]; cbn [response_of] in Hresp; subst r.
    + apply render_pdf_document in Hr as [_ Hgo].
      destruct (Hgo _ eq_refl) as (? & ? & _ & _ & H & _). discriminate H.
    + apply render_pdf_details in Hr as (J & _).
      destruct (J _ eq_refl) as (_ & [[exc H]|[msg' H]]); [discriminate H|].
      injection H as _ ->. now right.
Qed.

Lemma gen_run_no_internal_error :
  truthy gk || truthy ok = true ->
  response_of o <> JSONResponse Err.no_model 500.
Proof.
  intros Hkeys. run_parts; cbn [response_of].
  - apply init_model_details in Hi as (J & _).
    destruct (J _ eq_refl) as [msg' ->]. intros H. discriminate H.
  - apply init_model_details in Hi as (_ & _ & J).
    destruct (J eq_refl) as [Hg Ho]. rewrite Hg, Ho in Hkeys. discriminate Hkeys.
  - apply pipeline_of_details in Hp as (_ & _ & _ & _ & J & _).
    apply (J _ eq_refl).
  - destruct o3 as [r|r]; cbn [response_of].
    + apply render_pdf_document in Hr as [_ Hgo].
      destruct (Hgo _ eq_refl) as (? & ? & _ & _ & -> & _). discriminate.
    + apply render_pdf_details in Hr as (J & _). apply (J _ eq_refl).
Qed.

End GenerationDetails.

(** ** The causes of a stop, phase by phase *)

Section PhaseCauses.

Variable env : Env.

Ltac answered_ok :=
  cbv [as_answered]; first [ exact I | reflexivity | symmetry; assumption ].

Ltac rewrite_replies :=
  repeat match goal with
         | H : truthy ?x = _ |- context [truthy ?x] => rewrite H
         | H : first_choice_text ?x = _ |- context [first_choice_text ?x] => rewrite H
         | H : _response_text ?x = _ |- context [_response_text ?x] => rewrite H
         end.

Ltac find_failure :=
  repeat first
    [ apply Exists_cons_hd;
      cbv [generation_failure init_failure failed_call blank_reply render_failure];
      rewrite_replies; reflexivity
    | apply Exists_cons_tl ].

Ltac stops_with_failure :=
  let resp := fresh "resp" in
  let Hstop := fresh "Hstop" in
  intros resp Hstop;
  first [ discriminate Hstop | clear Hstop; find_failure ].

Lemma init_model_causes gk ok m1 m2 m3 o t :
  init_model env gk ok m1 m2 m3 = (o, t) ->
  Forall (as_answered env) t
  /\ (forall r, o = Stop r -> Exists (fun e => generation_failure e = true) t).
Proof.
  unfold init_model. phase_cases.
  all: intros Heq; pair_eq Heq.
  all: split; [forall_events answered_ok|stops_with_failure].
Qed.

Lemma gemini_pipeline_causes cm em pers txt ref o t :
  gemini_pipeline env cm em pers txt ref = (o, t) ->
  Forall (as_answered env) t
  /\ (forall r, o = Stop r -> Exists (fun e => generation_failure e = true) t).
Proof.
  unfold gemini_pipeline. phase_cases.
  all: intros Heq; pair_eq Heq.
  all: split; [forall_events answered_ok|stops_with_failure].
Qed.

Lemma openai_pipeline_causes model pers txt ref o t :
  openai_pipeline env model pers txt ref = (o, t) ->
  Forall (as_answered env) t
  /\ (forall r, o = Stop r -> Exists (fun e => generation_failure e = true) t).
Proof.
  unfold openai_pipeline. phase_cases.
  all: intros Heq; pair_eq Heq.
  all: split; [forall_events answered_ok|stops_with_failure].
Qed.

(** The renderer stops on a failure of the converter or of the renderer,
    or when the header of the response cannot be encoded. *)
Lemma render_pdf_causes final_markdown output_pdf o t :
  render_pdf env final_markdown output_pdf = (o, t) ->
  Forall (as_answered env) t
  /\ (forall r, o = Stop r ->
        Exists (fun e => generation_failure e = true) t
        \/ (latin1 (attachment output_pdf) = false
            /\ r = Unhandled (latin1_error env (attachment output_pdf))))
  /\ (forall r, o = Go r -> latin1 (attachment output_pdf) = true).
Proof.
  unfold render_pdf. phase_cases.
  all: intros Heq; pair_eq Heq.
  all: split; [forall_events answered_ok|].
  all: split;
    [intros resp Hstop
    |intros resp Hgo; first [ discriminate Hgo | assumption ]].
  all: first [ discriminate Hstop
             | left; clear Hstop; find_failure; fail
             | right; injection Hstop as <-; split; [assumption|reflexivity] ].
Qed.

End PhaseCauses.

(* ------------------------------------------------------------------ *)
(** ** The handler, in detail *)

Ltac handler_cases H :=
  apply handle_run in H;
  destruct H as [exc0 Ho|out exc0 Ho Hm|out Ho Hm Ht|out Ho Hm Ht Hgk Hok
                |out exc0 Ho Hm Ht Hk Hu|out up o t' Ho Hm Ht Hk Hu Hg].

(** An event of a request that entered generation, with an observation [H]
    that no event before generation gives, is an event of the generation. *)
Ltac in_generation Hin H :=
  cbn [In] in Hin;
  destruct Hin as [<-|[<-|[<-|Hin]]]; try (cbn in H; discriminate H).

Ltac keys_missing :=
  match goal with
  | H1 : truthy ?a = false, H2 : truthy ?b = false,
    H : truthy ?a || truthy ?b = true |- _ =>
      rewrite H1, H2 in H; discriminate H
  end.

Lemma handle_prompts (env : Env) (req : Request) r t uploaded_text :
  handle env req = (r, t) ->
  uploads_of env req = inr uploaded_text ->
  Forall (prompt_as_built (persona_of req) (text_of req)
            (reference_text_of uploaded_text)) t.
Proof.
  intros H Hup. handler_cases H.
  1-5: repeat (apply Forall_cons; [exact I|]); apply Forall_nil.
  rewrite Hu in Hup. injection Hup as <-.
  repeat (apply Forall_cons; [exact I|]).
  exact (gen_run_prompts Hg).
Qed.

Lemma handle_fed (env : Env) (req : Request) r t uploaded_text ev st reply :
  handle env req = (r, t) ->
  uploads_of env req = inr uploaded_text ->
  In ev t ->
  reply_text ev = Some (st, reply) ->
  Forall (fed_by (persona_of req) (text_of req) (reference_text_of uploaded_text)
            st reply) t.
Proof.
  intros H Hup Hin Hrep. handler_cases H.
  1-5: each_event Hin ltac:(cbn [reply_text received] in Hrep; none_some Hrep).
  in_generation Hin Hrep.
  rewrite Hu in Hup. injection Hup as <-.
  repeat (apply Forall_cons; [exact I|]).
  exact (gen_run_fed Hg _ Hin Hrep).
Qed.

(** X1.  A request with a text and without any key is answered without any
    interaction with a provider, without a generation call and without
    rendering; the uploads are not read: the response is the 400 error, or
    the exception of the output path or of its directory. *)
Theorem missing_keys_no_provider (env : Env) (req : Request) :
  truthy (text_of req) = true ->
  truthy (google_key_of req) = false ->
  truthy (openai_key_of req) = false ->
  Forall (fun e => provider_of e = None /\ stage_of_call e = None
                   /\ is_render_event e = false)
    (snd (handle env req))
  /\ (fst (handle env req) = JSONResponse Err.key_required 400
      \/ exists exc,
           fst (handle env req) = Unhandled exc
           /\ (resolve_output_pdf env (output_path_of req) = inl exc
               \/ exists out,
                    resolve_output_pdf env (output_path_of req) = inr out
                    /\ mkdir env (parent out) = Some exc)).
Proof.
  intros Htxt Hg0 Ho0. destruct (handle env req) as [r t] eqn:H.
  cbn [fst snd]. handler_cases H; try contradict_truthy; try keys_missing.
  - split; [repeat constructor|]. right. exists exc0. split; [reflexivity|now left].
  - split; [repeat constructor|]. right. exists exc0. split; [reflexivity|].
    right. now exists out.
  - split; [repeat constructor|]. now left.
Qed.

(** X2.  The response of the internal error (no model configured) is never
    given: a request that passes the validation of the keys always selects a
    provider. *)
Theorem internal_error_unreachable (env : Env) (req : Request) :
  fst (handle env req) <> JSONResponse Err.no_model 500.
Proof.
  destruct (handle env req) as [r t] eqn:H. cbn [fst]. handler_cases H.
  1,2,5: intros E; discriminate E.
  1,2: intros E; injection E as _ E; discriminate E.
  exact (gen_run_no_internal_error Hg Hk).
Qed.

(** An exception of the initialisation of a provider. *)
Lemma handle_init_failure (env : Env) (req : Request) r t ev mt exc :
  handle env req = (r, t) ->
  In ev t -> init_failure ev = Some (mt, exc) ->
  r = JSONResponse
        (init_failure_error mt (google_model_name_of env req)
           (google_edit_model_name_of env req) exc) 400
  /\ stages_called t = []
  /\ Forall (fun e => is_render_event e = false) t.
Proof.
  intros H Hin Hf. handler_cases H.
  1-5: each_event Hin ltac:(cbn [init_failure received] in Hf; none_some Hf).
  in_generation Hin Hf.
  destruct (gen_run_init_failure Hg _ Hin Hf) as (-> & S & R).
  split; [reflexivity|]. split.
  - exact S.
  - repeat (apply Forall_cons; [reflexivity|]). exact R.
Qed.

(** X3.  When the initialisation of the chosen provider raises (the key is
    refused, a model or the client cannot be made), the response is the 400
    error of that provider with the text of the exception, and neither a
    generation call nor the renderer is reached. *)
Theorem init_failure_reported (env : Env) (req : Request) (ev : Event)
  (mt : ModelType) (exc : exn) :
  In ev (snd (handle env req)) ->
  init_failure ev = Some (mt, exc) ->
  fst (handle env req)
  = JSONResponse
      (init_failure_error mt (google_model_name_of env req)
         (google_edit_model_name_of env req) exc) 400
  /\ stages_called (snd (handle env req)) = []
  /\ Forall (fun e => is_render_event e = false) (snd (handle env req)).
Proof.
  intros Hin Hf. destruct (handle env req) as [r t] eqn:H. cbn [fst snd] in *.
  eapply handle_init_failure; eassumption.
Qed.

(** A generation call that gives no text. *)
Lemma handle_failed_call (env : Env) (req : Request) r t ev mt st exc :
  handle env req = (r, t) ->
  In ev t -> failed_call ev = Some (mt, st, exc) ->
  r = JSONResponse (stage_failure_error mt st exc) 500
  /\ Forall (fun e => is_render_event e = false
                      /\ forall st', stage_of_call e = Some st' ->
                                     stage_index st' <= stage_index st) t.
Proof.
  intros H Hin Hf. handler_cases H.
  1-5: each_event Hin ltac:(cbn [failed_call received] in Hf; none_some Hf).
  in_generation Hin Hf.
  destruct (gen_run_failed_call Hg _ Hin Hf) as (-> & F).
  split; [reflexivity|].
  repeat (apply Forall_cons;
          [split; [reflexivity|cbn [stage_of_call received]; intros ? [=]]|]).
  exact F.
Qed.

(** X4.  When a generation call gives no text, because the call raised (time
    limit, refused request, network) or because reading its reply raised,
    the response is the 500 error of that stage of that provider with the
    text of the exception; no later stage is called and nothing is
    rendered. *)
Theorem call_exception_reported (env : Env) (req : Request) (ev : Event)
  (mt : ModelType) (st : Stage) (exc : exn) :
  In ev (snd (handle env req)) ->
  failed_call ev = Some (mt, st, exc) ->
  fst (handle env req) = JSONResponse (stage_failure_error mt st exc) 500
  /\ Forall (fun e => is_render_event e = false
                      /\ forall st', stage_of_call e = Some st' ->
                                     stage_index st' <= stage_index st)
       (snd (handle env req)).
Proof.
  intros Hin Hf. destruct (handle env req) as [r t] eqn:H. cbn [fst snd] in *.
  eapply handle_failed_call; eassumption.
Qed.




(** X5.  A chat completion that has no choice, or whose first choice has no
    content, is reported like an exception of the call: the response is the
    500 error of the stage with the text of the exception that reading the
    reply raises, and nothing is rendered. *)
Theorem malformed_completion_reported (env : Env) (req : Request) (st : Stage)
  (model : string) (messages : list ChatMessage) (timeout temperature : nat)
  (response : ChatCompletion.Response) (exc : exn) :
  In (EvChatCreate st model messages timeout temperature (inr response))
     (snd (handle env req)) ->
  first_choice_text response = inl exc ->
  fst (handle env req) = JSONResponse (stage_failure_error openai st exc) 500
  /\ Forall (fun e => is_render_event e = false) (snd (handle env req)).
Proof.
  intros Hin Hexc. destruct (handle env req) as [r t] eqn:H. cbn [fst snd] in *.
  assert (Hf : failed_call
                 (EvChatCreate st model messages timeout temperature (inr response))
               = Some (openai, st, exc)).
  { cbn [failed_call]. now rewrite Hexc. }
  destruct (handle_failed_call env req _ H Hin Hf) as [-> F].
  split; [reflexivity|].
  eapply Forall_impl; [|exact F]. cbv beta. tauto.
Qed.

(** X6.  Every generation call is made with the time limit of 300 seconds
    and with the model of its stage: for the multi-turn provider the content
    model for analysis and draft and the edit model for the edit, without a
    temperature; for the chat-completion provider its one model, with the
    temperature 0.7 for the draft and 0.1 for the edit. *)
Theorem call_settings_fixed (env : Env) (req : Request) (mt : ModelType) :
  selected_provider (google_key_of req) (openai_key_of req) = Some mt ->
  Forall (settings_as_coded mt (google_model_name_of env req)
            (google_edit_model_name_of env req) (openai_model_name_of req))
    (snd (handle env req)).
Proof.
  intros Hmt. destruct (handle env req) as [r t] eqn:H. cbn [snd].
  handler_cases H.
  1-5: repeat (apply Forall_cons; [exact I|]); apply Forall_nil.
  repeat (apply Forall_cons; [exact I|]).
  exact (gen_run_settings Hg Hmt).
Qed.

(** X7.  The generation calls of a request are an initial part of the plan
    of its provider (analysis, draft, edit for the multi-turn provider;
    draft, edit for the chat-completion provider; none without a key): each
    stage is called at most once, in order, and no stage is retried. *)
Theorem stages_follow_plan (env : Env) (req : Request) :
  exists rest,
    planned_stages req = (stages_called (snd (handle env req)) ++ rest)%list.
Proof.
  destruct (handle env req) as [r t] eqn:H. cbn [snd].
  handler_cases H.
  1-5: eexists; reflexivity.
  change (stages_called (received req :: EvMkdir (parent out) None
            :: EvLog (log_line (Log.files_processed up)) :: t'))
    with (stages_called t').
  unfold planned_stages.
  destruct (selected_provider (google_key_of req) (openai_key_of req)) as [mt|] eqn:Hmt.
  - exact (gen_run_plan Hg Hmt).
  - unfold selected_provider in Hmt.
    destruct (truthy (google_key_of req)); [discriminate Hmt|].
    destruct (truthy (openai_key_of req)); discriminate.
Qed.

(** X8.  The reply of a stage, stripped, is what the next prompt is built
    from: the draft prompt carries the summary that the analysis call
    returned, the edit prompt the draft that the draft call returned. *)
Theorem stage_feeds_next (env : Env) (req : Request) (uploaded_text : list string)
  (ev : Event) (st : Stage) (reply : string) :
  uploads_of env req = inr uploaded_text ->
  In ev (snd (handle env req)) ->
  reply_text ev = Some (st, reply) ->
  Forall (fed_by (persona_of req) (text_of req) (reference_text_of uploaded_text)
            st reply)
    (snd (handle env req)).
Proof.
  intros Hup Hin Hrep. destruct (handle env req) as [r t] eqn:H. cbn [snd] in *.
  eapply handle_fed; eassumption.
Qed.

(** X9.  The chat-completion provider is never asked for an analysis; its
    draft request is the draft prompt with the fixed summary as the system
    message followed by one fixed user message, and its edit request is an
    edit prompt followed by one fixed user message. *)
Theorem chat_requests_shape (env : Env) (req : Request) (uploaded_text : list string) :
  uploads_of env req = inr uploaded_text ->
  Forall (chat_messages_as_coded (persona_of req) (text_of req)
            (reference_text_of uploaded_text))
    (snd (handle env req)).
Proof.
  intros Hup. destruct (handle env req) as [r t] eqn:H. cbn [snd] in *.
  handler_cases H.
  1-5: repeat (apply Forall_cons; [exact I|]); apply Forall_nil.
  rewrite Hu in Hup. injection Hup as <-.
  repeat (apply Forall_cons; [exact I|]).
  exact (gen_run_chat Hg).
Qed.

(** X10.  A failure while rendering decides the response: an exception of
    the PDF renderer gives the 500 error with its text, an exception of the
    markdown converter, which is called outside any handler, leaves the
    request unanswered with that exception. *)
Theorem render_failure_decides (env : Env) (req : Request) (ev : Event)
  (resp : Response) :
  In ev (snd (handle env req)) ->
  render_failure ev = Some resp ->
  fst (handle env req) = resp.
Proof.
  intros Hin Hf. destruct (handle env req) as [r t] eqn:H. cbn [fst snd] in *.
  handler_cases H.
  1-5: each_event Hin ltac:(cbn [render_failure received] in Hf; none_some Hf).
  in_generation Hin Hf.
  now rewrite (gen_run_render_failure Hg _ Hin Hf).
Qed.

(** X11.  The status of an error response is 400 or 500, and 400 only when
    no generation call was made. *)
Theorem error_status_codes (env : Env) (req : Request) (msg : string) (code : nat) :
  fst (handle env req) = JSONResponse msg code ->
  (code = 400 /\ stages_called (snd (handle env req)) = []) \/ code = 500.
Proof.
  intros Hresp. destruct (handle env req) as [r t] eqn:H. cbn [fst snd] in *.
  handler_cases H.
  1,2,5: discriminate Hresp.
  1,2: injection Hresp as _ <-; left; split; reflexivity.
  exact (gen_run_status Hg Hresp).
Qed.

(** X12.  The document of a successful request is the rendering of the text
    of the edit stage: the edit call returned a text that is not blank, the
    converter turned it, stripped, into HTML, and the body of the response
    is what the renderer made of that HTML. *)
Theorem document_renders_edit_reply (env : Env) (req : Request)
  (body media disposition : string) :
  fst (handle env req) = StreamingResponse body media disposition ->
  exists ev final_markdown html,
    In ev (snd (handle env req))
    /\ reply_text ev = Some (Edit, final_markdown)
    /\ truthy final_markdown = true
    /\ markdown env final_markdown = inr html
    /\ write_pdf env html = inr body.
Proof.
  intros Hresp. destruct (handle env req) as [r t] eqn:H. cbn [fst snd] in *.
  handler_cases H; try discriminate Hresp.
  destruct (gen_run_final Hg Hresp) as (ev & fm & html & Hin & Hrest).
  exists ev, fm, html. split; [|exact Hrest].
  cbn [In]. auto.
Qed.

(** ** Causes of the errors *)

Lemma Exists_app_r (P : Event -> Prop) (l1 l2 : list Event) :
  Exists P l2 -> Exists P (l1 ++ l2).
Proof. intros H. apply Exists_app. now right. Qed.

Lemma pipeline_of_causes (env : Env) mt m1 m2 m3 pers txt ref o t :
  pipeline_of env mt m1 m2 m3 pers txt ref = (o, t) ->
  Forall (as_answered env) t
  /\ (forall r, o = Stop r -> Exists (fun e => generation_failure e = true) t).
Proof.
  destruct mt; cbn [pipeline_of]; intros H.
  - eapply gemini_pipeline_causes; exact H.
  - eapply openai_pipeline_causes; exact H.
Qed.

(** A generation ends with the document, or with the exception of a header
    that cannot be encoded, or an interaction failed; every interaction
    carries what the environment answered. *)
Lemma gen_run_causes (env : Env) gk ok m1 m2 m3 pers txt ref out o t :
  gen_run env gk ok m1 m2 m3 pers txt ref out o t ->
  truthy gk || truthy ok = true ->
  Forall (as_answered env) t
  /\ ((latin1 (attachment out) = true
       /\ exists body,
            response_of o
            = StreamingResponse body "application/pdf" (attachment out))
      \/ (latin1 (attachment out) = false
          /\ response_of o = Unhandled (latin1_error env (attachment out)))
      \/ Exists (fun e => generation_failure e = true) t).
Proof.
  intros Hrun Hkeys.
  destruct Hrun as [r t1 Hi|t1 Hi|mt0 t1 r t2 Hi Hp|mt0 t1 fm t2 o3 t3 Hi Hp Hr].
  - apply init_model_causes in Hi as [A C]. split; [exact A|].
    right. right. exact (C _ eq_refl).
  - pose proof Hi as Hi'. apply init_model_details in Hi' as (_ & _ & J).
    destruct (J eq_refl) as [Hg Ho]. rewrite Hg, Ho in Hkeys. discriminate Hkeys.
  - apply init_model_causes in Hi as [A1 _].
    apply pipeline_of_causes in Hp as [A2 C]. split.
    + now apply Forall_app_intro.
    + right. right. apply Exists_app_r. exact (C _ eq_refl).
  - apply init_model_causes in Hi as [A1 _].
    apply pipeline_of_causes in Hp as [A2 _].
    pose proof Hr as Hr'. apply render_pdf_causes in Hr' as (A3 & C & G). split.
    + repeat apply Forall_app_intro; assumption.
    + destruct o3 as [resp|resp].
      * left. split; [exact (G _ eq_refl)|].
        apply render_pdf_document in Hr as [_ Hgo].
        destruct (Hgo _ eq_refl) as (html & body & _ & _ & -> & _).
        exists body. reflexivity.
      * destruct (C _ eq_refl) as [F|[L ->]].
        -- right. right. apply Exists_app_r, Exists_app_r. exact F.
        -- right. left. split; [exact L|reflexivity].
Qed.

(** After validation the response is the document, or the exception of a
    header that cannot be encoded, or an interaction failed. *)
Lemma handle_causes (env : Env) (req : Request) r t output_pdf uploaded_text :
  handle env req = (r, t) ->
  resolve_output_pdf env (output_path_of req) = inr output_pdf ->
  mkdir env (parent output_pdf) = None ->
  truthy (text_of req) = true ->
  truthy (google_key_of req) || truthy (openai_key_of req) = true ->
  uploads_of env req = inr uploaded_text ->
  Forall (as_answered env) t
  /\ ((latin1 (attachment output_pdf) = true
       /\ exists body,
            r = StreamingResponse body "application/pdf" (attachment output_pdf))
      \/ (latin1 (attachment output_pdf) = false
          /\ r = Unhandled (latin1_error env (attachment output_pdf)))
      \/ Exists (fun e => generation_failure e = true) t).
Proof.
  intros H Hout Hmk Htxt Hkeys Hup. handler_cases H.
  - rewrite Hout in Ho. discriminate Ho.
  - rewrite Hout in Ho. injection Ho as <-. rewrite Hmk in Hm. discriminate Hm.
  - contradict_truthy.
  - rewrite Hgk, Hok in Hkeys. discriminate Hkeys.
  - rewrite Hup in Hu. discriminate Hu.
  - rewrite Hout in Ho. injection Ho as <-.
    destruct (gen_run_causes Hg Hk) as [A C]. split.
    + apply Forall_cons; [exact I|].
      apply Forall_cons; [cbv [as_answered]; now rewrite Hm|].
      apply Forall_cons; [exact I|]. exact A.
    + destruct C as [C|[C|C]]; [now left|right; now left|right; right].
      do 3 apply Exists_cons_tl. exact C.
Qed.

(** X13.  Every error response has its cause: it is the validation error of
    the text or of the keys, or an interaction with the provider or with the
    renderer failed (an initialisation or a call raised, a reply had no text
    or a blank one, the renderer raised). *)
Theorem errors_have_causes (env : Env) (req : Request) (msg : string) (code : nat) :
  fst (handle env req) = JSONResponse msg code ->
  (msg = Err.text_required /\ code = 400 /\ truthy (text_of req) = false)
  \/ (msg = Err.key_required /\ code = 400
      /\ truthy (google_key_of req) = false /\ truthy (openai_key_of req) = false)
  \/ Exists (fun e => generation_failure e = true) (snd (handle env req)).
Proof.
  intros Hresp. destruct (handle env req) as [r t] eqn:H. cbn [fst snd] in *.
  handler_cases H.
  1,2,5: discriminate Hresp.
  - injection Hresp as <- <-. left. auto.
  - injection Hresp as <- <-. right. left. auto.
  - right. right.
    destruct (gen_run_causes Hg Hk) as [_ [(_ & body & C)|[[_ C]|C]]].
    + rewrite Hresp in C. discriminate C.
    + rewrite Hresp in C. discriminate C.
    + do 3 apply Exists_cons_tl. exact C.
Qed.

Lemma answered_without_failure (env : Env) (e : Event) :
  services_work env -> as_answered env e -> generation_failure e = false.
Proof.
  intros (Hc & Hm & Ho & Hg & Hch & Hmd & Hw) A.
  destruct e as [m|p r|k r|m r|st m p tm r|k r|st m ms tm tp r|s r|h r];
    cbv [as_answered] in A; try subst r.
  - reflexivity.
  - reflexivity.
  - cbv [generation_failure init_failure failed_call blank_reply render_failure].
    now rewrite Hc.
  - cbv [generation_failure init_failure failed_call blank_reply render_failure].
    now rewrite Hm.
  - destruct (Hg st m p tm) as (resp & text & -> & Hf & Ht).
    cbv [generation_failure init_failure failed_call blank_reply render_failure].
    now rewrite Hf, Ht.
  - cbv [generation_failure init_failure failed_call blank_reply render_failure].
    now rewrite Ho.
  - destruct (Hch st m ms tm tp) as (resp & text & -> & Hf & Ht).
    cbv [generation_failure init_failure failed_call blank_reply render_failure].
    now rewrite Hf, Ht.
  - destruct (Hmd s) as (html & ->). reflexivity.
  - destruct (Hw h) as (body & ->). reflexivity.
Qed.

(** X14.  When the services work, a request with a text and a key, whose
    output directory can be made and whose uploads can be read, is answered
    with the document, named after the output path, provided that the header
    made of that name can be encoded in Latin-1; when it cannot, building
    the response raises and the request is left without a response. *)
Theorem working_services_deliver (env : Env) (req : Request) (out : Path)
  (uploaded_text : list string) :
  services_work env ->
  resolve_output_pdf env (output_path_of req) = inr out ->
  mkdir env (parent out) = None ->
  truthy (text_of req) = true ->
  truthy (google_key_of req) || truthy (openai_key_of req) = true ->
  uploads_of env req = inr uploaded_text ->
  (latin1 (attachment out) = true ->
   exists body,
     fst (handle env req)
     = StreamingResponse body "application/pdf" (attachment out))
  /\ (latin1 (attachment out) = false ->
      fst (handle env req) = Unhandled (latin1_error env (attachment out))).
Proof.
  intros Hs Hout Hmk Htxt Hkeys Hup.
  destruct (handle env req) as [r t] eqn:H. cbn [fst].
  destruct (handle_causes _ _ H Hout Hmk Htxt Hkeys Hup) as [A C].
  assert (N : ~ Exists (fun e => generation_failure e = true) t).
  { intros F. apply Exists_exists in F as (e & Hin & Hfail).
    rewrite Forall_forall in A.
    rewrite (@answered_without_failure env e Hs (A e Hin)) in Hfail.
    discriminate Hfail. }
  split; intros L.
  - destruct C as [[_ C]|[[L' _]|C]]; [exact C| |contradiction].
    rewrite L in L'. discriminate L'.
  - destruct C as [[L' _]|[[_ C]|C]]; [|exact C|contradiction].
    rewrite L in L'. discriminate L'.
Qed.

(* ------------------------------------------------------------------ *)
(** ** The extraction, upload after upload *)

Lemma extract_pages_acc (pages : list (exn + string)) (texts : list string) :
  extract_pages texts pages = after texts (extract_pages [] pages).
Proof.
  revert texts. induction pages as [|[exc|page_text] pages IH]; intros texts.
  - cbn. now rewrite app_nil_r.
  - reflexivity.
  - cbn [extract_pages]. destruct (truthy page_text).
    + rewrite (IH (texts ++ [page_text])%list), (IH ([] ++ [page_text])%list).
      destruct (extract_pages [] pages); cbn [after app]; [reflexivity|].
      now rewrite <- app_assoc.
    + apply IH.
Qed.

Lemma extract_loop_acc (env : Env) (uploads : list UploadFile) (texts : list string) :
  extract_loop env texts uploads = after texts (extract_loop env [] uploads).
Proof.
  revert texts. induction uploads as [|u uploads IH]; intros texts.
  - cbn. now rewrite app_nil_r.
  - cbn [extract_loop]. cbv zeta.
    destruct (negb (truthy (file_bytes u))); [apply IH|].
    destruct (endswith _ ".pdf").
    + destruct (PdfReader env (file_bytes u)) as [exc|pages]; [reflexivity|].
      rewrite (extract_pages_acc pages texts).
      destruct (extract_pages [] pages) as [exc|more]; cbn [after app]; [reflexivity|].
      rewrite (IH (texts ++ more)%list), (IH more).
      destruct (extract_loop env [] uploads); cbn [after]; [reflexivity|].
      now rewrite <- app_assoc.
    + destruct (endswith _ ".txt").
      * rewrite (IH (texts ++ _)%list), (IH ([] ++ _)%list).
        destruct (extract_loop env [] uploads); cbn [after app]; [reflexivity|].
        now rewrite <- app_assoc.
      * apply IH.
Qed.

Lemma extract_loop_app (env : Env) (l1 l2 : list UploadFile) (texts : list string) :
  extract_loop env texts (l1 ++ l2)
  = match extract_loop env texts l1 with
    | inl exc => inl exc
    | inr texts' => extract_loop env texts' l2
    end.
Proof.
  revert texts. induction l1 as [|u l1 IH]; intros texts; [reflexivity|].
  cbn [app extract_loop]. cbv zeta.
  destruct (negb (truthy (file_bytes u))); [apply IH|].
  destruct (endswith _ ".pdf").
  - destruct (PdfReader env (file_bytes u)) as [exc|pages]; [reflexivity|].
    destruct (extract_pages texts pages); [reflexivity|apply IH].
  - destruct (endswith _ ".txt"); apply IH.
Qed.

(** X15.  The uploads are read one after the other: the fragments of a list
    of uploads followed by another are the fragments of the first followed
    by those of the second.  An exception in the first is the exception of
    the whole, and an exception in the second discards the fragments of the
    first. *)
Theorem uploads_extraction_composes (env : Env) (l1 l2 : list UploadFile) :
  _extract_text_from_uploads env (l1 ++ l2)
  = match _extract_text_from_uploads env l1 with
    | inl exc => inl exc
    | inr texts1 =>
        match _extract_text_from_uploads env l2 with
        | inl exc => inl exc
        | inr texts2 => inr (texts1 ++ texts2)%list
        end
    end.
Proof.
  unfold _extract_text_from_uploads. rewrite extract_loop_app.
  destruct (extract_loop env [] l1) as [exc|texts1]; [reflexivity|].
  rewrite extract_loop_acc. reflexivity.
Qed.

Lemma extract_pages_fails (pages : list (exn + string)) :
  (exists exc, extract_pages [] pages = inl exc) <-> all_pages pages = None.
Proof.
  induction pages as [|[exc|page_text] pages IH].
  - split; [intros [exc H]; discriminate H|intros H; discriminate H].
  - split; [reflexivity|]. intros _. now exists exc.
  - cbn [extract_pages all_pages].
    assert (E : (exists exc, (if truthy page_text
                              then extract_pages ([] ++ [page_text])%list pages
                              else extract_pages [] pages) = inl exc)
                <-> exists exc, extract_pages [] pages = inl exc).
    { destruct (truthy page_text); [|tauto].
      rewrite extract_pages_acc.
      destruct (extract_pages [] pages) as [exc|more]; cbn [after]; [tauto|].
      split; intros [exc H]; discriminate H. }
    rewrite E, IH. destruct (all_pages pages); cbn [option_map]; split; congruence.
Qed.

Lemma upload_name_lower (u : UploadFile) :
  lower (match filename u with
         | Some f => or_else f ""
         | None => ""
         end) = upload_name u.
Proof.
  unfold upload_name. destruct (filename u); [now rewrite or_else_empty|reflexivity].
Qed.

(** X16.  The extraction raises exactly when one of the uploads is a page
    document with a body that the reader cannot read, or a page of which
    cannot be read; empty bodies, text files and files of other types never
    make it raise. *)
Theorem uploads_fail_on_unreadable_documents (env : Env) (uploads : list UploadFile) :
  ((exists exc, _extract_text_from_uploads env uploads = inl exc)
   <-> Exists (fun u => pages_of env u = None) uploads)
  /\ forall u, pages_of env u = None ->
       truthy (file_bytes u) = true /\ is_page_document u = true.
Proof.
  split.
  - unfold _extract_text_from_uploads.
    induction uploads as [|u uploads IH].
    + split; [intros [exc H]; discriminate H|intros H; inversion H].
    + rewrite Exists_cons, <- IH. clear IH.
      cbn [extract_loop]. cbv zeta. rewrite upload_name_lower.
      unfold pages_of, is_page_document.
      destruct (truthy (file_bytes u)); cbn [negb andb].
      2: { split; [tauto|]. intros [H|H]; [discriminate H|exact H]. }
      destruct (endswith (upload_name u) ".pdf").
      * destruct (PdfReader env (file_bytes u)) as [exc|pages].
        { split; [now left|]. intros _. now exists exc. }
        rewrite <- extract_pages_fails.
        destruct (extract_pages [] pages) as [exc|more].
        { split; [intros _; left; now exists exc|]. intros _. now exists exc. }
        rewrite extract_loop_acc.
        destruct (extract_loop env [] uploads) as [exc|rest]; cbn [after].
        { split; [intros _; right; now exists exc|]. intros _. now exists exc. }
        split; [intros [exc H]; discriminate H|].
        intros [[exc H]|[exc H]]; discriminate H.
      * assert (E : forall texts,
                   (exists exc, extract_loop env texts uploads = inl exc)
                   <-> exists exc, extract_loop env [] uploads = inl exc).
        { intros texts. rewrite extract_loop_acc.
          destruct (extract_loop env [] uploads); cbn [after]; [tauto|].
          split; intros [exc H]; discriminate H. }
        destruct (endswith (upload_name u) ".txt"); [rewrite E|].
        all: split; [tauto|]; intros [H|H]; [discriminate H|exact H].
  - intros u. unfold pages_of.
    destruct (truthy (file_bytes u)); cbn [andb]; [|intros H; discriminate H].
    destruct (is_page_document u); [auto|intros H; discriminate H].
Qed.

(* ------------------------------------------------------------------ *)
(** ** The inputs in the prompts *)

(** X18.  What the user sent reaches the provider as it is: every draft
    prompt contains the main text and the reference text of the request,
    every draft prompt that follows an analysis contains the summary that the
    analysis returned, and every edit prompt contains the draft that the draft
    call returned. *)
Theorem inputs_reach_prompts (env : Env) (req : Request) (uploaded_text : list string) :
  uploads_of env req = inr uploaded_text ->
  Forall (fun e => prompt_contains Draft (text_of req) e
                   /\ prompt_contains Draft (reference_text_of uploaded_text) e)
    (snd (handle env req))
  /\ forall ev reply,
       In ev (snd (handle env req)) ->
       (reply_text ev = Some (Analysis, reply) ->
        Forall (prompt_contains Draft reply) (snd (handle env req)))
       /\ (reply_text ev = Some (Draft, reply) ->
           Forall (prompt_contains Edit reply) (snd (handle env req))).
Proof.
  intros Hup. destruct (handle env req) as [r t] eqn:H. cbn [snd]. split.
  - eapply Forall_impl; [|exact (handle_prompts _ _ H Hup)].
    intros e B. unfold prompt_as_built in B.
    split; intros p Hp; rewrite Hp in B; cbn [stage_prompt] in B;
      destruct B as [summary ->]; apply draft_prompt_inputs.
  - intros ev reply Hin. split; intros Hrep.
    + eapply Forall_impl; [|exact (handle_fed _ _ _ H Hup Hin Hrep)].
      intros e F p Hp. unfold fed_by in F. rewrite Hp in F. subst p.
      apply draft_prompt_inputs.
    + eapply Forall_impl; [|exact (handle_fed _ _ _ H Hup Hin Hrep)].
      intros e F p Hp. unfold fed_by in F. rewrite Hp in F. subst p.
      apply edit_prompt_draft.
Qed.

(* ------------------------------------------------------------------ *)
(** ** Examples of the further properties *)

Lemma missing_keys_no_provider_witness :
  truthy (text_of Failing.req_no_keys) = true
  /\ truthy (google_key_of Failing.req_no_keys) = false
  /\ truthy (openai_key_of Failing.req_no_keys) = false
  /\ Forall (fun e => provider_of e = None /\ stage_of_call e = None
                      /\ is_render_event e = false)
       (snd (handle Demo.env Failing.req_no_keys))
  /\ fst (handle Demo.env Failing.req_no_keys) = JSONResponse Err.key_required 400.
Proof.
  assert (Ht : truthy (text_of Failing.req_no_keys) = true) by reflexivity.
  assert (Hg : truthy (google_key_of Failing.req_no_keys) = false) by reflexivity.
  assert (Ho : truthy (openai_key_of Failing.req_no_keys) = false) by reflexivity.
  repeat (split; [assumption|]).
  destruct (@missing_keys_no_provider Demo.env Failing.req_no_keys Ht Hg Ho)
    as [Hq _].
  split; [exact Hq|]. vm_compute. reflexivity.
Defined.

Lemma init_failure_reported_witness :
  exists ev,
    In ev (snd (handle Failing.env_bad_key Demo.req_google))
    /\ init_failure ev = Some (gemini, "invalid API key")
    /\ fst (handle Failing.env_bad_key Demo.req_google)
       = JSONResponse
           (Err.gemini_init_failed "gemini-2.5-pro" "gemini-2.5-pro" "invalid API key")
           400
    /\ stages_called (snd (handle Failing.env_bad_key Demo.req_google)) = [].
Proof.
  exists (nth 3 (snd (handle Failing.env_bad_key Demo.req_google)) (EvLog "")).
  assert (Hin : In (nth 3 (snd (handle Failing.env_bad_key Demo.req_google))
                      (EvLog ""))
                  (snd (handle Failing.env_bad_key Demo.req_google))).
  { apply nth_In. vm_compute. lia. }
  assert (Hf : init_failure
                 (nth 3 (snd (handle Failing.env_bad_key Demo.req_google)) (EvLog ""))
               = Some (gemini, "invalid API key")).
  { vm_compute. reflexivity. }
  split; [exact Hin|]. split; [exact Hf|].
  destruct (@init_failure_reported Failing.env_bad_key Demo.req_google _ _ _ Hin Hf)
    as (Hr & Hs & _).
  split; [exact Hr|exact Hs].
Defined.

Lemma call_exception_reported_witness :
  exists ev,
    In ev (snd (handle Failing.env_draft_times_out Demo.req_google))
    /\ failed_call ev = Some (gemini, Draft, "Deadline Exceeded")
    /\ fst (handle Failing.env_draft_times_out Demo.req_google)
       = JSONResponse (Err.gemini_draft_error "Deadline Exceeded") 500
    /\ Forall (fun e => is_render_event e = false
                        /\ forall st', stage_of_call e = Some st' ->
                                       stage_index st' <= stage_index Draft)
         (snd (handle Failing.env_draft_times_out Demo.req_google)).
Proof.
  exists (nth 10 (snd (handle Failing.env_draft_times_out Demo.req_google)) (EvLog "")).
  assert (Hin : In (nth 10 (snd (handle Failing.env_draft_times_out Demo.req_google))
                      (EvLog ""))
                  (snd (handle Failing.env_draft_times_out Demo.req_google))).
  { apply nth_In. vm_compute. lia. }
  assert (Hf : failed_call
                 (nth 10 (snd (handle Failing.env_draft_times_out Demo.req_google))
                    (EvLog ""))
               = Some (gemini, Draft, "Deadline Exceeded")).
  { vm_compute. reflexivity. }
  split; [exact Hin|]. split; [exact Hf|].
  exact (@call_exception_reported Failing.env_draft_times_out Demo.req_google
           _ _ _ _ Hin Hf).
Defined.

Lemma malformed_completion_reported_witness :
  first_choice_text {| ChatCompletion.choices := [] |} = inl Err.index_error
  /\ fst (handle Failing.env_no_choices Demo.req_openai)
     = JSONResponse (Err.openai_draft_error Err.index_error) 500
  /\ Forall (fun e => is_render_event e = false)
       (snd (handle Failing.env_no_choices Demo.req_openai)).
Proof.
  split; [reflexivity|].
  apply (@malformed_completion_reported Failing.env_no_choices Demo.req_openai
           Draft "gpt-4o-mini"
           [("system",
             draft_prompt "formal" "Sintese direta realizada pelo modelo OpenAI."
               "Company history" "Nenhuma");
            ("user", "Produza o ebook completo seguindo fielmente as instrucoes acima.")]
           GEMINI_TIMEOUT 7 {| ChatCompletion.choices := [] |} Err.index_error).
  - apply nth_error_In with (n := 6). vm_compute. reflexivity.
  - reflexivity.
Defined.

Lemma call_settings_fixed_witness :
  selected_provider (google_key_of Demo.req_openai) (openai_key_of Demo.req_openai)
  = Some openai
  /\ Forall (settings_as_coded openai
               (google_model_name_of Demo.env Demo.req_openai)
               (google_edit_model_name_of Demo.env Demo.req_openai)
               (openai_model_name_of Demo.req_openai))
       (snd (handle Demo.env Demo.req_openai)).
Proof.
  assert (Hs : selected_provider (google_key_of Demo.req_openai)
                 (openai_key_of Demo.req_openai) = Some openai) by reflexivity.
  split; [exact Hs|].
  exact (@call_settings_fixed Demo.env Demo.req_openai openai Hs).
Defined.

Lemma stage_feeds_next_witness :
  exists ev,
    uploads_of Demo.env Demo.req_google = inr []
    /\ In ev (snd (handle Demo.env Demo.req_google))
    /\ reply_text ev = Some (Analysis, "## Resumo")
    /\ Forall (fed_by (persona_of Demo.req_google) (text_of Demo.req_google)
                 (reference_text_of []) Analysis "## Resumo")
         (snd (handle Demo.env Demo.req_google)).
Proof.
  exists (nth 8 (snd (handle Demo.env Demo.req_google)) (EvLog "")).
  assert (Hup : uploads_of Demo.env Demo.req_google = inr []) by reflexivity.
  assert (Hin : In (nth 8 (snd (handle Demo.env Demo.req_google)) (EvLog ""))
                  (snd (handle Demo.env Demo.req_google))).
  { apply nth_In. vm_compute. lia. }
  assert (Hr : reply_text (nth 8 (snd (handle Demo.env Demo.req_google)) (EvLog ""))
               = Some (Analysis, "## Resumo")).
  { vm_compute. reflexivity. }
  split; [exact Hup|]. split; [exact Hin|]. split; [exact Hr|].
  exact (@stage_feeds_next Demo.env Demo.req_google [] _ _ _ Hup Hin Hr).
Defined.

Lemma chat_requests_shape_witness :
  uploads_of Demo.env Demo.req_openai = inr []
  /\ Forall (chat_messages_as_coded (persona_of Demo.req_openai)
               (text_of Demo.req_openai) (reference_text_of []))
       (snd (handle Demo.env Demo.req_openai)).
Proof.
  assert (Hup : uploads_of Demo.env Demo.req_openai = inr []) by reflexivity.
  split; [exact Hup|].
  exact (@chat_requests_shape Demo.env Demo.req_openai [] Hup).
Defined.

Lemma render_failure_decides_witness :
  exists ev,
    In ev (snd (handle Failing.env_markdown_fails Demo.req_google))
    /\ render_failure ev = Some (Unhandled "maximum recursion depth exceeded")
    /\ fst (handle Failing.env_markdown_fails Demo.req_google)
       = Unhandled "maximum recursion depth exceeded".
Proof.
  exists (nth 13 (snd (handle Failing.env_markdown_fails Demo.req_google)) (EvLog "")).
  assert (Hin : In (nth 13 (snd (handle Failing.env_markdown_fails Demo.req_google))
                      (EvLog ""))
                  (snd (handle Failing.env_markdown_fails Demo.req_google))).
  { apply nth_In. vm_compute. lia. }
  assert (Hf : render_failure
                 (nth 13 (snd (handle Failing.env_markdown_fails Demo.req_google))
                    (EvLog ""))
               = Some (Unhandled "maximum recursion depth exceeded")).
  { vm_compute. reflexivity. }
  split; [exact Hin|]. split; [exact Hf|].
  exact (@render_failure_decides Failing.env_markdown_fails Demo.req_google _ _ Hin Hf).
Defined.

Lemma error_status_codes_witness :
  fst (handle Failing.env_bad_key Demo.req_google)
  = JSONResponse
      (Err.gemini_init_failed "gemini-2.5-pro" "gemini-2.5-pro" "invalid API key") 400
  /\ ((400 = 400 /\ stages_called (snd (handle Failing.env_bad_key Demo.req_google)) = [])
      \/ 400 = 500).
Proof.
  assert (H : fst (handle Failing.env_bad_key Demo.req_google)
              = JSONResponse
                  (Err.gemini_init_failed "gemini-2.5-pro" "gemini-2.5-pro"
                     "invalid API key") 400)
    by (vm_compute; reflexivity).
  split; [exact H|].
  exact (@error_status_codes Failing.env_bad_key Demo.req_google _ _ H).
Defined.

Lemma document_renders_edit_reply_witness :
  fst (handle Demo.env Demo.req_openai)
  = StreamingResponse "%PDF-1.7 <h1># Ebook</h1>" "application/pdf"
      ("attachment; filename=" ++ dq ++ "ebook_gerado.pdf" ++ dq)
  /\ exists ev final_markdown html,
       In ev (snd (handle Demo.env Demo.req_openai))
       /\ reply_text ev = Some (Edit, final_markdown)
       /\ truthy final_markdown = true
       /\ markdown Demo.env final_markdown = inr html
       /\ write_pdf Demo.env html = inr "%PDF-1.7 <h1># Ebook</h1>".
Proof.
  assert (D : fst (handle Demo.env Demo.req_openai)
              = StreamingResponse "%PDF-1.7 <h1># Ebook</h1>" "application/pdf"
                  ("attachment; filename=" ++ dq ++ "ebook_gerado.pdf" ++ dq))
    by (vm_compute; reflexivity).
  split; [exact D|].
  exact (@document_renders_edit_reply Demo.env Demo.req_openai _ _ _ D).
Defined.

Lemma errors_have_causes_witness :
  fst (handle Failing.env_draft_times_out Demo.req_google)
  = JSONResponse (Err.gemini_draft_error "Deadline Exceeded") 500
  /\ Exists (fun e => generation_failure e = true)
       (snd (handle Failing.env_draft_times_out Demo.req_google)).
Proof.
  assert (H : fst (handle Failing.env_draft_times_out Demo.req_google)
              = JSONResponse (Err.gemini_draft_error "Deadline Exceeded") 500)
    by (vm_compute; reflexivity).
  split; [exact H|].
  destruct (@errors_have_causes Failing.env_draft_times_out Demo.req_google _ _ H)
    as [(_ & C & _)|[(_ & C & _)|C]]; [discriminate C|discriminate C|exact C].
Defined.

Lemma working_services_deliver_witness :
  services_work Demo.env
  /\ (exists body,
        fst (handle Demo.env Demo.req_both_keys)
        = StreamingResponse body "application/pdf"
            (attachment (of_string "/srv/app/ebook_gerado.pdf")))
  /\ latin1 (attachment (of_string "/srv/app/日本.pdf")) = false
  /\ fst (handle Demo.env (Demo.req_out "日本.pdf"))
     = Unhandled "'latin-1' codec can't encode characters".
Proof.
  assert (S : services_work Demo.env).
  { repeat split; intros; try reflexivity.
    - destruct st; do 2 eexists; repeat split; reflexivity.
    - destruct st; do 2 eexists; repeat split; reflexivity.
    - eexists; reflexivity.
    - eexists; reflexivity. }
  split; [exact S|]. split.
  - apply (@working_services_deliver Demo.env Demo.req_both_keys
             (of_string "/srv/app/ebook_gerado.pdf") [] S); reflexivity.
  - split; [reflexivity|].
    apply (@working_services_deliver Demo.env (Demo.req_out "日本.pdf")
             (of_string "/srv/app/日本.pdf") [] S); reflexivity.
Defined.

Lemma inputs_reach_prompts_witness :
  uploads_of Demo.env (Demo.req_uploads [Demo.text_file]) = inr ["plain notes"]
  /\ Forall (fun e => prompt_contains Draft "Company history" e
                      /\ prompt_contains Draft "plain notes" e)
       (snd (handle Demo.env (Demo.req_uploads [Demo.text_file]))).
Proof.
  assert (Hup : uploads_of Demo.env (Demo.req_uploads [Demo.text_file])
                = inr ["plain notes"]) by reflexivity.
  split; [exact Hup|].
  exact (proj1 (@inputs_reach_prompts Demo.env (Demo.req_uploads [Demo.text_file])
                  ["plain notes"] Hup)).
Defined.
